(** * Skywriter (MGC3130) driver: a shallow embedding of [sky.py]

    The file follows the layout of the Python module: constants and tables,
    the two helpers, the bus and pin operations, the configuration
    handshake, the frame transport and the frame decoder.

    Conventions.
    - A [bytearray] is a [list byte]; indexing it yields a Python int, here
      a [Z] in [0, 255].  An index outside the array raises [IndexError].
    - Python floats are modelled by the rational they denote.  The only
      float computation of the module is [round(v / 65536.0, 4)]: the
      division of a 16-bit integer by a power of two is exact, and [round]
      to four digits yields the nearest decimal with four digits (ties to
      even), which is what the model keeps.
    - [print] appends a line to the standard output; lines are kept in
      structured form, one constructor per [print] statement.
    - Exceptions are the [Raise] outcome of a computation. *)

From Stdlib Require Import ZArith QArith List String Lia Bool.
From Stdlib.Strings Require Import Byte.
From stdpp Require Import base option list gmap.

Local Open Scope Z_scope.

(** ** Identifiers and masks *)

Definition SW_ADDR : Z := 0x42.

Definition SW_SYSTEM_STATUS : Z := 0x15.
Definition SW_REQUEST_MSG : Z := 0x06.
Definition SW_FW_VERSION : Z := 0x83.
Definition SW_SET_RUNTIME : Z := 0xA2.
Definition SW_SENSOR_DATA : Z := 0x91.

Definition SW_DATA_DSP : Z := Z.shiftl 1 0.
Definition SW_DATA_GESTURE : Z := Z.shiftl 1 1.
Definition SW_DATA_TOUCH : Z := Z.shiftl 1 2.
Definition SW_DATA_AIRWHEEL : Z := Z.shiftl 1 3.
Definition SW_DATA_XYZ : Z := Z.shiftl 1 4.

Definition SYS_POSITION_VALID : Z := Z.shiftl 1 0.
Definition SYS_AIRWHEEL_VALID : Z := Z.shiftl 1 1.

(** Touch action bit order. *)
Definition TOUCH_ACTIONS : list (string * string) :=
  [ ("doubletap", "center"); ("doubletap", "east"); ("doubletap", "north");
    ("doubletap", "west"); ("doubletap", "south");
    ("tap", "center"); ("tap", "east"); ("tap", "north");
    ("tap", "west"); ("tap", "south");
    ("touch", "center"); ("touch", "east"); ("touch", "north");
    ("touch", "west"); ("touch", "south") ]%string.

(** Gesture ids, the dict [GESTURES]. *)
Definition GESTURES : gmap Z (string * string * string) :=
  list_to_map
    [ (1, ("garbage", "", "")); (2, ("flick", "west", "east"));
      (3, ("flick", "east", "west")); (4, ("flick", "south", "north"));
      (5, ("flick", "north", "south")); (6, ("circle", "clockwise", ""));
      (7, ("circle", "counter-clockwise", "")) ]%string.

(** ** Helpers *)

Definition u16 (lsb msb : Z) : Z := Z.lor (Z.shiftl msb 8) lsb.

(** Nearest integer of [n / d] for [d > 0], ties to the even neighbour. *)
Definition round_half_even (n d : Z) : Z :=
  let q := n / d in
  let r := n mod d in
  if 2 * r <? d then q
  else if d <? 2 * r then q + 1
  else if Z.even q then q else q + 1.

(** Python's [round(x, ndigits)] on the rational [x]: the nearest multiple
    of [10^-ndigits], kept with the denominator [10^ndigits]. *)
Definition py_round (x : Q) (ndigits : nat) : Q :=
  let s := Pos.pow 10 (Pos.of_nat ndigits) in
  Qmake (round_half_even (Qnum x * Zpos s) (Zpos (Qden x))) s.

(** [val_u16] is a 16-bit value, [0 .. 65535]: there the float division
    by [65536.0] is exact and the rational is what the code computes.
    Outside that range the code rounds or overflows and the model does not
    follow it; every property of the function is stated on the range. *)
Definition normalize_0_1 (val_u16 : Z) : Q :=
  py_round (Qmake val_u16 65536) 4.

(** ** Exceptions and outcomes *)

Inductive exn : Type :=
| IndexError
| OSError
| RuntimeError (msg : string).

Inductive outcome (A : Type) : Type :=
| Ret (a : A)
| Raise (e : exn).
Arguments Ret {A} a.
Arguments Raise {A} e.

(** ** Standard output *)

(** One constructor per [print] statement of the decoder:
    ["XYZ: x=.. y=.. z=.."], ["GESTURE: flick a->b"], ["GESTURE: circle a"],
    ["GESTURE: kind"], ["GESTURE: id=gid"], ["TOUCH: kind pos"],
    ["TOUCH: bit=idx"], ["AIRWHEEL raw=.."] and ["FW: .."].  A text is the
    list of its code points. *)
Inductive Line : Type :=
| XYZ (x y z : Q)
| GESTURE_flick (a b : string)
| GESTURE_circle (a : string)
| GESTURE_kind (kind : string)
| GESTURE_id (gid : Z)
| TOUCH (kind pos : string)
| TOUCH_bit (idx : nat)
| AIRWHEEL (raw : Z)
| FW (fw : list Z).

(** A decoder computation: the lines it printed, and how it ended.  The
    lines printed before an exception stay printed. *)
Definition Out (A : Type) : Type := (list Line * outcome A)%type.

#[global] Instance Out_ret : MRet Out := λ A a, ([], Ret a).

#[global] Instance Out_bind : MBind Out := λ A B f m,
  match m with
  | (o1, Ret a) => let '(o2, r) := f a in (o1 ++ o2, r)
  | (o1, Raise e) => (o1, Raise e)
  end.

Definition print (l : Line) : Out unit := ([l], Ret tt).

Definition byte_to_Z (b : byte) : Z := Z.of_N (Byte.to_N b).

(** [a[i]] on a bytearray. *)
Definition getitem (a : list byte) (i : nat) : outcome Z :=
  match a !! i with
  | Some b => Ret (byte_to_Z b)
  | None => Raise IndexError
  end.

Definition index (a : list byte) (i : nat) : Out Z := ([], getitem a i).

(** Truth value of a Python int. *)
Definition truthy (z : Z) : bool := negb (z =? 0).

(** ** Text: [bytes.decode(errors='ignore')] and [str.strip] *)

Definition is_cont (b : Z) : bool := (0x80 <=? b) && (b <=? 0xBF).

(** Range of the second byte of a three-byte sequence. *)
Definition second_ok3 (b0 b1 : Z) : bool :=
  if b0 =? 0xE0 then (0xA0 <=? b1) && (b1 <=? 0xBF)
  else if b0 =? 0xED then (0x80 <=? b1) && (b1 <=? 0x9F)
  else is_cont b1.

(** Range of the second byte of a four-byte sequence. *)
Definition second_ok4 (b0 b1 : Z) : bool :=
  if b0 =? 0xF0 then (0x90 <=? b1) && (b1 <=? 0xBF)
  else if b0 =? 0xF4 then (0x80 <=? b1) && (b1 <=? 0x8F)
  else is_cont b1.

(** UTF-8 decoding that drops what is not well formed.  A byte that does
    not start a well-formed sequence is dropped and decoding resumes at the
    next byte; the bytes of an ill-formed prefix that follow its first byte
    are continuation bytes, which start nothing and are dropped in turn. *)
Fixpoint decode_ignore (bs : list Z) : list Z :=
  match bs with
  | [] => []
  | b0 :: t =>
    let skip := decode_ignore t in
    if b0 <? 0x80 then b0 :: skip
    else if (0xC2 <=? b0) && (b0 <=? 0xDF) then
      match t with
      | b1 :: t1 =>
        if is_cont b1
        then Z.lor (Z.shiftl (Z.land b0 0x1F) 6) (Z.land b1 0x3F)
             :: decode_ignore t1
        else skip
      | _ => skip
      end
    else if (0xE0 <=? b0) && (b0 <=? 0xEF) then
      match t with
      | b1 :: b2 :: t2 =>
        if second_ok3 b0 b1 && is_cont b2
        then Z.lor (Z.shiftl (Z.land b0 0x0F) 12)
               (Z.lor (Z.shiftl (Z.land b1 0x3F) 6) (Z.land b2 0x3F))
             :: decode_ignore t2
        else skip
      | _ => skip
      end
    else if (0xF0 <=? b0) && (b0 <=? 0xF4) then
      match t with
      | b1 :: b2 :: b3 :: t3 =>
        if second_ok4 b0 b1 && is_cont b2 && is_cont b3
        then Z.lor (Z.shiftl (Z.land b0 0x07) 18)
               (Z.lor (Z.shiftl (Z.land b1 0x3F) 12)
                  (Z.lor (Z.shiftl (Z.land b2 0x3F) 6) (Z.land b3 0x3F)))
             :: decode_ignore t3
        else skip
      | _ => skip
      end
    else skip
  end.

Definition decode (bs : list byte) : list Z := decode_ignore (map byte_to_Z bs).

Definition in_chars (chars : list Z) (c : Z) : bool := existsb (Z.eqb c) chars.

Fixpoint lstrip (chars s : list Z) : list Z :=
  match s with
  | [] => []
  | c :: t => if in_chars chars c then lstrip chars t else s
  end.

Definition rstrip (chars s : list Z) : list Z := rev (lstrip chars (rev s)).

(** [s.strip(chars)] removes the characters of [chars] at both ends. *)
Definition strip (chars s : list Z) : list Z := rstrip chars (lstrip chars s).

(** The argument ['\x00\r\n '] of [strip]. *)
Definition FW_STRIP : list Z := [0x00; 0x0D; 0x0A; 0x20].

(** ** Frame decoder *)

(** The [# XYZ] block of [handle_sensor_data]. *)
Definition sensor_xyz (configmask sysinfo : Z) (payload : list byte) : Out unit :=
  if truthy (Z.land configmask SW_DATA_XYZ)
     && truthy (Z.land sysinfo SYS_POSITION_VALID)
  then
    p16 ← index payload 16; p17 ← index payload 17;
    let x_u := u16 p16 p17 in
    p18 ← index payload 18; p19 ← index payload 19;
    let y_u := u16 p18 p19 in
    p20 ← index payload 20; p21 ← index payload 21;
    let z_u := u16 p20 p21 in
    let x := normalize_0_1 x_u in
    let y := normalize_0_1 y_u in
    let z := normalize_0_1 z_u in
    print (XYZ x y z)
  else mret tt.

(** The [# Gesture] block. *)
Definition sensor_gesture (configmask : Z) (payload : list byte) : Out unit :=
  if truthy (Z.land configmask SW_DATA_GESTURE) then
    p6 ← index payload 6;
    if negb (p6 =? 0) then
      gid ← index payload 6;
      match GESTURES !! gid with
      | Some (kind, a, b) =>
        if String.eqb kind "flick" then print (GESTURE_flick a b)
        else if String.eqb kind "circle" then print (GESTURE_circle a)
        else print (GESTURE_kind kind)
      | None => print (GESTURE_id gid)
      end
    else mret tt
  else mret tt.

(** The [for idx in range(16)] loop of the [# Touch] block; [idxs] is what
    is left of [range(16)], [comp] the current comparison mask.  Leaving
    the recursion is the [break]. *)
Fixpoint touch_loop (action comp : Z) (idxs : list nat) : Out unit :=
  match idxs with
  | [] => mret tt
  | idx :: rest =>
    if truthy (Z.land action comp) then
      if (idx <? length TOUCH_ACTIONS)%nat then
        match TOUCH_ACTIONS !! idx with
        | Some (kind, pos) => print (TOUCH kind pos)
        | None => ([], Raise IndexError)
        end
      else print (TOUCH_bit idx)
    else touch_loop action (Z.shiftr comp 1) rest
  end.

(** The [# Touch] block. *)
Definition sensor_touch (configmask : Z) (payload : list byte) : Out unit :=
  if truthy (Z.land configmask SW_DATA_TOUCH) then
    p11 ← index payload 11; p10 ← index payload 10;
    let action := Z.lor (Z.shiftl p11 8) p10 in
    let comp := Z.shiftl 1 14 in
    touch_loop action comp (seq 0 16)
  else mret tt.

(** The [# AirWheel] block. *)
Definition sensor_airwheel (configmask sysinfo : Z) (payload : list byte) : Out unit :=
  if truthy (Z.land configmask SW_DATA_AIRWHEEL)
     && truthy (Z.land sysinfo SYS_AIRWHEEL_VALID)
  then
    rot_byte ← index payload 14;
    print (AIRWHEEL rot_byte)
  else mret tt.

Definition handle_sensor_data (payload : list byte) : Out unit :=
  p0 ← index payload 0; p1 ← index payload 1;
  let configmask := Z.lor p0 (Z.shiftl p1 8) in
  sysinfo ← index payload 3;
  sensor_xyz configmask sysinfo payload;;
  sensor_gesture configmask payload;;
  sensor_touch configmask payload;;
  sensor_airwheel configmask sysinfo payload.

(** [frame] is [None] or a bytearray. *)
Definition process_frame (frame : option (list byte)) : Out unit :=
  match frame with
  | None => mret tt
  | Some frame =>
    if bool_decide (frame = []) || (length frame <? 4)%nat then mret tt
    else
      d_size ← index frame 0;
      d_flags ← index frame 1;
      d_seq ← index frame 2;
      d_ident ← index frame 3;
      let payload := drop 4 frame in
      if d_ident =? SW_SENSOR_DATA then handle_sensor_data payload
      else if d_ident =? SW_SYSTEM_STATUS then mret tt
      else if d_ident =? SW_FW_VERSION then
        let fw := strip FW_STRIP (decode (drop 8 payload)) in
        print (FW fw)
      else mret tt
  end.



(** ** Bus and pins *)

(** The transfer line [pin_xfer] is either an input with pull-up or an
    output driving its latch. *)
Inductive PinMode : Type := IN_PULL_UP | OUT.

Record Pin : Type := mkPin { mode : PinMode; latch : Z }.

(** What the module does to the hardware, in order. *)
Inductive HwOp : Type :=
| XferRead (v : Z)                       (* pin_xfer.value() gave v *)
| XferInitOut (v : Z)                    (* pin_xfer.init(Pin.OUT, value=v) *)
| XferValue (v : Z)                      (* pin_xfer.value(v) *)
| XferInitIn                             (* pin_xfer.init(Pin.IN, Pin.PULL_UP) *)
| SleepMs (ms : Z)                       (* time.sleep_ms(ms) *)
| I2CWrite (addr reg : Z) (data : list Z) (* i2c.writeto_mem(addr, reg, bytes(data)) *)
| I2CRead (addr reg : Z) (nbytes : nat) (rx : option (list byte)).
                                         (* i2c.readfrom_mem(addr, reg, nbytes);
                                            [None] when the transfer failed *)

(** The sensor and the bus, as the host sees them: the level of the
    transfer line at the host's n-th sampling of it as an input, the result
    of the n-th block read ([None]: the transfer raises [OSError]) and
    whether the n-th block write goes through. *)
Record Device : Type := mkDevice {
  xfer_level : nat → Z;
  i2c_read : nat → option (list byte);
  i2c_write_ok : nat → bool
}.

Record World : Type := mkWorld {
  pin_xfer : Pin;
  n_levels : nat;
  n_reads : nat;
  n_writes : nat;
  trace : list HwOp
}.

Definition HW (A : Type) : Type := World → World * outcome A.

#[global] Instance HW_ret : MRet HW := λ A a w, (w, Ret a).

#[global] Instance HW_bind : MBind HW := λ A B f m w,
  match m w with
  | (w1, Ret a) => f a w1
  | (w1, Raise e) => (w1, Raise e)
  end.

Definition hw_raise {A : Type} (e : exn) : HW A := λ w, (w, Raise e).

Definition hw_index (a : list byte) (i : nat) : HW Z := λ w, (w, getitem a i).

(** [try: body finally: final]. *)
Definition try_finally {A : Type} (body : HW A) (final : HW unit) : HW A := λ w,
  let '(w1, r) := body w in
  match final w1 with
  | (w2, Ret _) => (w2, r)
  | (w2, Raise e) => (w2, Raise e)
  end.

Definition log (op : HwOp) (w : World) : World :=
  mkWorld (pin_xfer w) (n_levels w) (n_reads w) (n_writes w) (trace w ++ [op]).

Definition set_xfer (p : Pin) (w : World) : World :=
  mkWorld p (n_levels w) (n_reads w) (n_writes w) (trace w).

Section Driver.

Context (dev : Device).

Definition sleep_ms (ms : Z) : HW unit := λ w, (log (SleepMs ms) w, Ret tt).

(** [pin_xfer.value()]: an input reads the line, an output its latch. *)
Definition xfer_value : HW Z := λ w,
  match mode (pin_xfer w) with
  | IN_PULL_UP =>
    let v := xfer_level dev (n_levels w) in
    (log (XferRead v)
       (mkWorld (pin_xfer w) (S (n_levels w)) (n_reads w) (n_writes w) (trace w)),
     Ret v)
  | OUT => let v := latch (pin_xfer w) in (log (XferRead v) w, Ret v)
  end.

(** [pin_xfer.value(v)]. *)
Definition xfer_set (v : Z) : HW unit := λ w,
  (log (XferValue v) (set_xfer (mkPin (mode (pin_xfer w)) v) w), Ret tt).

(** [pin_xfer.init(Pin.OUT, value=v)]. *)
Definition xfer_init_out (v : Z) : HW unit := λ w,
  (log (XferInitOut v) (set_xfer (mkPin OUT v) w), Ret tt).

(** [pin_xfer.init(Pin.IN, Pin.PULL_UP)]. *)
Definition xfer_init_in : HW unit := λ w,
  (log XferInitIn (set_xfer (mkPin IN_PULL_UP (latch (pin_xfer w))) w), Ret tt).

Definition i2c_writeto_mem (addr reg : Z) (data : list Z) : HW unit := λ w,
  let w1 := log (I2CWrite addr reg data)
              (mkWorld (pin_xfer w) (n_levels w) (n_reads w) (S (n_writes w)) (trace w)) in
  if i2c_write_ok dev (n_writes w) then (w1, Ret tt) else (w1, Raise OSError).

Definition i2c_readfrom_mem (addr reg : Z) (nbytes : nat) : HW (list byte) := λ w,
  let rx := i2c_read dev (n_reads w) in
  let w1 := log (I2CRead addr reg nbytes rx)
              (mkWorld (pin_xfer w) (n_levels w) (S (n_reads w)) (n_writes w) (trace w)) in
  match rx with
  | Some data => (w1, Ret data)
  | None => (w1, Raise OSError)
  end.

(** [bytes(data_bytes)] needs every value in [0 .. 255] and raises
    [ValueError] otherwise; every block the module writes is such a list,
    and the model covers those lists only. *)
Definition write_block (reg : Z) (data_bytes : list Z) : HW unit :=
  i2c_writeto_mem SW_ADDR reg data_bytes.

(** ** Reading frames *)

Definition read_frame_raw : HW (option (list byte)) :=
  v ← xfer_value;
  if negb (v =? 0) then mret None
  else
    xfer_init_out 0;;
    rx ← try_finally
           (i2c_readfrom_mem SW_ADDR 0x00 32)
           (xfer_set 1;; xfer_init_in);
    mret (Some rx).

(** ** Device control *)

(** [data and data[3] == SW_SYSTEM_STATUS and data[4] == cmd_id]. *)
Definition status_check (cmd_id : Z) (data : option (list byte)) : HW bool :=
  match data with
  | None => mret false
  | Some data =>
    if bool_decide (data = []) then mret false
    else
      d3 ← hw_index data 3;
      if d3 =? SW_SYSTEM_STATUS then
        d4 ← hw_index data 4;
        mret (d4 =? cmd_id)
      else mret false
  end.

(** One turn of the loop of [get_status_expect]; [true] is the
    [return True]. *)
Definition poll (cmd_id : Z) : HW bool :=
  sleep_ms 1;;
  v ← xfer_value;
  if v =? 0 then
    data ← read_frame_raw;
    status_check cmd_id data
  else mret false.

Fixpoint get_status_expect (cmd_id : Z) (tries : nat) : HW bool :=
  match tries with
  | O => mret false
  | S n =>
    found ← poll cmd_id;
    if (found : bool) then mret true else get_status_expect cmd_id n
  end.

(** The default [tries=10]. *)
Definition DEFAULT_TRIES : nat := 10.

Definition enable_mask : Z :=
  Z.lor (Z.lor (Z.lor (Z.lor SW_DATA_DSP SW_DATA_GESTURE) SW_DATA_TOUCH)
           SW_DATA_AIRWHEEL) SW_DATA_XYZ.

Definition configure_runtime : HW unit :=
  (* 1) Enable AirWheel *)
  write_block 0x10 [ 0x00; 0x00; SW_SET_RUNTIME; 0x90; 0x00; 0x00; 0x00;
                     0x20; 0x00; 0x00; 0x00;
                     0x20; 0x00; 0x00; 0x00 ];;
  ack ← get_status_expect SW_SET_RUNTIME DEFAULT_TRIES;
  (if negb ack then hw_raise (RuntimeError "SET_RUNTIME (AirWheel) no status")
   else mret tt);;
  (* 2) Enable all gestures; the masks are 0b01111111 *)
  write_block 0x10 [ 0x00; 0x00; SW_SET_RUNTIME; 0x85; 0x00; 0x00; 0x00;
                     0x7F; 0x00; 0x00; 0x00;
                     0x7F; 0x00; 0x00; 0x00 ];;
  ack ← get_status_expect SW_SET_RUNTIME DEFAULT_TRIES;
  (if negb ack then hw_raise (RuntimeError "SET_RUNTIME (gestures) no status")
   else mret tt);;
  (* 3) Enable data outputs *)
  write_block 0x10 [ 0x00; 0x00; SW_SET_RUNTIME; 0xA0; 0x00; 0x00; 0x00;
                     enable_mask; 0x00; 0x00; 0x00;
                     enable_mask; 0x00; 0x00; 0x00 ];;
  ack ← get_status_expect SW_SET_RUNTIME DEFAULT_TRIES;
  (if negb ack then hw_raise (RuntimeError "SET_RUNTIME (data outputs) no status")
   else mret tt);;
  (* 4) Disable auto-calibration *)
  write_block 0x10 [ 0x00; 0x00; SW_SET_RUNTIME; 0x80; 0x00; 0x00; 0x00;
                     0x00; 0x00; 0x00; 0x00;
                     enable_mask; 0x00; 0x00; 0x00 ];;
  ack ← get_status_expect SW_SET_RUNTIME DEFAULT_TRIES;
  (if negb ack then hw_raise (RuntimeError "SET_RUNTIME (autocal off) no status")
   else mret tt).

End Driver.

(** The state the module sets up at import: the transfer line an input
    with pull-up, nothing done yet. *)
Definition boot : World := mkWorld (mkPin IN_PULL_UP 1) 0 0 0 [].


(** ** Reading the fields and the output of a run *)

(** The byte at offset [i], as an int ([0] beyond the end; used only where
    the offset is known to be in range). *)
Definition byte_at (a : list byte) (i : nat) : Z :=
  match a !! i with Some b => byte_to_Z b | None => 0 end.

Definition configmask_of (payload : list byte) : Z :=
  Z.lor (byte_at payload 0) (Z.shiftl (byte_at payload 1) 8).

Definition sysinfo_of (payload : list byte) : Z := byte_at payload 3.

(** The 16-bit action field of the touch block. *)
Definition touch_action (payload : list byte) : Z :=
  Z.lor (Z.shiftl (byte_at payload 11) 8) (byte_at payload 10).

(** A flag of a mask holds, as the code tests it: [mask & flag] is true. *)
Definition has_flag (mask flag : Z) : Prop := truthy (Z.land mask flag) = true.

Definition is_xyz (l : Line) : bool :=
  match l with XYZ _ _ _ => true | _ => false end.

Definition is_gesture (l : Line) : bool :=
  match l with
  | GESTURE_flick _ _ | GESTURE_circle _ | GESTURE_kind _ | GESTURE_id _ => true
  | _ => false
  end.

Definition is_touch (l : Line) : bool :=
  match l with TOUCH _ _ | TOUCH_bit _ => true | _ => false end.

Definition is_airwheel (l : Line) : bool :=
  match l with AIRWHEEL _ => true | _ => false end.

(** The lines of one kind among those printed. *)
Definition lines_of (kind : Line → bool) (m : Out unit) : list Line :=
  List.filter kind m.1.

(** [k] is the highest-numbered set bit of the 15-bit action field. *)
Definition highest_set_bit (action k : Z) : Prop :=
  0 ≤ k ≤ 14 ∧ Z.testbit action k = true ∧
  ∀ j, k < j ≤ 14 → Z.testbit action j = false.

(** A sensor-data frame: the identifier byte is [SW_SENSOR_DATA]. *)
Definition sensor_frame (frame : list byte) : Prop := frame !! 3%nat = Some x91.

(** A firmware-version frame. *)
Definition fw_frame (frame : list byte) : Prop := frame !! 3%nat = Some x83.

(** The 22 bytes of the end-to-end example of the specification. *)
Definition example_head : list byte :=
  [ x1e; x00; x00; x91;  x1f; x00;  x00;  x01;  x00; x00;
    x00; x00; x00; x00;  x10;  x00;  x80; x80; x80; x80; x80; x80 ].

(** The example completed to a 32-byte window by ten more [0x80]. *)
Definition example_frame : list byte := example_head ++ repeat x80 10.

(** The example cut after 25 bytes: the last coordinate byte is missing. *)
Definition truncated_frame : list byte := example_head ++ [x80; x80; x80].

(** A sensor-data window with only the touch field announced and the bits
    14, 11 and 3 of the action field set. *)
Definition touch_frame : list byte :=
  [ x1e; x00; x00; x91;  x04; x00;  x00;  x00;  x00; x00;
    x00; x00; x00; x00;  x08; x48 ] ++ repeat x00 16.

(** The same with only bit 15 of the action field set. *)
Definition bit15_frame : list byte :=
  [ x1e; x00; x00; x91;  x04; x00;  x00;  x00;  x00; x00;
    x00; x00; x00; x00;  x00; x80 ] ++ repeat x00 16.

(** The shortest frame that passes the length guard: a bare header. *)
Definition header_only_frame : list byte := [x1e; x00; x00; x91].

(** A firmware-version frame whose text bytes are [" A\xc3\xa9\xffB\n\x00"]:
    a leading space, a two-byte sequence, a byte that is not UTF-8, and
    trailing LF and NUL. *)
Definition fw_example_frame : list byte :=
  [ x1e; x00; x00; x83;  x00; x00; x00; x00; x00; x00; x00; x00;
    x20; x41; xc3; xa9; xff; x42; x0a; x00 ].

(** A byte that starts no UTF-8 sequence. *)
Definition invalid_start (b : Z) : Prop :=
  0x80 ≤ b < 0xC2 ∨ 0xF4 < b.

(** ** Reading a run of the driver *)

(** What [pin_xfer.value()] returns in the world [w]. *)
Definition line_level (dev : Device) (w : World) : Z :=
  match mode (pin_xfer w) with
  | IN_PULL_UP => xfer_level dev (n_levels w)
  | OUT => latch (pin_xfer w)
  end.

(** The transfer line as the module leaves it when it does not own it:
    an input with pull-up, the latch high. *)
Definition released : Pin := mkPin IN_PULL_UP 1.

Definition is_sleep (op : HwOp) : bool :=
  match op with SleepMs _ => true | _ => false end.

Definition is_write (op : HwOp) : bool :=
  match op with I2CWrite _ _ _ => true | _ => false end.

(** The number of polling attempts in a stretch of the trace: every turn
    of the loop of [get_status_expect] starts with its [sleep_ms(1)]. *)
Definition polls (t : list HwOp) : nat := length (List.filter is_sleep t).

(** The block writes in a stretch of the trace, as (register, bytes). *)
Definition writes (t : list HwOp) : list (Z * list Z) :=
  omap (λ op, match op with I2CWrite _ reg data => Some (reg, data) | _ => None end) t.

(** A frame that acknowledges [cmd_id]: the identifier is SYSTEM_STATUS
    and the first payload byte is the command id. *)
Definition is_ack (cmd_id : Z) (data : list byte) : bool :=
  match data !! 3%nat, data !! 4%nat with
  | Some b3, Some b4 =>
    (byte_to_Z b3 =? SW_SYSTEM_STATUS) && (byte_to_Z b4 =? cmd_id)
  | _, _ => false
  end.

(** The operation is a block read that returned an acknowledgement. *)
Definition ack_read (cmd_id : Z) (op : HwOp) : bool :=
  match op with
  | I2CRead _ _ _ (Some data) => is_ack cmd_id data
  | _ => false
  end.

Definition no_ack (cmd_id : Z) (t : list HwOp) : Prop :=
  Forall (λ op, ack_read cmd_id op = false) t.

Definition no_write (t : list HwOp) : Prop :=
  Forall (λ op, is_write op = false) t.

(** The device never acknowledges [cmd_id]: every block read completes,
    returns the 32 bytes asked for, and they are not an acknowledgement. *)
Definition never_acks (dev : Device) (cmd_id : Z) : Prop :=
  ∀ n, ∃ data, i2c_read dev n = Some data ∧ length data = 32%nat ∧
               is_ack cmd_id data = false.

(** A status frame that echoes SET_RUNTIME, and a sensor-data frame. *)
Definition ack_frame : list byte := [x1a; x00; x00; x15; xa2] ++ repeat x00 27.
Definition idle_frame : list byte := [x1a; x00; x00; x91] ++ repeat x00 28.

(** A device that always has data and acknowledges at once. *)
Definition dev_ack : Device :=
  mkDevice (λ _ : nat, 0) (λ _ : nat, Some ack_frame) (λ _ : nat, true).

(** A device that always has data and never acknowledges. *)
Definition dev_mute : Device :=
  mkDevice (λ _ : nat, 0) (λ _ : nat, Some idle_frame) (λ _ : nat, true).

(** A device that has data, but every block read fails. *)
Definition dev_broken : Device :=
  mkDevice (λ _ : nat, 0) (λ _ : nat, None) (λ _ : nat, true).

(** A device that acknowledges from its third block read on. *)
Definition dev_late : Device :=
  mkDevice (λ _ : nat, 0)
           (λ n : nat, if (n <? 2)%nat then Some idle_frame else Some ack_frame)
           (λ _ : nat, true).

(** ** The configuration handshake, step by step *)

(** The four steps of [configure_runtime] in order: the message of the
    error raised when the step is not acknowledged, and the 15 bytes
    written to the control register [0x10]. *)
Definition RUNTIME_STEPS : list (string * list Z) :=
  [ ("SET_RUNTIME (AirWheel) no status"%string,
     [ 0x00; 0x00; SW_SET_RUNTIME; 0x90; 0x00; 0x00; 0x00;
       0x20; 0x00; 0x00; 0x00;  0x20; 0x00; 0x00; 0x00 ]);
    ("SET_RUNTIME (gestures) no status"%string,
     [ 0x00; 0x00; SW_SET_RUNTIME; 0x85; 0x00; 0x00; 0x00;
       0x7F; 0x00; 0x00; 0x00;  0x7F; 0x00; 0x00; 0x00 ]);
    ("SET_RUNTIME (data outputs) no status"%string,
     [ 0x00; 0x00; SW_SET_RUNTIME; 0xA0; 0x00; 0x00; 0x00;
       enable_mask; 0x00; 0x00; 0x00;  enable_mask; 0x00; 0x00; 0x00 ]);
    ("SET_RUNTIME (autocal off) no status"%string,
     [ 0x00; 0x00; SW_SET_RUNTIME; 0x80; 0x00; 0x00; 0x00;
       0x00; 0x00; 0x00; 0x00;  enable_mask; 0x00; 0x00; 0x00 ]) ].

(** One step as the specification describes it: write the block, wait for
    the acknowledgement, fail with the error of the step when the wait
    gives up. *)
Definition runtime_step (dev : Device) (s : string * list Z) : HW unit :=
  write_block dev 0x10 s.2;;
  ack ← get_status_expect dev SW_SET_RUNTIME DEFAULT_TRIES;
  if negb ack then hw_raise (RuntimeError s.1) else mret tt.

(** The steps one after the other; the first failure ends the run. *)
Fixpoint run_steps (dev : Device) (steps : list (string * list Z)) : HW unit :=
  match steps with
  | [] => mret tt
  | s :: rest => runtime_step dev s;; run_steps dev rest
  end.

(** The tail of a wait that found its acknowledgement: the block read that
    returned it and the release of the transfer line. *)
Definition ack_tail (data : list byte) : list HwOp :=
  [I2CRead SW_ADDR 0x00 32 (Some data); XferValue 1; XferInitIn].

(** The hardware operations of a run over [steps] that ends with [r]:
    - every step starts with the write of its block to register [0x10];
    - an acknowledged step goes on polling, without writing, until it reads
      a frame that acknowledges SET_RUNTIME, within [DEFAULT_TRIES]
      attempts, and the run continues with the next step;
    - a step whose wait makes [DEFAULT_TRIES] attempts without reading an
      acknowledgement ends the run with the error of that step;
    - a bus or index error ends the run where it happens. *)
Inductive config_trace : list (string * list Z) → list HwOp → outcome unit → Prop :=
| ct_done : config_trace [] [] (Ret tt)
| ct_acked s rest t data t' r :
    no_write t → no_ack SW_SET_RUNTIME t →
    (1 ≤ polls t ≤ DEFAULT_TRIES)%nat →
    is_ack SW_SET_RUNTIME data = true →
    config_trace rest t' r →
    config_trace (s :: rest)
      (I2CWrite SW_ADDR 0x10 s.2 :: (t ++ ack_tail data) ++ t') r
| ct_timeout s rest t :
    no_write t → no_ack SW_SET_RUNTIME t → polls t = DEFAULT_TRIES →
    config_trace (s :: rest) (I2CWrite SW_ADDR 0x10 s.2 :: t)
      (Raise (RuntimeError s.1))
| ct_error s rest t e :
    no_write t → e = OSError ∨ e = IndexError →
    config_trace (s :: rest) (I2CWrite SW_ADDR 0x10 s.2 :: t) (Raise e).

(** A device that acknowledges its first two block reads and nothing
    after. *)
Definition dev_two_acks : Device :=
  mkDevice (λ _ : nat, 0)
           (λ n : nat, if (n <? 2)%nat then Some ack_frame else Some idle_frame)
           (λ _ : nat, true).

(** ** Further readings of the decoder *)

(** The line the [# Gesture] block prints for a gesture id, written out
    from the table [GESTURES] and the three ways of printing an entry. *)
Definition gesture_line (gid : Z) : Line :=
  if gid =? 1 then GESTURE_kind "garbage"
  else if gid =? 2 then GESTURE_flick "west" "east"
  else if gid =? 3 then GESTURE_flick "east" "west"
  else if gid =? 4 then GESTURE_flick "south" "north"
  else if gid =? 5 then GESTURE_flick "north" "south"
  else if gid =? 6 then GESTURE_circle "clockwise"
  else if gid =? 7 then GESTURE_circle "counter-clockwise"
  else GESTURE_id gid.

(** A coordinate as the decoder prints it: a decimal with four digits
    between 0 and 1. *)
Definition unit_decimal (q : Q) : Prop :=
  Qden q = 10000%positive ∧ 0 ≤ Qnum q ≤ 10000.

(** A sensor-data window that announces and validates everything, with a
    gesture, a touch and a rotation. *)
Definition busy_frame : list byte :=
  [ x1e; x00; x00; x91;  x1f; x00;  x00;  x03;  x00; x00;
    x03; x00; x00; x00;  x01; x00; x00; x00;  x07; x00;
    x00; x40; x00; x80; xff; xff ] ++ repeat x00 6.

(** A sensor-data frame of 12 bytes that announces a gesture and a touch:
    the gesture byte is there, the touch field is not. *)
Definition gesture_then_short_frame : list byte :=
  [ x1e; x00; x00; x91;  x06; x00;  x00;  x00;  x00; x00;  x01; x00 ].

(** A status frame, and a frame with an identifier the decoder does not
    know. *)
Definition unknown_frame : list byte := [x1a; x00; x00; x06] ++ repeat xff 28.

(** A firmware-version frame with the text ["1.3.14"]. *)
Definition fw_plain_frame : list byte :=
  [ x1e; x00; x00; x83;  x00; x00; x00; x00; x00; x00; x00; x00;
    x31; x2e; x33; x2e; x31; x34 ].

(** The text neither starts nor ends with a character of [chars]. *)
Definition clean_ends (chars s : list Z) : Prop :=
  match s with [] => True | c :: _ => in_chars chars c = false end ∧
  match rev s with [] => True | c :: _ => in_chars chars c = false end.

(** A firmware-version frame cut inside its header part: 10 bytes. *)
Definition fw_short_frame : list byte :=
  [ x0a; x00; x00; x83;  x00; x00; x00; x00; x00; x00 ].

(** ** Further readings of the driver *)

(** The device keeps the transfer line low: it always has data pending. *)
Definition always_asserted (dev : Device) : Prop := ∀ n, xfer_level dev n = 0.

(** The device never pulls the transfer line low: it never has data. *)
Definition never_asserted (dev : Device) : Prop := ∀ n, xfer_level dev n ≠ 0.

(** The device acknowledges [cmd_id] at once: data is always pending,
    every block read returns a frame that acknowledges the command, and
    every block write goes through. *)
Definition prompt_acks (dev : Device) (cmd_id : Z) : Prop :=
  always_asserted dev ∧
  (∀ n, ∃ data, i2c_read dev n = Some data ∧ is_ack cmd_id data = true) ∧
  (∀ n, i2c_write_ok dev n = true).

(** The operations of one polling attempt that reads a frame [rx]. *)
Definition poll_ops (rx : option (list byte)) : list HwOp :=
  [ SleepMs 1; XferRead 0; XferRead 0; XferInitOut 0;
    I2CRead SW_ADDR 0x00 32 rx; XferValue 1; XferInitIn ].

(** A device that never has data. *)
Definition dev_idle : Device :=
  mkDevice (λ _ : nat, 1) (λ _ : nat, Some ack_frame) (λ _ : nat, true).

(** A device on which block writes fail. *)
Definition dev_no_write : Device :=
  mkDevice (λ _ : nat, 0) (λ _ : nat, Some ack_frame) (λ _ : nat, false).

(** ** Reset and entry point *)

(** What [main] does, in order: the operations on the reset line, the
    hardware operations of the driver, the lines [main] prints and its
    reading of the clock. *)
Inductive BoardOp : Type :=
| RstValue (v : Z)            (* pin_rst.value(v) *)
| Hw (op : HwOp)
| Console (line : string)     (* print(line) *)
| TicksMs.                    (* time.ticks_ms() *)

(** The board: the latch of the reset line (an output), the world of the
    driver, and everything done so far. *)
Record Board : Type := mkBoard {
  pin_rst : Z;
  hw : World;
  events : list BoardOp
}.

Definition Main (A : Type) : Type := Board → Board * outcome A.

#[global] Instance Main_ret : MRet Main := λ A a b, (b, Ret a).

#[global] Instance Main_bind : MBind Main := λ A B f m b,
  match m b with
  | (b1, Ret a) => f a b1
  | (b1, Raise e) => (b1, Raise e)
  end.

(** A computation of the driver run on the board: its new hardware
    operations are appended to the events. *)
Definition lift_hw {A : Type} (m : HW A) : Main A := λ b,
  let '(w', r) := m (hw b) in
  (mkBoard (pin_rst b) w'
     (events b ++ map Hw (drop (length (trace (hw b))) (trace w'))), r).

Definition rst_value (v : Z) : Main unit := λ b,
  (mkBoard v (hw b) (events b ++ [RstValue v]), Ret tt).

Definition console (line : string) : Main unit := λ b,
  (mkBoard (pin_rst b) (hw b) (events b ++ [Console line]), Ret tt).

(** [time.ticks_ms()], which reads [now]. *)
Definition ticks_ms (now : Z) : Main Z := λ b,
  (mkBoard (pin_rst b) (hw b) (events b ++ [TicksMs]), Ret now).

Definition hw_reset : Main unit :=
  rst_value 0;;
  lift_hw (sleep_ms 100);;
  rst_value 1;;
  (* Datasheet ~200ms; give it a bit more *)
  lift_hw (sleep_ms 500).

(** [main]; the polling loop of the source is commented out, so nothing
    follows the reading of the clock. *)
Definition main (dev : Device) (now : Z) : Main unit :=
  console "Skywriter (MGC3130) – MicroPython minimal poller";;
  console "I2C0 on GP20/GP21, RST=GP17, TSXFR=GP27, addr=0x42";;
  hw_reset;;
  lift_hw (configure_runtime dev);;
  console "Configured. Polling... (Ctrl+C to stop)";;
  last_print ← ticks_ms now;
  mret tt.

(** What [main] does before it touches the bus. *)
Definition main_prelude : list BoardOp :=
  [ Console "Skywriter (MGC3130) – MicroPython minimal poller";
    Console "I2C0 on GP20/GP21, RST=GP17, TSXFR=GP27, addr=0x42";
    RstValue 0; Hw (SleepMs 100); RstValue 1; Hw (SleepMs 500) ].

(** What [main] does after a configuration that ended with [rc]. *)
Definition main_epilogue (rc : outcome unit) : list BoardOp :=
  match rc with
  | Ret _ => [Console "Configured. Polling... (Ctrl+C to stop)"; TicksMs]
  | Raise _ => []
  end.

(** The board as the module sets it up at import. *)
Definition board0 : Board := mkBoard 1 boot [].

(** ** Readings used by the revised statements *)

(** The run of the decoder gets as far as the touch block and finds its
    two bytes: the payload holds the touch field, and the position block
    before it does not raise (it is skipped, or the payload holds the
    coordinates). *)
Definition touch_reached (p : list byte) : Prop :=
  (12 ≤ length p)%nat ∧
  (has_flag (configmask_of p) SW_DATA_XYZ →
   has_flag (sysinfo_of p) SYS_POSITION_VALID → (22 ≤ length p)%nat).

(** A sensor-data frame of 16 bytes that announces only the touch field,
    with the bits 14, 11 and 3 of the action field set. *)
Definition touch_short_frame : list byte :=
  [ x10; x00; x00; x91;  x04; x00;  x00;  x00;  x00; x00;
    x00; x00; x00; x00;  x08; x48 ].

(** A 25-byte sensor-data frame that announces position and touch, with
    the bits 14, 11 and 3 of the action field set: the position block
    raises before the touch block is reached. *)
Definition touch_unreached_frame : list byte :=
  [ x19; x00; x00; x91;  x14; x00;  x00;  x01;  x00; x00;
    x00; x00; x00; x00;  x08; x48 ] ++ repeat x00 9.

(** The device, as a wait started at the line sampling [nl] and the block
    read [nr] meets it, acknowledges [cmd_id] at the attempt [k] of [n]
    attempts.  An attempt samples the line; if it is high the attempt is
    over; if it is low the transport samples it again and, if it still is
    low, reads a frame.  [aw_ack]: this attempt reads an acknowledgement.
    [aw_high], [aw_gone]: the line is high at the first, or at the second
    sampling, nothing is read, and the acknowledgement comes [k] attempts
    later.  [aw_other]: this attempt reads a frame of five bytes or more
    that is something else. *)
Inductive acks_within (dev : Device) (cmd_id : Z) : nat → nat → nat → nat → Prop :=
| aw_ack nl nr n data :
    xfer_level dev nl = 0 → xfer_level dev (S nl) = 0 →
    i2c_read dev nr = Some data → is_ack cmd_id data = true →
    acks_within dev cmd_id nl nr (S n) 1
| aw_high nl nr n k :
    xfer_level dev nl ≠ 0 →
    acks_within dev cmd_id (S nl) nr n k →
    acks_within dev cmd_id nl nr (S n) (S k)
| aw_gone nl nr n k :
    xfer_level dev nl = 0 → xfer_level dev (S nl) ≠ 0 →
    acks_within dev cmd_id (S (S nl)) nr n k →
    acks_within dev cmd_id nl nr (S n) (S k)
| aw_other nl nr n k data :
    xfer_level dev nl = 0 → xfer_level dev (S nl) = 0 →
    i2c_read dev nr = Some data → (5 ≤ length data)%nat →
    is_ack cmd_id data = false →
    acks_within dev cmd_id (S (S nl)) (S nr) n k →
    acks_within dev cmd_id nl nr (S n) (S k).

(** A device whose line is high at the first sampling, low afterwards, and
    that acknowledges at its second block read. *)
Definition dev_slow : Device :=
  mkDevice (λ n : nat, if (n <? 1)%nat then 1 else 0)
           (λ n : nat, if (n <? 1)%nat then Some idle_frame else Some ack_frame)
           (λ _ : nat, true).

(** * Properties *)

(** ** Axis normalisation *)

Example normalize_0x8080 : normalize_0_1 0x8080 = (5020 # 10000)%Q.
Proof. reflexivity. Qed.

Lemma round_half_even_near (n d : Z) :
  0 < d → -d ≤ 2 * (round_half_even n d * d - n) ≤ d.
Proof.
  intros Hd. unfold round_half_even.
  pose proof (Z.div_mod n d ltac:(lia)) as E.
  pose proof (Z.mod_pos_bound n d Hd) as B.
  repeat case_match; rewrite ?Z.ltb_lt, ?Z.ltb_ge in *; nia.
Qed.

Lemma round_half_even_mono_bounds (n d lo hi : Z) :
  0 < d → 2 * lo * d - d < 2 * n → 2 * n < 2 * hi * d + d →
  lo ≤ round_half_even n d ≤ hi.
Proof.
  intros Hd Hlo Hhi.
  pose proof (round_half_even_near n d Hd). nia.
Qed.

Lemma normalize_0_1_eq (v : Z) :
  normalize_0_1 v = Qmake (round_half_even (v * 10000) 65536) 10000.
Proof. reflexivity. Qed.

(** C2, as the specification states it, fails at the top of the range:
    [65535 / 65536 = 0.99998...] rounds to [1.0000], which is not below
    [1.0] and is not [0.9999]. *)
Lemma normalize_0_1_top_reaches_one :
  0 ≤ 65535 ≤ 65535 ∧
  normalize_0_1 65535 = (10000 # 10000)%Q ∧
  ¬ (normalize_0_1 65535 < 1)%Q ∧
  ¬ (normalize_0_1 65535 == 9999 # 10000)%Q.
Proof.
  split; [lia|]. split; [reflexivity|]. split.
  - intros H. vm_compute in H. discriminate.
  - intros H. vm_compute in H. discriminate.
Qed.

(** C2 (amended): for every 16-bit raw value [v], [normalize_0_1 v] is
    [round(v / 65536, 4)]: a decimal [k / 10000] that lies within half a
    unit of the fourth digit of [v / 65536]; it lies in the closed range
    [0.0 .. 1.0], and it is below [1.0] exactly when [v <= 65532].
    [normalize_0_1 0] is [0.0000] and [normalize_0_1 65535] is [1.0000]. *)
Theorem normalize_0_1_range (v : Z) :
  0 ≤ v ≤ 65535 →
  normalize_0_1 v = py_round (v # 65536) 4 ∧
  (∃ k, normalize_0_1 v = (k # 10000)%Q ∧
        -65536 ≤ 2 * (k * 65536 - v * 10000) ≤ 65536) ∧
  (0 <= normalize_0_1 v)%Q ∧
  (normalize_0_1 v <= 1)%Q ∧
  ((normalize_0_1 v < 1)%Q ↔ v ≤ 65532) ∧
  (v = 0 → normalize_0_1 v = (0 # 10000)%Q) ∧
  (v = 65535 → normalize_0_1 v = (10000 # 10000)%Q).
Proof.
  intros Hv.
  pose proof (round_half_even_near (v * 10000) 65536 ltac:(lia)) as Hnear.
  rewrite normalize_0_1_eq.
  set (k := round_half_even (v * 10000) 65536) in *.
  split; [reflexivity|].
  split; [exists k; split; [reflexivity | lia]|].
  unfold Qle, Qlt; cbn [Qnum Qden].
  split; [lia|]. split; [lia|]. split; [|split].
  - split; intros H.
    + destruct (Z_le_gt_dec v 65532) as [|Hgt]; [assumption|].
      exfalso. lia.
    + lia.
  - intros ->. reflexivity.
  - intros ->. reflexivity.
Qed.

Lemma normalize_0_1_range_witness :
  0 ≤ 0x8080 ≤ 65535 ∧ (normalize_0_1 0x8080 < 1)%Q.
Proof.
  split; [lia|].
  apply (normalize_0_1_range 0x8080); lia.
Defined.

(** ** Decoder computations *)

Lemma byte_to_Z_range (b : byte) : 0 ≤ byte_to_Z b ≤ 255.
Proof.
  unfold byte_to_Z. pose proof (Byte.to_N_bounded b) as H. lia.
Qed.

Lemma getitem_Ret (a : list byte) (i : nat) (z : Z) :
  getitem a i = Ret z → z = byte_at a i ∧ (i < length a)%nat.
Proof.
  unfold getitem, byte_at. destruct (a !! i) eqn:E; [|discriminate].
  intros [= <-]. split; [reflexivity|]. eapply lookup_lt_Some; eassumption.
Qed.

Lemma getitem_lt (a : list byte) (i : nat) :
  (i < length a)%nat → getitem a i = Ret (byte_at a i).
Proof.
  intros H. unfold getitem, byte_at.
  destruct (lookup_lt_is_Some_2 a i H) as [b ->]. reflexivity.
Qed.

Lemma getitem_ge (a : list byte) (i : nat) :
  (length a ≤ i)%nat → getitem a i = Raise IndexError.
Proof.
  intros H. unfold getitem. rewrite lookup_ge_None_2 by exact H. reflexivity.
Qed.

Lemma out_bind_pure {A B : Type} (r : outcome A) (f : A → Out B) :
  (([], r) : Out A) ≫= f = match r with Ret a => f a | Raise e => ([], Raise e) end.
Proof.
  unfold mbind, Out_bind. destruct r as [a|e]; [|reflexivity].
  destruct (f a); reflexivity.
Qed.

Lemma out_bind_print {B : Type} (l : Line) (f : unit → Out B) :
  print l ≫= f = (l :: (f tt).1, (f tt).2).
Proof. unfold mbind, Out_bind, print. destruct (f tt); reflexivity. Qed.

Lemma out_bind_lines {A B : Type} (m : Out A) (f : A → Out B) :
  (m ≫= f).1 = m.1 ++ match m.2 with Ret a => (f a).1 | Raise _ => [] end.
Proof.
  unfold mbind, Out_bind. destruct m as [o [a|e]]; cbn.
  - destruct (f a); reflexivity.
  - rewrite app_nil_r. reflexivity.
Qed.

Lemma out_bind_outcome {A B : Type} (m : Out A) (f : A → Out B) :
  (m ≫= f).2 = match m.2 with Ret a => (f a).2 | Raise e => Raise e end.
Proof.
  unfold mbind, Out_bind. destruct m as [o [a|e]]; cbn; [|reflexivity].
  destruct (f a); reflexivity.
Qed.

Lemma index_eq (a : list byte) (i : nat) : index a i = ([], getitem a i).
Proof. reflexivity. Qed.

(** *** The blocks of [handle_sensor_data], one at a time *)

Lemma sensor_xyz_cases (cm si : Z) (p : list byte) :
  (sensor_xyz cm si p).1 = [] ∨
  (has_flag cm SW_DATA_XYZ ∧ has_flag si SYS_POSITION_VALID ∧
   (22 ≤ length p)%nat ∧
   sensor_xyz cm si p =
     ([XYZ (normalize_0_1 (u16 (byte_at p 16) (byte_at p 17)))
           (normalize_0_1 (u16 (byte_at p 18) (byte_at p 19)))
           (normalize_0_1 (u16 (byte_at p 20) (byte_at p 21)))], Ret tt)).
Proof.
  unfold sensor_xyz, has_flag.
  destruct (truthy (Z.land cm SW_DATA_XYZ)); [|left; reflexivity].
  destruct (truthy (Z.land si SYS_POSITION_VALID)); [|left; reflexivity].
  cbn [andb]. rewrite !index_eq.
  destruct (le_lt_dec 22 (length p)) as [Hlen|Hlen].
  - right. rewrite !getitem_lt by lia. rewrite !out_bind_pure.
    repeat split; try reflexivity. exact Hlen.
  - left.
    repeat (rewrite out_bind_pure;
            match goal with
            | |- context [getitem p ?i] =>
              destruct (getitem p i) as [?|?] eqn:?; [|reflexivity]
            end).
    exfalso.
    repeat match goal with
           | H : getitem _ _ = Ret _ |- _ => apply getitem_Ret in H as [_ H]
           end.
    lia.
Qed.

Lemma sensor_xyz_full (cm si : Z) (p : list byte) :
  (22 ≤ length p)%nat →
  sensor_xyz cm si p =
    (if truthy (Z.land cm SW_DATA_XYZ) && truthy (Z.land si SYS_POSITION_VALID)
     then [XYZ (normalize_0_1 (u16 (byte_at p 16) (byte_at p 17)))
               (normalize_0_1 (u16 (byte_at p 18) (byte_at p 19)))
               (normalize_0_1 (u16 (byte_at p 20) (byte_at p 21)))]
     else [], Ret tt).
Proof.
  intros Hlen. unfold sensor_xyz.
  destruct (_ && _); [|reflexivity].
  rewrite !index_eq, !getitem_lt by lia. rewrite !out_bind_pure. reflexivity.
Qed.

Lemma sensor_gesture_cases (cm : Z) (p : list byte) :
  (sensor_gesture cm p).1 = [] ∨
  ∃ g, is_gesture g = true ∧ sensor_gesture cm p = ([g], Ret tt).
Proof.
  unfold sensor_gesture.
  destruct (truthy (Z.land cm SW_DATA_GESTURE)); [|left; reflexivity].
  rewrite !index_eq, out_bind_pure.
  destruct (getitem p 6) as [p6|e]; [|left; reflexivity].
  destruct (negb (p6 =? 0)); [|left; reflexivity].
  rewrite out_bind_pure.
  destruct (GESTURES !! p6) as [[[kind a] b]|].
  - repeat case_match; right; eexists; (split; [|reflexivity]); reflexivity.
  - right; eexists; (split; [|reflexivity]); reflexivity.
Qed.

Lemma sensor_gesture_full (cm : Z) (p : list byte) :
  (7 ≤ length p)%nat → (sensor_gesture cm p).2 = Ret tt.
Proof.
  intros Hlen. unfold sensor_gesture.
  destruct (truthy (Z.land cm SW_DATA_GESTURE)); [|reflexivity].
  rewrite !index_eq, !getitem_lt by lia. rewrite out_bind_pure.
  destruct (negb (byte_at p 6 =? 0)); [|reflexivity].
  rewrite out_bind_pure.
  destruct (GESTURES !! byte_at p 6) as [[[kind a] b]|]; [|reflexivity].
  repeat case_match; reflexivity.
Qed.

Lemma sensor_airwheel_cases (cm si : Z) (p : list byte) :
  (sensor_airwheel cm si p).1 = [] ∨
  (has_flag cm SW_DATA_AIRWHEEL ∧ has_flag si SYS_AIRWHEEL_VALID ∧
   sensor_airwheel cm si p = ([AIRWHEEL (byte_at p 14)], Ret tt)).
Proof.
  unfold sensor_airwheel, has_flag.
  destruct (truthy (Z.land cm SW_DATA_AIRWHEEL)); [|left; reflexivity].
  destruct (truthy (Z.land si SYS_AIRWHEEL_VALID)); [|left; reflexivity].
  cbn [andb]. rewrite index_eq, out_bind_pure.
  destruct (getitem p 14) as [z|e] eqn:E; [|left; reflexivity].
  apply getitem_Ret in E as [-> _]. right. repeat split; reflexivity.
Qed.

Lemma sensor_airwheel_full (cm si : Z) (p : list byte) :
  (15 ≤ length p)%nat → (sensor_airwheel cm si p).2 = Ret tt.
Proof.
  intros Hlen. unfold sensor_airwheel.
  destruct (_ && _); [|reflexivity].
  rewrite index_eq, getitem_lt by lia. rewrite out_bind_pure. reflexivity.
Qed.

(** *** The priority scan of the touch block *)

Lemma land_pow2 (a m : Z) :
  0 ≤ m → Z.land a (2 ^ m) = if Z.testbit a m then 2 ^ m else 0.
Proof.
  intros Hm. apply Z.bits_inj'. intros n Hn.
  rewrite Z.land_spec, Z.pow2_bits_eqb by lia.
  destruct (Z.eqb_spec m n) as [->|Hne].
  - destruct (Z.testbit a n) eqn:E; cbn.
    + rewrite Z.pow2_bits_true by lia. reflexivity.
    + rewrite Z.bits_0. reflexivity.
  - rewrite andb_false_r.
    destruct (Z.testbit a m); [|rewrite Z.bits_0; reflexivity].
    rewrite Z.pow2_bits_false by lia. reflexivity.
Qed.

(** The comparison mask after [i] turns of the loop. *)
Lemma comp_after (i : nat) :
  Z.shiftr (Z.shiftl 1 14) (Z.of_nat i) =
  if (i <=? 14)%nat then 2 ^ (14 - Z.of_nat i) else 0.
Proof.
  rewrite Z.shiftl_1_l, Z.shiftr_div_pow2 by lia.
  destruct (Nat.leb_spec i 14) as [Hle|Hgt].
  - rewrite <- Z.pow_sub_r by lia. reflexivity.
  - apply Z.div_small. split; [lia|].
    apply Z.pow_lt_mono_r; lia.
Qed.

Lemma touch_test (action : Z) (i : nat) :
  truthy (Z.land action (Z.shiftr (Z.shiftl 1 14) (Z.of_nat i))) =
  if (i <=? 14)%nat then Z.testbit action (14 - Z.of_nat i) else false.
Proof.
  rewrite comp_after. unfold truthy.
  destruct (Nat.leb_spec i 14) as [Hle|Hgt].
  - rewrite land_pow2 by lia.
    destruct (Z.testbit action (14 - Z.of_nat i)).
    + assert (0 < 2 ^ (14 - Z.of_nat i)) by (apply Z.pow_pos_nonneg; lia).
      destruct (Z.eqb_spec (2 ^ (14 - Z.of_nat i)) 0); [lia|reflexivity].
    + reflexivity.
  - rewrite Z.land_0_r. reflexivity.
Qed.

Lemma comp_next (i : nat) :
  Z.shiftr (Z.shiftr (Z.shiftl 1 14) (Z.of_nat i)) 1 =
  Z.shiftr (Z.shiftl 1 14) (Z.of_nat (S i)).
Proof. rewrite Z.shiftr_shiftr by lia. f_equal. lia. Qed.

(** The scan stops at the highest set bit [k] and prints entry [14 - k] of
    the table. *)
Lemma touch_loop_hit (action k : Z) :
  highest_set_bit action k →
  ∀ (n i : nat), (i + n = 16)%nat → Z.of_nat i ≤ 14 - k →
  ∃ kind pos,
    TOUCH_ACTIONS !! Z.to_nat (14 - k) = Some (kind, pos) ∧
    touch_loop action (Z.shiftr (Z.shiftl 1 14) (Z.of_nat i)) (seq i n) =
      ([TOUCH kind pos], Ret tt).
Proof.
  intros (Hk & Hset & Hhigh). induction n as [|n IH]; intros i Hin Hi.
  - lia.
  - cbn [seq touch_loop]. rewrite touch_test.
    destruct (Nat.leb_spec i 14) as [_|Hgt]; [|lia].
    destruct (Z.eq_dec (14 - Z.of_nat i) k) as [E|E].
    + rewrite E, Hset.
      assert (Hlt : (i < length TOUCH_ACTIONS)%nat) by (cbn; lia).
      destruct (Nat.ltb_spec i (length TOUCH_ACTIONS)) as [_|]; [|lia].
      replace (Z.to_nat (14 - k)) with i by lia.
      destruct (lookup_lt_is_Some_2 _ _ Hlt) as [[kind pos] Hl].
      rewrite Hl. exists kind, pos. split; reflexivity.
    + rewrite Hhigh by lia. rewrite comp_next. apply IH; lia.
Qed.

(** With no bit among 14..0 set the scan runs through and prints nothing. *)
Lemma touch_loop_miss (action : Z) :
  (∀ j, 0 ≤ j ≤ 14 → Z.testbit action j = false) →
  ∀ (n i : nat), (i + n = 16)%nat →
  touch_loop action (Z.shiftr (Z.shiftl 1 14) (Z.of_nat i)) (seq i n) =
    ([], Ret tt).
Proof.
  intros Hclear. induction n as [|n IH]; intros i Hin.
  - reflexivity.
  - cbn [seq touch_loop]. rewrite touch_test.
    destruct (Nat.leb_spec i 14) as [Hle|Hgt].
    + rewrite Hclear by lia. rewrite comp_next. apply IH; lia.
    + rewrite comp_next. apply IH; lia.
Qed.

(** Whatever the field, the scan prints at most one line, a [TOUCH] line,
    and ends normally. *)
Lemma touch_loop_cases (action comp : Z) (idxs : list nat) :
  touch_loop action comp idxs = ([], Ret tt) ∨
  ∃ l, is_touch l = true ∧ touch_loop action comp idxs = ([l], Ret tt).
Proof.
  revert comp. induction idxs as [|idx rest IH]; intros comp.
  - left; reflexivity.
  - cbn [touch_loop]. destruct (truthy (Z.land action comp)); [|apply IH].
    destruct (Nat.ltb_spec idx (length TOUCH_ACTIONS)) as [Hlt|Hge].
    + destruct (lookup_lt_is_Some_2 _ _ Hlt) as [[kind pos] ->].
      right; eexists; (split; [|reflexivity]); reflexivity.
    + right; eexists; (split; [|reflexivity]); reflexivity.
Qed.

Lemma sensor_touch_cases (cm : Z) (p : list byte) :
  (sensor_touch cm p).1 = [] ∨
  (has_flag cm SW_DATA_TOUCH ∧ (12 ≤ length p)%nat ∧
   sensor_touch cm p =
     touch_loop (touch_action p) (Z.shiftl 1 14) (seq 0 16) ∧
   ∃ l, is_touch l = true ∧ sensor_touch cm p = ([l], Ret tt)).
Proof.
  unfold sensor_touch, has_flag.
  destruct (truthy (Z.land cm SW_DATA_TOUCH)); [|left; reflexivity].
  rewrite !index_eq, out_bind_pure.
  destruct (getitem p 11) as [p11|e] eqn:E11; [|left; reflexivity].
  rewrite out_bind_pure.
  destruct (getitem p 10) as [p10|e] eqn:E10; [|left; reflexivity].
  apply getitem_Ret in E11 as [-> H11]. apply getitem_Ret in E10 as [-> H10].
  fold (touch_action p).
  destruct (touch_loop_cases (touch_action p) (Z.shiftl 1 14) (seq 0 16))
    as [E|(l & Hl & E)].
  - left. rewrite E. reflexivity.
  - right. repeat split; [lia|]. exists l. split; assumption.
Qed.

Lemma sensor_touch_full (cm : Z) (p : list byte) :
  (12 ≤ length p)%nat →
  sensor_touch cm p =
    if truthy (Z.land cm SW_DATA_TOUCH)
    then touch_loop (touch_action p) (Z.shiftl 1 14) (seq 0 16)
    else ([], Ret tt).
Proof.
  intros Hlen. unfold sensor_touch.
  destruct (truthy (Z.land cm SW_DATA_TOUCH)); [|reflexivity].
  rewrite !index_eq, !getitem_lt by lia. rewrite !out_bind_pure. reflexivity.
Qed.

Lemma sensor_touch_outcome (cm : Z) (p : list byte) :
  (12 ≤ length p)%nat → (sensor_touch cm p).2 = Ret tt.
Proof.
  intros Hlen. rewrite sensor_touch_full by exact Hlen.
  destruct (truthy _); [|reflexivity].
  destruct (touch_loop_cases (touch_action p) (Z.shiftl 1 14) (seq 0 16))
    as [->|(l & _ & ->)]; reflexivity.
Qed.

(** *** The whole of [handle_sensor_data] *)

Lemma out_bind_done {B : Type} (m : Out unit) (f : unit → Out B) :
  m.2 = Ret tt → m ≫= f = (m.1 ++ (f tt).1, (f tt).2).
Proof.
  destruct m as [o r]. cbn. intros ->. unfold mbind, Out_bind.
  destruct (f tt); reflexivity.
Qed.

Lemma handle_sensor_data_full (p : list byte) :
  (22 ≤ length p)%nat →
  handle_sensor_data p =
    ((sensor_xyz (configmask_of p) (sysinfo_of p) p).1 ++
     (sensor_gesture (configmask_of p) p).1 ++
     (sensor_touch (configmask_of p) p).1 ++
     (sensor_airwheel (configmask_of p) (sysinfo_of p) p).1, Ret tt).
Proof.
  intros Hlen. unfold handle_sensor_data.
  rewrite !index_eq, !getitem_lt by lia. rewrite !out_bind_pure.
  fold (configmask_of p). fold (sysinfo_of p).
  rewrite out_bind_done by (rewrite sensor_xyz_full by lia; reflexivity).
  rewrite out_bind_done by (apply sensor_gesture_full; lia).
  rewrite out_bind_done by (apply sensor_touch_outcome; lia).
  cbn [fst snd]. rewrite sensor_airwheel_full by lia.
  reflexivity.
Qed.

(** On any payload the lines come block by block, in the order of the
    blocks; a block that is not reached contributes nothing. *)
Lemma handle_sensor_data_shape (p : list byte) :
  ∃ ox og ot oa,
    (handle_sensor_data p).1 = ox ++ og ++ ot ++ oa ∧
    (ox = [] ∨ ox = (sensor_xyz (configmask_of p) (sysinfo_of p) p).1) ∧
    (og = [] ∨ og = (sensor_gesture (configmask_of p) p).1) ∧
    (ot = [] ∨ ot = (sensor_touch (configmask_of p) p).1) ∧
    (oa = [] ∨ oa = (sensor_airwheel (configmask_of p) (sysinfo_of p) p).1).
Proof.
  unfold handle_sensor_data. rewrite !index_eq.
  rewrite out_bind_pure.
  destruct (getitem p 0) as [p0|e] eqn:E0;
    [|exists [], [], [], []; repeat split; auto].
  rewrite out_bind_pure.
  destruct (getitem p 1) as [p1|e] eqn:E1;
    [|exists [], [], [], []; repeat split; auto].
  rewrite out_bind_pure.
  destruct (getitem p 3) as [p3|e] eqn:E3;
    [|exists [], [], [], []; repeat split; auto].
  apply getitem_Ret in E0 as [-> _]. apply getitem_Ret in E1 as [-> _].
  apply getitem_Ret in E3 as [-> _].
  fold (configmask_of p). fold (sysinfo_of p).
  set (mx := sensor_xyz _ _ _). set (mg := sensor_gesture _ _).
  set (mt := sensor_touch _ _). set (ma := sensor_airwheel _ _ _).
  rewrite out_bind_lines. exists mx.1.
  destruct mx.2 as [[]|e]; [|exists [], [], []; repeat split; auto].
  rewrite out_bind_lines. exists mg.1.
  destruct mg.2 as [[]|e]; [|exists [], []; repeat split; auto].
  rewrite out_bind_lines. exists mt.1.
  destruct mt.2 as [[]|e]; [|exists []; repeat split; auto].
  exists ma.1. repeat split; auto.
Qed.

(** *** [process_frame] *)

Lemma process_frame_short (frame : list byte) :
  (length frame < 4)%nat → process_frame (Some frame) = ([], Ret tt).
Proof.
  intros Hlen. unfold process_frame.
  destruct (Nat.ltb_spec (length frame) 4) as [_|]; [|lia].
  rewrite orb_true_r. reflexivity.
Qed.

Lemma process_frame_ge4 (frame : list byte) :
  (4 ≤ length frame)%nat →
  process_frame (Some frame) =
    let d_ident := byte_at frame 3 in
    if d_ident =? SW_SENSOR_DATA then handle_sensor_data (drop 4 frame)
    else if d_ident =? SW_SYSTEM_STATUS then ([], Ret tt)
    else if d_ident =? SW_FW_VERSION then
      ([FW (strip FW_STRIP (decode (drop 8 (drop 4 frame))))], Ret tt)
    else ([], Ret tt).
Proof.
  intros Hlen. unfold process_frame.
  destruct (Nat.ltb_spec (length frame) 4) as [|_]; [lia|].
  rewrite bool_decide_eq_false_2 by (intros ->; cbn in Hlen; lia).
  cbn [orb]. rewrite !index_eq, !getitem_lt by lia.
  rewrite !out_bind_pure. reflexivity.
Qed.

Lemma process_frame_sensor (frame : list byte) :
  sensor_frame frame →
  process_frame (Some frame) = handle_sensor_data (drop 4 frame).
Proof.
  intros Hs. unfold sensor_frame in Hs.
  pose proof (lookup_lt_Some _ _ _ Hs) as Hlen.
  rewrite process_frame_ge4 by lia.
  unfold byte_at. rewrite Hs. reflexivity.
Qed.

Lemma drop_4_length (frame : list byte) (n : nat) :
  (n + 4 ≤ length frame)%nat → (n ≤ length (drop 4 frame))%nat.
Proof. rewrite length_drop. lia. Qed.

(** *** Lines of one kind *)

Lemma filter_xyz_block (kind : Line → bool) (cm si : Z) (p : list byte) :
  (∀ l, is_xyz l = true → kind l = false) →
  List.filter kind (sensor_xyz cm si p).1 = [].
Proof.
  intros Hk. destruct (sensor_xyz_cases cm si p) as [->|(_ & _ & _ & ->)];
    [reflexivity|].
  cbn. rewrite Hk by reflexivity. reflexivity.
Qed.

Lemma filter_gesture_block (kind : Line → bool) (cm : Z) (p : list byte) :
  (∀ l, is_gesture l = true → kind l = false) →
  List.filter kind (sensor_gesture cm p).1 = [].
Proof.
  intros Hk. destruct (sensor_gesture_cases cm p) as [->|(g & Hg & ->)];
    [reflexivity|].
  cbn. rewrite Hk by exact Hg. reflexivity.
Qed.

Lemma filter_touch_block (kind : Line → bool) (cm : Z) (p : list byte) :
  (∀ l, is_touch l = true → kind l = false) →
  List.filter kind (sensor_touch cm p).1 = [].
Proof.
  intros Hk.
  destruct (sensor_touch_cases cm p) as [->|(_ & _ & _ & l & Hl & ->)];
    [reflexivity|].
  cbn. rewrite Hk by exact Hl. reflexivity.
Qed.

Lemma filter_airwheel_block (kind : Line → bool) (cm si : Z) (p : list byte) :
  (∀ l, is_airwheel l = true → kind l = false) →
  List.filter kind (sensor_airwheel cm si p).1 = [].
Proof.
  intros Hk. destruct (sensor_airwheel_cases cm si p) as [->|(_ & _ & ->)];
    [reflexivity|].
  cbn. rewrite Hk by reflexivity. reflexivity.
Qed.

Ltac other_kind := intros [] ?; (discriminate || reflexivity).

(** The [XYZ] lines of a run: none, or the one line of the [# XYZ] block,
    which needs both flags and the six coordinate bytes. *)
Lemma handle_xyz_lines (p : list byte) :
  lines_of is_xyz (handle_sensor_data p) = [] ∨
  (has_flag (configmask_of p) SW_DATA_XYZ ∧
   has_flag (sysinfo_of p) SYS_POSITION_VALID ∧
   (22 ≤ length p)%nat ∧
   lines_of is_xyz (handle_sensor_data p) =
     [XYZ (normalize_0_1 (u16 (byte_at p 16) (byte_at p 17)))
          (normalize_0_1 (u16 (byte_at p 18) (byte_at p 19)))
          (normalize_0_1 (u16 (byte_at p 20) (byte_at p 21)))]).
Proof.
  destruct (handle_sensor_data_shape p)
    as (ox & og & ot & oa & E & Hx & Hg & Ht & Ha).
  unfold lines_of. rewrite E, !List.filter_app.
  assert (List.filter is_xyz og = []) as ->
    by (destruct Hg as [->| ->];
        [reflexivity | apply filter_gesture_block; other_kind]).
  assert (List.filter is_xyz ot = []) as ->
    by (destruct Ht as [->| ->];
        [reflexivity | apply filter_touch_block; other_kind]).
  assert (List.filter is_xyz oa = []) as ->
    by (destruct Ha as [->| ->];
        [reflexivity | apply filter_airwheel_block; other_kind]).
  rewrite !app_nil_r.
  destruct Hx as [->| ->]; [left; reflexivity|].
  destruct (sensor_xyz_cases (configmask_of p) (sysinfo_of p) p)
    as [->|(H1 & H2 & H3 & ->)]; [left; reflexivity|].
  right. repeat split; assumption.
Qed.

(** The [TOUCH] lines of a run: none, or what the priority scan prints. *)
Lemma handle_touch_lines (p : list byte) :
  lines_of is_touch (handle_sensor_data p) = [] ∨
  (has_flag (configmask_of p) SW_DATA_TOUCH ∧ (12 ≤ length p)%nat ∧
   lines_of is_touch (handle_sensor_data p) =
     (touch_loop (touch_action p) (Z.shiftl 1 14) (seq 0 16)).1).
Proof.
  destruct (handle_sensor_data_shape p)
    as (ox & og & ot & oa & E & Hx & Hg & Ht & Ha).
  unfold lines_of. rewrite E, !List.filter_app.
  assert (List.filter is_touch ox = []) as ->
    by (destruct Hx as [->| ->];
        [reflexivity | apply filter_xyz_block; other_kind]).
  assert (List.filter is_touch og = []) as ->
    by (destruct Hg as [->| ->];
        [reflexivity | apply filter_gesture_block; other_kind]).
  assert (List.filter is_touch oa = []) as ->
    by (destruct Ha as [->| ->];
        [reflexivity | apply filter_airwheel_block; other_kind]).
  rewrite app_nil_r. cbn [app].
  destruct Ht as [->| ->]; [left; reflexivity|].
  destruct (sensor_touch_cases (configmask_of p) p)
    as [->|(H1 & H2 & H3 & l & Hl & E')]; [left; reflexivity|].
  right. repeat split; try assumption.
  rewrite <- H3, E'. cbn. rewrite Hl. reflexivity.
Qed.

(** On a full window nothing stops the run before the touch block. *)
Lemma handle_touch_lines_full (p : list byte) :
  (22 ≤ length p)%nat →
  lines_of is_touch (handle_sensor_data p) =
    if truthy (Z.land (configmask_of p) SW_DATA_TOUCH)
    then (touch_loop (touch_action p) (Z.shiftl 1 14) (seq 0 16)).1
    else [].
Proof.
  intros Hlen. unfold lines_of.
  rewrite handle_sensor_data_full by exact Hlen. cbn [fst].
  rewrite !List.filter_app.
  rewrite filter_xyz_block by other_kind.
  rewrite filter_gesture_block by other_kind.
  rewrite filter_airwheel_block by other_kind.
  rewrite app_nil_r. cbn [app].
  rewrite sensor_touch_full by lia.
  destruct (truthy _); [|reflexivity].
  destruct (touch_loop_cases (touch_action p) (Z.shiftl 1 14) (seq 0 16))
    as [->|(l & Hl & ->)]; [reflexivity|].
  cbn. rewrite Hl. reflexivity.
Qed.

Lemma handle_xyz_lines_full (p : list byte) :
  (22 ≤ length p)%nat →
  lines_of is_xyz (handle_sensor_data p) =
    if truthy (Z.land (configmask_of p) SW_DATA_XYZ)
       && truthy (Z.land (sysinfo_of p) SYS_POSITION_VALID)
    then [XYZ (normalize_0_1 (u16 (byte_at p 16) (byte_at p 17)))
              (normalize_0_1 (u16 (byte_at p 18) (byte_at p 19)))
              (normalize_0_1 (u16 (byte_at p 20) (byte_at p 21)))]
    else [].
Proof.
  intros Hlen. unfold lines_of.
  rewrite handle_sensor_data_full by exact Hlen. cbn [fst].
  rewrite !List.filter_app.
  rewrite filter_gesture_block by other_kind.
  rewrite filter_touch_block by other_kind.
  rewrite filter_airwheel_block by other_kind.
  rewrite app_nil_r.
  rewrite sensor_xyz_full by lia.
  destruct (_ && _); reflexivity.
Qed.

(** ** The end-to-end example (C1) *)

(** C1, as the specification states it, fails on the frame it gives.  In
    that frame the sysinfo byte [0x01] has only POSITION_VALID, the gesture
    byte (payload offset 6) is [0x00], the byte [0x10] sits at payload
    offset 10, which is the low byte of the touch action field, and the
    coordinates start at payload offset 16.  Even with every trailing byte
    [0x80] the run prints a position and a touch line, and neither a
    gesture nor an air-wheel line. *)
Lemma example_frame_not_as_specified :
  length example_frame = 32%nat ∧
  process_frame (Some example_frame) =
    ([XYZ (5020 # 10000) (5020 # 10000) (5020 # 10000);
      TOUCH "touch" "center"], Ret tt) ∧
  process_frame (Some example_frame) ≠
    ([XYZ (5020 # 10000) (5020 # 10000) (5020 # 10000);
      GESTURE_kind "garbage"; AIRWHEEL 0x10], Ret tt) ∧
  lines_of is_gesture (process_frame (Some example_frame)) = [] ∧
  lines_of is_airwheel (process_frame (Some example_frame)) = [] ∧
  lines_of is_touch (process_frame (Some example_frame)) ≠ [].
Proof.
  split; [reflexivity|]. split; [vm_compute; reflexivity|].
  split; [vm_compute; discriminate|].
  split; [vm_compute; reflexivity|]. split; [vm_compute; reflexivity|].
  vm_compute; discriminate.
Qed.

(** C1 (amended): decoding the 22 given bytes followed by at least four
    more bytes [t0 t1 t2 t3 ...] prints exactly a position whose [x] is
    [0.5020] and whose [y] and [z] are the normalised values of the
    trailing bytes [t0 t1] and [t2 t3], then the touch action
    [touch center] (action field [0x0010], bit 4); no gesture line and no
    air-wheel line. *)
Theorem example_frame_decodes (t0 t1 t2 t3 : byte) (rest : list byte) :
  process_frame (Some (example_head ++ t0 :: t1 :: t2 :: t3 :: rest)) =
    ([XYZ (5020 # 10000)
          (normalize_0_1 (u16 (byte_to_Z t0) (byte_to_Z t1)))
          (normalize_0_1 (u16 (byte_to_Z t2) (byte_to_Z t3)));
      TOUCH "touch" "center"], Ret tt).
Proof.
  rewrite process_frame_sensor by reflexivity.
  rewrite handle_sensor_data_full by (cbn; lia).
  set (p := drop 4 _).
  change (configmask_of p) with 0x1F. change (sysinfo_of p) with 0x01.
  rewrite sensor_xyz_full by (cbn; lia).
  reflexivity.
Qed.

(** ** Position samples (C7) *)

(** C7, as the specification states it, fails on a sensor-data frame that
    is too short to hold the coordinates: the 25-byte frame has
    ConfigMask.XYZ and SystemInfo.POSITION_VALID set, and no position line
    is printed, because the read of the last coordinate byte raises. *)
Lemma position_missing_on_truncated_frame :
  sensor_frame truncated_frame ∧
  length truncated_frame = 25%nat ∧
  has_flag (configmask_of (drop 4 truncated_frame)) SW_DATA_XYZ ∧
  has_flag (sysinfo_of (drop 4 truncated_frame)) SYS_POSITION_VALID ∧
  process_frame (Some truncated_frame) = ([], Raise IndexError) ∧
  ¬ (∃ x y z, In (XYZ x y z) (process_frame (Some truncated_frame)).1).
Proof.
  split; [reflexivity|]. split; [reflexivity|]. split; [reflexivity|].
  split; [reflexivity|]. split; [vm_compute; reflexivity|].
  intros (x & y & z & H). vm_compute in H. exact H.
Qed.

(** C7 (amended): for every sensor-data frame, a position line is printed
    if and only if ConfigMask.XYZ and SystemInfo.POSITION_VALID both hold
    and the frame holds the six coordinate bytes (26 bytes or more, as
    every 32-byte window does); it is then the one line with the three
    normalised coordinates.  In particular a frame with XYZ set and
    POSITION_VALID clear prints no position line, whatever its length. *)
Theorem position_iff_both_flags (frame : list byte) :
  sensor_frame frame →
  let p := drop 4 frame in
  ((∃ x y z, In (XYZ x y z) (process_frame (Some frame)).1) ↔
   (has_flag (configmask_of p) SW_DATA_XYZ ∧
    has_flag (sysinfo_of p) SYS_POSITION_VALID ∧
    (26 ≤ length frame)%nat)) ∧
  ((26 ≤ length frame)%nat →
   has_flag (configmask_of p) SW_DATA_XYZ →
   has_flag (sysinfo_of p) SYS_POSITION_VALID →
   lines_of is_xyz (process_frame (Some frame)) =
     [XYZ (normalize_0_1 (u16 (byte_at p 16) (byte_at p 17)))
          (normalize_0_1 (u16 (byte_at p 18) (byte_at p 19)))
          (normalize_0_1 (u16 (byte_at p 20) (byte_at p 21)))]) ∧
  (¬ (has_flag (configmask_of p) SW_DATA_XYZ ∧
      has_flag (sysinfo_of p) SYS_POSITION_VALID ∧
      (26 ≤ length frame)%nat) →
   lines_of is_xyz (process_frame (Some frame)) = []).
Proof.
  intros Hs p. rewrite process_frame_sensor by exact Hs. fold p.
  assert (Hfull : (26 ≤ length frame)%nat →
                  has_flag (configmask_of p) SW_DATA_XYZ →
                  has_flag (sysinfo_of p) SYS_POSITION_VALID →
                  lines_of is_xyz (handle_sensor_data p) =
                    [XYZ (normalize_0_1 (u16 (byte_at p 16) (byte_at p 17)))
                         (normalize_0_1 (u16 (byte_at p 18) (byte_at p 19)))
                         (normalize_0_1 (u16 (byte_at p 20) (byte_at p 21)))]).
  { intros Hlen H1 H2.
    rewrite handle_xyz_lines_full by (apply drop_4_length; lia).
    unfold has_flag in H1, H2. rewrite H1, H2. reflexivity. }
  assert (Hlenp : length p = (length frame - 4)%nat) by apply length_drop.
  split; [|split; [exact Hfull|]].
  - split.
    + intros (x & y & z & Hin).
      assert (In (XYZ x y z) (lines_of is_xyz (handle_sensor_data p))) as Hf
        by (apply List.filter_In; split; [exact Hin | reflexivity]).
      destruct (handle_xyz_lines p) as [E|(H1 & H2 & H22 & _)].
      * rewrite E in Hf. destruct Hf.
      * repeat split; try assumption. lia.
    + intros (H1 & H2 & Hlen).
      eexists _, _, _.
      assert (Hin : In (XYZ (normalize_0_1 (u16 (byte_at p 16) (byte_at p 17)))
                            (normalize_0_1 (u16 (byte_at p 18) (byte_at p 19)))
                            (normalize_0_1 (u16 (byte_at p 20) (byte_at p 21))))
                       (lines_of is_xyz (handle_sensor_data p)))
        by (rewrite (Hfull Hlen H1 H2); left; reflexivity).
      apply List.filter_In in Hin as [Hin _]. exact Hin.
  - intros Hn.
    destruct (handle_xyz_lines p) as [E|(H1 & H2 & H22 & _)]; [exact E|].
    exfalso. apply Hn. repeat split; try assumption. lia.
Qed.

Lemma position_iff_both_flags_witness :
  sensor_frame example_frame ∧
  lines_of is_xyz (process_frame (Some example_frame)) =
    [XYZ (5020 # 10000) (5020 # 10000) (5020 # 10000)] ∧
  sensor_frame truncated_frame ∧
  lines_of is_xyz (process_frame (Some truncated_frame)) = [].
Proof.
  split; [reflexivity|].
  destruct (position_iff_both_flags example_frame eq_refl) as (_ & H & _).
  split; [apply H; [cbn; lia | reflexivity | reflexivity]|].
  split; [reflexivity|].
  destruct (position_iff_both_flags truncated_frame eq_refl) as (_ & _ & H').
  apply H'. intros (_ & _ & Hlen). cbn in Hlen. lia.
Defined.

(** ** Touch events (C3, C10) *)

(** Either some bit among 14..0 is the highest one set, or none is set. *)
Lemma highest_or_clear_below (action : Z) (n : nat) :
  (n ≤ 15)%nat →
  (∃ k, 15 - Z.of_nat n ≤ k ≤ 14 ∧ Z.testbit action k = true ∧
        ∀ j, k < j ≤ 14 → Z.testbit action j = false) ∨
  (∀ j, 15 - Z.of_nat n ≤ j ≤ 14 → Z.testbit action j = false).
Proof.
  induction n as [|n IH]; intros Hn.
  - right. intros j Hj. lia.
  - destruct (IH ltac:(lia)) as [(k & Hk & Hset & Hhigh)|Hclear].
    + left. exists k. split; [lia|]. split; assumption.
    + destruct (Z.testbit action (15 - Z.of_nat (S n))) eqn:E.
      * left. exists (15 - Z.of_nat (S n)). split; [lia|]. split; [exact E|].
        intros j Hj. apply Hclear. lia.
      * right. intros j Hj.
        destruct (Z.eq_dec j (15 - Z.of_nat (S n))) as [->|Hne]; [exact E|].
        apply Hclear. lia.
Qed.

Lemma highest_or_clear (action : Z) :
  (∃ k, highest_set_bit action k) ∨
  (∀ j, 0 ≤ j ≤ 14 → Z.testbit action j = false).
Proof.
  destruct (highest_or_clear_below action 15 ltac:(lia))
    as [(k & Hk & Hset & Hhigh)|Hclear].
  - left. exists k. split; [lia|]. split; assumption.
  - right. intros j Hj. apply Hclear. lia.
Qed.

(** When the run reaches the touch block, its lines are those of the
    priority scan. *)
Lemma handle_touch_lines_reached (p : list byte) :
  touch_reached p →
  lines_of is_touch (handle_sensor_data p) =
    if truthy (Z.land (configmask_of p) SW_DATA_TOUCH)
    then (touch_loop (touch_action p) (Z.shiftl 1 14) (seq 0 16)).1
    else [].
Proof.
  intros [Hlen Hxyz]. unfold lines_of, handle_sensor_data.
  rewrite !index_eq, !getitem_lt by lia. rewrite !out_bind_pure.
  fold (configmask_of p). fold (sysinfo_of p).
  assert (Hx : (sensor_xyz (configmask_of p) (sysinfo_of p) p).2 = Ret tt).
  { unfold has_flag in Hxyz.
    destruct (truthy (Z.land (configmask_of p) SW_DATA_XYZ)) eqn:E1;
      [destruct (truthy (Z.land (sysinfo_of p) SYS_POSITION_VALID)) eqn:E2|].
    - rewrite sensor_xyz_full by auto. reflexivity.
    - unfold sensor_xyz. rewrite E1, E2. reflexivity.
    - unfold sensor_xyz. rewrite E1. reflexivity. }
  rewrite out_bind_done by exact Hx.
  rewrite out_bind_done by (apply sensor_gesture_full; lia).
  rewrite out_bind_done by (apply sensor_touch_outcome; lia).
  cbn [fst]. rewrite !List.filter_app.
  rewrite filter_xyz_block by other_kind.
  rewrite filter_gesture_block by other_kind.
  rewrite filter_airwheel_block by other_kind.
  rewrite app_nil_r. cbn [app].
  rewrite sensor_touch_full by lia.
  destruct (truthy _); [|reflexivity].
  destruct (touch_loop_cases (touch_action p) (Z.shiftl 1 14) (seq 0 16))
    as [->|(l & Hl & ->)]; [reflexivity|].
  cbn. rewrite Hl. reflexivity.
Qed.

(** C3: every sensor-data frame with ConfigMask.TOUCH set, whatever its
    length, prints at most one touch line, and a touch line that is
    printed is the entry [14 - k] of the table for the highest-numbered
    set bit [k] among bits 14..0 of the action field: several bits set at
    once never give several lines nor the line of a lower bit.  The line
    is printed whenever the run reaches the touch block (the payload
    holds the touch field and the position block before it does not
    raise; every frame of 26 bytes or more does); with none of the bits
    14..0 set no touch line is printed.  In particular with bit 14 set (as
    in the field with the bits 14, 11 and 3 set) the only touch line is
    [doubletap center]. *)
Theorem touch_highest_bit_wins (frame : list byte) :
  sensor_frame frame →
  has_flag (configmask_of (drop 4 frame)) SW_DATA_TOUCH →
  let p := drop 4 frame in
  let action := touch_action p in
  let touches := lines_of is_touch (process_frame (Some frame)) in
  (length touches ≤ 1)%nat ∧
  (∀ k, highest_set_bit action k →
     ∃ kind pos, TOUCH_ACTIONS !! Z.to_nat (14 - k) = Some (kind, pos) ∧
                 (touches = [] ∨ touches = [TOUCH kind pos]) ∧
                 (touch_reached p → touches = [TOUCH kind pos])) ∧
  ((∀ j, 0 ≤ j ≤ 14 → Z.testbit action j = false) → touches = []) ∧
  (touches ≠ [] → ∃ k, highest_set_bit action k) ∧
  (Z.testbit action 14 = true →
     (touches = [] ∨ touches = [TOUCH "doubletap" "center"]) ∧
     (touch_reached p → touches = [TOUCH "doubletap" "center"])) ∧
  ((26 ≤ length frame)%nat → touch_reached p).
Proof.
  intros Hs Hflag p action touches. subst touches.
  rewrite process_frame_sensor by exact Hs. fold p.
  assert (Hhit : ∀ k, highest_set_bit action k →
    ∃ kind pos, TOUCH_ACTIONS !! Z.to_nat (14 - k) = Some (kind, pos) ∧
      (touch_loop action (Z.shiftl 1 14) (seq 0 16)).1 = [TOUCH kind pos]).
  { intros k Hk.
    destruct (touch_loop_hit action k Hk 16 0 eq_refl) as (kind & pos & Hl & E).
    - destruct Hk as [? _]. lia.
    - exists kind, pos. split; [exact Hl|].
      change (Z.shiftr (Z.shiftl 1 14) (Z.of_nat 0)) with (Z.shiftl 1 14) in E.
      rewrite E. reflexivity. }
  assert (Hmiss : (∀ j, 0 ≤ j ≤ 14 → Z.testbit action j = false) →
                  (touch_loop action (Z.shiftl 1 14) (seq 0 16)).1 = []).
  { intros Hclear.
    pose proof (touch_loop_miss action Hclear 16 0 eq_refl) as E.
    change (Z.shiftr (Z.shiftl 1 14) (Z.of_nat 0)) with (Z.shiftl 1 14) in E.
    rewrite E. reflexivity. }
  assert (Hreach : touch_reached p →
                   lines_of is_touch (handle_sensor_data p) =
                     (touch_loop action (Z.shiftl 1 14) (seq 0 16)).1).
  { intros Hr. rewrite handle_touch_lines_reached by exact Hr.
    unfold has_flag in Hflag. fold p in Hflag. rewrite Hflag. reflexivity. }
  assert (Hk : ∀ k, highest_set_bit action k →
     ∃ kind pos, TOUCH_ACTIONS !! Z.to_nat (14 - k) = Some (kind, pos) ∧
       (lines_of is_touch (handle_sensor_data p) = [] ∨
        lines_of is_touch (handle_sensor_data p) = [TOUCH kind pos]) ∧
       (touch_reached p →
        lines_of is_touch (handle_sensor_data p) = [TOUCH kind pos])).
  { intros k Hk. destruct (Hhit k Hk) as (kind & pos & Hl & E).
    exists kind, pos. split; [exact Hl|]. split.
    - destruct (handle_touch_lines p) as [E'|(_ & _ & E')];
        [left; exact E' | right; rewrite E'; exact E].
    - intros Hr. rewrite (Hreach Hr). exact E. }
  assert (Hclear : (∀ j, 0 ≤ j ≤ 14 → Z.testbit action j = false) →
                   lines_of is_touch (handle_sensor_data p) = []).
  { intros Hc. destruct (handle_touch_lines p) as [E'|(_ & _ & E')];
      [exact E' | rewrite E'; apply Hmiss; exact Hc]. }
  split; [|split; [exact Hk|split; [exact Hclear|split; [|split]]]].
  - destruct (handle_touch_lines p) as [->|(_ & _ & ->)]; [cbn; lia|].
    destruct (touch_loop_cases (touch_action p) (Z.shiftl 1 14) (seq 0 16))
      as [->|(l & _ & ->)]; cbn; lia.
  - intros Hne. destruct (highest_or_clear action) as [Hex|Hc]; [exact Hex|].
    exfalso. apply Hne. apply Hclear. exact Hc.
  - intros H14.
    destruct (Hk 14) as (kind & pos & Hl & Hor & Hr).
    + split; [lia|]. split; [exact H14|]. intros j Hj. lia.
    + cbn in Hl. injection Hl as <- <-. split; assumption.
  - intros Hlen. unfold touch_reached, p. rewrite length_drop.
    split; [lia|]. intros _ _. lia.
Qed.

Lemma touch_highest_bit_wins_witness :
  (sensor_frame touch_frame ∧
   has_flag (configmask_of (drop 4 touch_frame)) SW_DATA_TOUCH ∧
   touch_action (drop 4 touch_frame) = 0x4808 ∧
   lines_of is_touch (process_frame (Some touch_frame)) =
     [TOUCH "doubletap" "center"]) ∧
  (sensor_frame touch_short_frame ∧
   has_flag (configmask_of (drop 4 touch_short_frame)) SW_DATA_TOUCH ∧
   length touch_short_frame = 16%nat ∧
   touch_reached (drop 4 touch_short_frame) ∧
   lines_of is_touch (process_frame (Some touch_short_frame)) =
     [TOUCH "doubletap" "center"]) ∧
  (sensor_frame touch_unreached_frame ∧
   has_flag (configmask_of (drop 4 touch_unreached_frame)) SW_DATA_TOUCH ∧
   length touch_unreached_frame = 25%nat ∧
   (lines_of is_touch (process_frame (Some touch_unreached_frame)) = [] ∨
    lines_of is_touch (process_frame (Some touch_unreached_frame)) =
      [TOUCH "doubletap" "center"])).
Proof.
  split; [|split].
  - split; [reflexivity|]. split; [reflexivity|]. split; [reflexivity|].
    destruct (touch_highest_bit_wins touch_frame eq_refl eq_refl)
      as (_ & _ & _ & _ & H14 & Hfull).
    apply H14; [reflexivity|]. apply Hfull. cbn; lia.
  - split; [reflexivity|]. split; [reflexivity|]. split; [reflexivity|].
    assert (Hr : touch_reached (drop 4 touch_short_frame)).
    { split; [cbn; lia|]. intros H. vm_compute in H. discriminate H. }
    split; [exact Hr|].
    destruct (touch_highest_bit_wins touch_short_frame eq_refl eq_refl)
      as (_ & _ & _ & _ & H14 & _).
    apply H14; [reflexivity | exact Hr].
  - split; [reflexivity|]. split; [reflexivity|]. split; [reflexivity|].
    destruct (touch_highest_bit_wins touch_unreached_frame eq_refl eq_refl)
      as (_ & _ & _ & _ & H14 & _).
    apply H14. reflexivity.
Defined.

(** C10: bit 15 of the action field is never examined: a sensor-data frame
    with ConfigMask.TOUCH set whose action field is [0x8000] prints no
    touch line. *)
Theorem touch_bit15_ignored (frame : list byte) :
  sensor_frame frame →
  has_flag (configmask_of (drop 4 frame)) SW_DATA_TOUCH →
  touch_action (drop 4 frame) = 0x8000 →
  lines_of is_touch (process_frame (Some frame)) = [].
Proof.
  intros Hs _ Hact. rewrite process_frame_sensor by exact Hs.
  destruct (handle_touch_lines (drop 4 frame)) as [E|(_ & _ & E)]; [exact E|].
  rewrite E, Hact. reflexivity.
Qed.

Lemma touch_bit15_ignored_witness :
  sensor_frame bit15_frame ∧
  has_flag (configmask_of (drop 4 bit15_frame)) SW_DATA_TOUCH ∧
  touch_action (drop 4 bit15_frame) = 0x8000 ∧
  lines_of is_touch (process_frame (Some bit15_frame)) = [].
Proof.
  split; [reflexivity|]. split; [reflexivity|]. split; [reflexivity|].
  apply (touch_bit15_ignored bit15_frame); reflexivity.
Defined.

(** ** Short sensor-data frames (C9) *)

Lemma getitem_Raise (a : list byte) (i : nat) (e : exn) :
  getitem a i = Raise e → e = IndexError.
Proof. unfold getitem. destruct (a !! i); [discriminate|]. congruence. Qed.

Lemma handle_sensor_data_short (p : list byte) :
  (length p < 4)%nat → handle_sensor_data p = ([], Raise IndexError).
Proof.
  intros Hlen. unfold handle_sensor_data. rewrite !index_eq.
  rewrite out_bind_pure.
  destruct (getitem p 0) as [p0|e] eqn:E0;
    [|apply getitem_Raise in E0 as ->; reflexivity].
  rewrite out_bind_pure.
  destruct (getitem p 1) as [p1|e] eqn:E1;
    [|apply getitem_Raise in E1 as ->; reflexivity].
  rewrite out_bind_pure, getitem_ge by lia. reflexivity.
Qed.

(** C9: the guard [len(frame) < 4] is the only length check of the
    decoder.  There is a sensor-data frame of 25 bytes, with XYZ and
    POSITION_VALID set, on which the indexing of the payload runs out of
    range and the decoder raises instead of dropping the frame; every
    sensor-data frame of 4 to 7 bytes raises likewise; a sensor-data frame
    of 26 bytes or more is decoded without an exception; a frame of fewer
    than 4 bytes is dropped silently. *)
Theorem sensor_frame_needs_full_window :
  (∃ frame,
     (4 ≤ length frame < 26)%nat ∧ sensor_frame frame ∧
     has_flag (configmask_of (drop 4 frame)) SW_DATA_XYZ ∧
     has_flag (sysinfo_of (drop 4 frame)) SYS_POSITION_VALID ∧
     process_frame (Some frame) = ([], Raise IndexError)) ∧
  (∀ frame, sensor_frame frame → (length frame < 8)%nat →
     process_frame (Some frame) = ([], Raise IndexError)) ∧
  (∀ frame, sensor_frame frame → (26 ≤ length frame)%nat →
     (process_frame (Some frame)).2 = Ret tt) ∧
  (∀ frame, (length frame < 4)%nat →
     process_frame (Some frame) = ([], Ret tt)).
Proof.
  split; [|split; [|split]].
  - exists truncated_frame.
    split; [cbn; lia|]. repeat split; vm_compute; reflexivity.
  - intros frame Hs Hlen. rewrite process_frame_sensor by exact Hs.
    apply handle_sensor_data_short. rewrite length_drop. lia.
  - intros frame Hs Hlen. rewrite process_frame_sensor by exact Hs.
    rewrite handle_sensor_data_full by (apply drop_4_length; lia).
    reflexivity.
  - intros frame Hlen. apply process_frame_short. exact Hlen.
Qed.

Lemma sensor_frame_needs_full_window_witness :
  (sensor_frame header_only_frame ∧ (length header_only_frame < 8)%nat ∧
   process_frame (Some header_only_frame) = ([], Raise IndexError)) ∧
  (sensor_frame example_frame ∧ (26 ≤ length example_frame)%nat ∧
   (process_frame (Some example_frame)).2 = Ret tt) ∧
  ((length [x1e; x00; x91] < 4)%nat ∧
   process_frame (Some [x1e; x00; x91]) = ([], Ret tt)).
Proof.
  destruct sensor_frame_needs_full_window as (_ & H1 & H2 & H3).
  split; [|split].
  - split; [reflexivity|]. split; [cbn; lia|].
    apply H1; [reflexivity | cbn; lia].
  - split; [reflexivity|]. split; [cbn; lia|].
    apply H2; [reflexivity | cbn; lia].
  - split; [cbn; lia|]. apply H3. cbn; lia.
Defined.

(** ** Firmware text (C8) *)

Lemma lstrip_spec (chars s : list Z) :
  ∃ pre, s = pre ++ lstrip chars s ∧
         Forall (λ c, in_chars chars c = true) pre ∧
         ∀ c rest, lstrip chars s = c :: rest → in_chars chars c = false.
Proof.
  induction s as [|c t (pre & E & Hpre & Hhd)].
  - exists []. split; [reflexivity|]. split; [constructor|]. discriminate.
  - cbn [lstrip]. destruct (in_chars chars c) eqn:Hc.
    + exists (c :: pre). split; [cbn; congruence|].
      split; [constructor; assumption | exact Hhd].
    + exists []. split; [reflexivity|]. split; [constructor|].
      intros c' rest [= <- _]. exact Hc.
Qed.

Lemma rstrip_spec (chars s : list Z) :
  ∃ post, s = rstrip chars s ++ post ∧
          Forall (λ c, in_chars chars c = true) post ∧
          ∀ c init, rstrip chars s = init ++ [c] → in_chars chars c = false.
Proof.
  unfold rstrip. destruct (lstrip_spec chars (rev s)) as (pre & E & Hpre & Hhd).
  exists (rev pre). split; [|split].
  - rewrite <- rev_app_distr, <- E, rev_involutive. reflexivity.
  - apply Forall_rev. exact Hpre.
  - intros c init Hr. apply (Hhd c (rev init)).
    rewrite <- (rev_involutive (lstrip chars (rev s))), Hr.
    rewrite rev_app_distr. reflexivity.
Qed.

(** [strip] removes characters of [chars] at both ends and nothing else. *)
Lemma strip_spec (chars s : list Z) :
  ∃ pre post,
    s = pre ++ strip chars s ++ post ∧
    Forall (λ c, in_chars chars c = true) pre ∧
    Forall (λ c, in_chars chars c = true) post ∧
    (∀ c rest, strip chars s = c :: rest → in_chars chars c = false) ∧
    (∀ c init, strip chars s = init ++ [c] → in_chars chars c = false).
Proof.
  unfold strip.
  destruct (lstrip_spec chars s) as (pre & E & Hpre & Hhd).
  destruct (rstrip_spec chars (lstrip chars s)) as (post & E' & Hpost & Hlast).
  exists pre, post. split; [|split; [|split; [|split]]]; try assumption.
  - rewrite <- E'. exact E.
  - intros c rest Hs. apply (Hhd c (rest ++ post)).
    rewrite E' at 1. rewrite Hs. reflexivity.
Qed.

Lemma decode_ignore_ascii (a rest : list Z) :
  Forall (λ b, 0 ≤ b < 0x80) a →
  decode_ignore (a ++ rest) = a ++ decode_ignore rest.
Proof.
  induction 1 as [|b a Hb _ IH]; [reflexivity|].
  cbn [app decode_ignore].
  destruct (Z.ltb_spec b 0x80) as [_|]; [|lia].
  rewrite IH. reflexivity.
Qed.

Lemma decode_ignore_invalid (b : Z) (rest : list Z) :
  invalid_start b → decode_ignore (b :: rest) = decode_ignore rest.
Proof.
  intros Hb. cbn [decode_ignore].
  destruct (Z.ltb_spec b 0x80); [unfold invalid_start in Hb; lia|].
  destruct (Z.leb_spec 0xC2 b), (Z.leb_spec b 0xDF), (Z.leb_spec 0xE0 b),
    (Z.leb_spec b 0xEF), (Z.leb_spec 0xF0 b), (Z.leb_spec b 0xF4);
    cbn [andb]; try reflexivity; unfold invalid_start in Hb; lia.
Qed.

(** C8, as the specification states it, fails on a text that starts with
    a strip character: [strip] removes it too, so the printed text is not
    the decoded text with only its trailing characters removed. *)
Lemma firmware_text_loses_leading_space :
  fw_frame fw_example_frame ∧
  decode (drop 8 (drop 4 fw_example_frame)) = [0x20; 0x41; 0xE9; 0x42; 0x0A; 0x00] ∧
  rstrip FW_STRIP (decode (drop 8 (drop 4 fw_example_frame))) =
    [0x20; 0x41; 0xE9; 0x42] ∧
  process_frame (Some fw_example_frame) = ([FW [0x41; 0xE9; 0x42]], Ret tt) ∧
  process_frame (Some fw_example_frame) ≠
    ([FW (rstrip FW_STRIP (decode (drop 8 (drop 4 fw_example_frame))))], Ret tt).
Proof.
  split; [reflexivity|]. split; [vm_compute; reflexivity|].
  split; [vm_compute; reflexivity|]. split; [vm_compute; reflexivity|].
  vm_compute. discriminate.
Qed.

(** C8 (amended): decoding a firmware-version frame never fails and prints
    one line, the text of [payload[8:]] with the NUL, CR, LF and space
    characters removed at both ends, leading as well as trailing, and
    nothing else removed.  In the text, bytes below [0x80] stand for
    themselves and a byte that starts no UTF-8 sequence is skipped. *)
Theorem firmware_text_stripped (frame : list byte) :
  fw_frame frame →
  (∃ fw pre post,
     process_frame (Some frame) = ([FW fw], Ret tt) ∧
     decode (drop 8 (drop 4 frame)) = pre ++ fw ++ post ∧
     Forall (λ c, in_chars FW_STRIP c = true) pre ∧
     Forall (λ c, in_chars FW_STRIP c = true) post ∧
     (∀ c rest, fw = c :: rest → in_chars FW_STRIP c = false) ∧
     (∀ c init, fw = init ++ [c] → in_chars FW_STRIP c = false)) ∧
  (∀ a rest, Forall (λ b, 0 ≤ b < 0x80) a →
     decode_ignore (a ++ rest) = a ++ decode_ignore rest) ∧
  (∀ b rest, invalid_start b → decode_ignore (b :: rest) = decode_ignore rest).
Proof.
  intros Hf. split; [|split].
  - unfold fw_frame in Hf.
    pose proof (lookup_lt_Some _ _ _ Hf) as Hlen.
    rewrite process_frame_ge4 by lia.
    unfold byte_at. rewrite Hf. cbv zeta.
    change (byte_to_Z x83 =? SW_SENSOR_DATA) with false.
    change (byte_to_Z x83 =? SW_SYSTEM_STATUS) with false.
    change (byte_to_Z x83 =? SW_FW_VERSION) with true. cbv iota.
    set (text := decode _).
    destruct (strip_spec FW_STRIP text) as (pre & post & E & H1 & H2 & H3 & H4).
    exists (strip FW_STRIP text), pre, post.
    repeat split; assumption.
  - exact decode_ignore_ascii.
  - exact decode_ignore_invalid.
Qed.

Lemma firmware_text_stripped_witness :
  fw_frame fw_example_frame ∧
  ∃ fw pre post,
    process_frame (Some fw_example_frame) = ([FW fw], Ret tt) ∧
    decode (drop 8 (drop 4 fw_example_frame)) = pre ++ fw ++ post.
Proof.
  split; [reflexivity|].
  destruct (firmware_text_stripped fw_example_frame eq_refl)
    as ((fw & pre & post & E1 & E2 & _) & _).
  exists fw, pre, post. split; assumption.
Defined.

(** ** Frame transport (C4) *)

Lemma read_frame_raw_idle (dev : Device) (w : World) :
  line_level dev w ≠ 0 →
  ∃ w', read_frame_raw dev w = (w', Ret None) ∧
        trace w' = trace w ++ [XferRead (line_level dev w)] ∧
        pin_xfer w' = pin_xfer w ∧
        n_reads w' = n_reads w ∧ n_writes w' = n_writes w.
Proof.
  intros Hv. unfold read_frame_raw, mbind, HW_bind, xfer_value, line_level in *.
  destruct (mode (pin_xfer w));
    match goal with
    | |- context [?v =? 0] => destruct (Z.eqb_spec v 0) as [E|_]; [contradiction|]
    end;
    cbn [negb]; eexists; (split; [reflexivity|]); repeat split.
Qed.

Lemma read_frame_raw_asserted (dev : Device) (w : World) :
  line_level dev w = 0 →
  ∃ w',
    read_frame_raw dev w =
      (w', match i2c_read dev (n_reads w) with
           | Some data => Ret (Some data)
           | None => Raise OSError
           end) ∧
    trace w' = trace w ++ [ XferRead 0; XferInitOut 0;
                            I2CRead SW_ADDR 0x00 32 (i2c_read dev (n_reads w));
                            XferValue 1; XferInitIn ] ∧
    pin_xfer w' = released ∧
    n_reads w' = S (n_reads w) ∧ n_writes w' = n_writes w.
Proof.
  intros Hv.
  unfold read_frame_raw, mbind, HW_bind, xfer_value, line_level in *.
  destruct (mode (pin_xfer w)); rewrite Hv; cbn [Z.eqb negb];
    unfold try_finally, xfer_init_out, i2c_readfrom_mem, xfer_set,
      xfer_init_in, mret, HW_ret, mbind, HW_bind;
    cbn -[SW_ADDR]; destruct (i2c_read dev (n_reads w));
    eexists; (split; [reflexivity|]); cbn -[SW_ADDR];
    rewrite <- ?app_assoc; repeat split.
Qed.

(** C4: once [read_frame_raw] has found the transfer line low and taken
    it over as an output, it releases it on every way out: whether the
    32-byte block read returns its bytes or fails with a bus error, the
    last two operations are driving the line high and making it an input
    with pull-up again, and the line is left released; on a failed read the
    bus error is then passed on. *)
Theorem read_frame_raw_releases (dev : Device) (w : World) :
  line_level dev w = 0 →
  ∃ w' r,
    read_frame_raw dev w = (w', r) ∧
    trace w' = trace w ++ [ XferRead 0; XferInitOut 0;
                            I2CRead SW_ADDR 0x00 32 (i2c_read dev (n_reads w));
                            XferValue 1; XferInitIn ] ∧
    pin_xfer w' = released ∧
    (∀ data, i2c_read dev (n_reads w) = Some data → r = Ret (Some data)) ∧
    (i2c_read dev (n_reads w) = None → r = Raise OSError).
Proof.
  intros Hv.
  destruct (read_frame_raw_asserted dev w Hv) as (w' & E & Ht & Hp & _).
  eexists w', _. split; [exact E|]. split; [exact Ht|]. split; [exact Hp|].
  split.
  - intros data ->. reflexivity.
  - intros ->. reflexivity.
Qed.

Lemma read_frame_raw_releases_witness :
  line_level dev_broken boot = 0 ∧
  ∃ w',
    read_frame_raw dev_broken boot = (w', Raise OSError) ∧
    trace w' = [ XferRead 0; XferInitOut 0; I2CRead SW_ADDR 0x00 32 None;
                 XferValue 1; XferInitIn ] ∧
    pin_xfer w' = released.
Proof.
  split; [reflexivity|].
  destruct (read_frame_raw_releases dev_broken boot eq_refl)
    as (w' & r & E & Ht & Hp & _ & Herr).
  exists w'. rewrite (Herr eq_refl) in E.
  split; [exact E|]. split; [exact Ht | exact Hp].
Defined.

(** ** Status acknowledgement wait (C5) *)

Lemma xfer_value_spec (dev : Device) (w : World) :
  ∃ w', xfer_value dev w = (w', Ret (line_level dev w)) ∧
        trace w' = trace w ++ [XferRead (line_level dev w)] ∧
        pin_xfer w' = pin_xfer w ∧
        n_reads w' = n_reads w ∧ n_writes w' = n_writes w.
Proof.
  unfold xfer_value, line_level.
  destruct (mode (pin_xfer w)); eexists; (split; [reflexivity|]);
    repeat split.
Qed.

Lemma status_check_spec (cmd_id : Z) (data : list byte) (w : World) :
  status_check cmd_id (Some data) w = (w, Ret (is_ack cmd_id data)) ∨
  (status_check cmd_id (Some data) w = (w, Raise IndexError) ∧
   is_ack cmd_id data = false ∧ (length data < 5)%nat).
Proof.
  unfold status_check, is_ack, hw_index, getitem, mbind, HW_bind, mret, HW_ret.
  case_bool_decide as Hnil.
  - subst data. left. reflexivity.
  - destruct (data !! 3%nat) as [b3|] eqn:E3.
    + destruct (byte_to_Z b3 =? SW_SYSTEM_STATUS).
      * destruct (data !! 4%nat) as [b4|] eqn:E4.
        -- left. reflexivity.
        -- right. repeat split. apply lookup_ge_None_1 in E4. lia.
      * left. destruct (data !! 4%nat); reflexivity.
    + right. repeat split. apply lookup_ge_None_1 in E3. lia.
Qed.

Lemma polls_app (t1 t2 : list HwOp) : polls (t1 ++ t2) = (polls t1 + polls t2)%nat.
Proof. unfold polls. rewrite List.filter_app, length_app. reflexivity. Qed.

(** One turn of the loop: what it does to the hardware and how it ends. *)
Lemma poll_spec (dev : Device) (cmd_id : Z) (w : World) :
  ∃ w' r t,
    poll dev cmd_id w = (w', r) ∧
    trace w' = trace w ++ SleepMs 1 :: t ∧
    polls t = 0%nat ∧ no_write t ∧
    (never_acks dev cmd_id → r = Ret false) ∧
    match r with
    | Ret true =>
      ∃ t0 data,
        t = t0 ++ [I2CRead SW_ADDR 0x00 32 (Some data); XferValue 1; XferInitIn] ∧
        is_ack cmd_id data = true ∧ no_ack cmd_id t0
    | Ret false => no_ack cmd_id t
    | Raise e => no_ack cmd_id t ∧ (e = OSError ∨ e = IndexError)
    end.
Proof.
  unfold poll, mbind, HW_bind, sleep_ms. cbn beta iota.
  destruct (xfer_value_spec dev (log (SleepMs 1) w))
    as (w2 & E2 & T2 & P2 & R2 & W2).
  rewrite E2. set (v := line_level dev (log (SleepMs 1) w)) in *.
  cbn [log trace] in T2. rewrite <- app_assoc in T2. cbn [app] in T2.
  destruct (Z.eqb_spec v 0) as [Hv|Hv].
  2: { exists w2, (Ret false), [XferRead v].
       split; [reflexivity|]. split; [exact T2|].
       split; [reflexivity|]. split; [repeat constructor|].
       split; [reflexivity|]. repeat constructor. }
  rewrite Hv in T2.
  destruct (Z.eq_dec (line_level dev w2) 0) as [Hv2|Hv2].
  2: { destruct (read_frame_raw_idle dev w2 Hv2) as (w3 & E3 & T3 & _).
       rewrite E3. cbn [status_check mret HW_ret].
       exists w3, (Ret false), [XferRead 0; XferRead (line_level dev w2)].
       split; [reflexivity|].
       split; [rewrite T3, T2, <- app_assoc; reflexivity|].
       split; [reflexivity|]. split; [repeat constructor|].
       split; [reflexivity|]. repeat constructor. }
  destruct (read_frame_raw_asserted dev w2 Hv2) as (w3 & E3 & T3 & _).
  rewrite E3. rewrite T2, <- app_assoc in T3. cbn [app] in T3.
  destruct (i2c_read dev (n_reads w2)) as [data|] eqn:Erx.
  2: { eexists w3, (Raise OSError), _.
       split; [reflexivity|]. split; [exact T3|].
       split; [reflexivity|]. split; [repeat constructor|].
       split; [|split; [repeat constructor | left; reflexivity]].
       intros Hnever. destruct (Hnever (n_reads w2)) as (d & Hd & _).
       congruence. }
  destruct (status_check_spec cmd_id data w3) as [Es|(Es & Hack & Hshort)];
    rewrite Es.
  - eexists w3, (Ret (is_ack cmd_id data)), _.
    split; [reflexivity|]. split; [exact T3|].
    split; [reflexivity|]. split; [repeat constructor|]. split.
    + intros Hnever. destruct (Hnever (n_reads w2)) as (d & Hd & _ & Hno).
      rewrite Erx in Hd. injection Hd as <-. rewrite Hno. reflexivity.
    + destruct (is_ack cmd_id data) eqn:Hack.
      * exists [XferRead 0; XferRead 0; XferInitOut 0], data.
        split; [reflexivity|]. split; [exact Hack|]. repeat constructor.
      * repeat constructor. cbn. exact Hack.
  - eexists w3, (Raise IndexError), _.
    split; [reflexivity|]. split; [exact T3|].
    split; [reflexivity|]. split; [repeat constructor|]. split.
    + intros Hnever. destruct (Hnever (n_reads w2)) as (d & Hd & Hlen & _).
      rewrite Erx in Hd. injection Hd as <-. lia.
    + split; [|right; reflexivity]. repeat constructor. cbn. exact Hack.
Qed.

Lemma no_ack_app (cmd_id : Z) (t1 t2 : list HwOp) :
  no_ack cmd_id t1 → no_ack cmd_id t2 → no_ack cmd_id (t1 ++ t2).
Proof. unfold no_ack. intros H1 H2. apply Forall_app. split; assumption. Qed.

Lemma no_write_app (t1 t2 : list HwOp) :
  no_write t1 → no_write t2 → no_write (t1 ++ t2).
Proof. unfold no_write. intros H1 H2. apply Forall_app. split; assumption. Qed.

(** The whole wait, by induction on the number of tries left. *)
Lemma get_status_expect_spec (dev : Device) (cmd_id : Z) (tries : nat) :
  ∀ w, ∃ w' r t,
    get_status_expect dev cmd_id tries w = (w', r) ∧
    trace w' = trace w ++ t ∧
    no_write t ∧
    (never_acks dev cmd_id → r = Ret false) ∧
    match r with
    | Ret true =>
      (1 ≤ polls t ≤ tries)%nat ∧
      ∃ t0 data,
        t = t0 ++ [I2CRead SW_ADDR 0x00 32 (Some data); XferValue 1; XferInitIn] ∧
        is_ack cmd_id data = true ∧ no_ack cmd_id t0
    | Ret false => polls t = tries ∧ no_ack cmd_id t
    | Raise e =>
      (1 ≤ polls t ≤ tries)%nat ∧ no_ack cmd_id t ∧
      (e = OSError ∨ e = IndexError)
    end.
Proof.
  induction tries as [|n IH]; intros w.
  - exists w, (Ret false), []. cbn [get_status_expect].
    split; [reflexivity|]. split; [rewrite app_nil_r; reflexivity|].
    split; [constructor|]. split; [reflexivity|].
    split; [reflexivity | constructor].
  - cbn [get_status_expect]. unfold mbind, HW_bind.
    destruct (poll_spec dev cmd_id w) as (w1 & r1 & t1 & E1 & T1 & P1 & W1 & N1 & H1).
    rewrite E1. destruct r1 as [[|]|e].
    + destruct H1 as (t0 & data & -> & Hack & Hno).
      exists w1, (Ret true), (SleepMs 1 :: t0 ++
        [I2CRead SW_ADDR 0x00 32 (Some data); XferValue 1; XferInitIn]).
      split; [reflexivity|]. split; [exact T1|].
      split; [constructor; [reflexivity | exact W1]|].
      split; [exact N1|]. split.
      * change (SleepMs 1 :: ?t) with ([SleepMs 1] ++ t).
        rewrite polls_app, P1. cbn. lia.
      * exists (SleepMs 1 :: t0), data. split; [reflexivity|].
        split; [exact Hack|]. constructor; [reflexivity | exact Hno].
    + destruct (IH w1) as (w2 & r2 & t2 & E2 & T2 & W2 & N2 & H2).
      exists w2, r2, (SleepMs 1 :: t1 ++ t2).
      split; [exact E2|].
      split; [rewrite T2, T1, <- app_assoc; reflexivity|].
      split; [constructor; [reflexivity | apply no_write_app; assumption]|].
      split; [exact N2|].
      assert (Hp : polls (SleepMs 1 :: t1 ++ t2) = S (polls t2)).
      { change (SleepMs 1 :: t1 ++ t2) with ([SleepMs 1] ++ t1 ++ t2).
        rewrite !polls_app, P1. reflexivity. }
      rewrite Hp.
      assert (Hn : ∀ t', no_ack cmd_id t' → no_ack cmd_id (SleepMs 1 :: t1 ++ t'))
        by (intros t' Ht'; constructor;
            [reflexivity | apply no_ack_app; assumption]).
      destruct r2 as [[|]|e].
      * destruct H2 as (Hb & t0 & data & -> & Hack & Hno).
        split; [rewrite polls_app in *; cbn in *; lia|].
        exists (SleepMs 1 :: t1 ++ t0), data.
        split; [cbn [app]; rewrite <- app_assoc; reflexivity|].
        split; [exact Hack | apply Hn; exact Hno].
      * destruct H2 as (Hb & Hno). split; [lia | apply Hn; exact Hno].
      * destruct H2 as (Hb & Hno & He).
        split; [lia|]. split; [apply Hn; exact Hno | exact He].
    + destruct H1 as (Hno & He).
      exists w1, (Raise e), (SleepMs 1 :: t1).
      split; [reflexivity|]. split; [exact T1|].
      split; [constructor; [reflexivity | exact W1]|].
      split; [exact N1|]. split; [|split].
      * change (SleepMs 1 :: t1) with ([SleepMs 1] ++ t1).
        rewrite polls_app, P1. cbn. lia.
      * constructor; [reflexivity | exact Hno].
      * exact He.
Qed.

Lemma is_ack_length (cmd_id : Z) (data : list byte) :
  is_ack cmd_id data = true → (5 ≤ length data)%nat.
Proof.
  unfold is_ack. destruct (data !! 3%nat); [|discriminate].
  destruct (data !! 4%nat) eqn:E; [|discriminate].
  intros _. apply lookup_lt_Some in E. lia.
Qed.

(** *** One attempt, with the samplings counted *)

Lemma xfer_value_input (dev : Device) (w : World) :
  mode (pin_xfer w) = IN_PULL_UP →
  xfer_value dev w =
    (mkWorld (pin_xfer w) (S (n_levels w)) (n_reads w) (n_writes w)
       (trace w ++ [XferRead (xfer_level dev (n_levels w))]),
     Ret (xfer_level dev (n_levels w))).
Proof. intros Hm. unfold xfer_value. rewrite Hm. reflexivity. Qed.

Lemma read_frame_raw_levels (dev : Device) (w : World) :
  mode (pin_xfer w) = IN_PULL_UP →
  n_levels (read_frame_raw dev w).1 = S (n_levels w).
Proof.
  intros Hm. unfold read_frame_raw, mbind, HW_bind.
  rewrite xfer_value_input by exact Hm.
  destruct (negb (xfer_level dev (n_levels w) =? 0)); [reflexivity|].
  unfold try_finally, xfer_init_out, i2c_readfrom_mem, xfer_set,
    xfer_init_in, mret, HW_ret, mbind, HW_bind.
  cbn -[SW_ADDR]. destruct (i2c_read dev (n_reads w)); reflexivity.
Qed.

(** The first sampling finds the line high: nothing is read. *)
Lemma poll_high (dev : Device) (cmd_id : Z) (w : World) :
  mode (pin_xfer w) = IN_PULL_UP → xfer_level dev (n_levels w) ≠ 0 →
  ∃ w' t,
    poll dev cmd_id w = (w', Ret false) ∧
    trace w' = trace w ++ SleepMs 1 :: t ∧ polls t = 0%nat ∧
    pin_xfer w' = pin_xfer w ∧
    n_levels w' = S (n_levels w) ∧ n_reads w' = n_reads w.
Proof.
  intros Hm Hv. unfold poll, mbind, HW_bind, sleep_ms. cbn beta iota.
  rewrite xfer_value_input by exact Hm. cbn [log n_levels].
  destruct (Z.eqb_spec (xfer_level dev (n_levels w)) 0) as [E|_];
    [contradiction|].
  unfold mret, HW_ret.
  eexists _, [XferRead (xfer_level dev (n_levels w))].
  split; [reflexivity|]. cbn [trace log pin_xfer n_levels n_reads].
  split; [rewrite <- app_assoc; reflexivity|]. repeat split.
Qed.

(** The line is low at the first sampling and high at the second: the
    transport returns no frame. *)
Lemma poll_gone (dev : Device) (cmd_id : Z) (w : World) :
  mode (pin_xfer w) = IN_PULL_UP →
  xfer_level dev (n_levels w) = 0 → xfer_level dev (S (n_levels w)) ≠ 0 →
  ∃ w' t,
    poll dev cmd_id w = (w', Ret false) ∧
    trace w' = trace w ++ SleepMs 1 :: t ∧ polls t = 0%nat ∧
    pin_xfer w' = pin_xfer w ∧
    n_levels w' = S (S (n_levels w)) ∧ n_reads w' = n_reads w.
Proof.
  intros Hm Hv Hv2. unfold poll, mbind, HW_bind, sleep_ms. cbn beta iota.
  rewrite xfer_value_input by exact Hm. cbn [log n_levels].
  rewrite Hv. cbn [Z.eqb].
  match goal with
  | |- context [read_frame_raw dev ?w2] =>
    assert (Hm2 : mode (pin_xfer w2) = IN_PULL_UP) by exact Hm;
    assert (Hl2 : line_level dev w2 ≠ 0)
      by (unfold line_level; rewrite Hm2; exact Hv2);
    pose proof (read_frame_raw_levels dev w2 Hm2) as HL;
    destruct (read_frame_raw_idle dev w2 Hl2) as (w3 & E3 & T3 & P3 & R3 & _)
  end.
  rewrite E3 in *. cbn [status_check fst] in *. unfold mret, HW_ret.
  eexists w3, _. split; [reflexivity|].
  cbn [trace pin_xfer n_levels n_reads log] in T3, P3, R3, HL.
  split; [rewrite T3, <- !app_assoc; reflexivity|].
  split; [reflexivity|]. repeat split; assumption.
Qed.

(** The line is low at both samplings: a frame is read and checked, and
    the line released. *)
Lemma poll_read (dev : Device) (cmd_id : Z) (w : World) (data : list byte) :
  mode (pin_xfer w) = IN_PULL_UP →
  xfer_level dev (n_levels w) = 0 → xfer_level dev (S (n_levels w)) = 0 →
  i2c_read dev (n_reads w) = Some data →
  ∃ w' r,
    poll dev cmd_id w = (w', r) ∧
    trace w' = trace w ++ poll_ops (Some data) ∧
    pin_xfer w' = released ∧
    n_levels w' = S (S (n_levels w)) ∧ n_reads w' = S (n_reads w) ∧
    (r = Ret (is_ack cmd_id data) ∨
     (r = Raise IndexError ∧ (length data < 5)%nat)).
Proof.
  intros Hm Hv Hv2 Hrx. unfold poll, mbind, HW_bind, sleep_ms. cbn beta iota.
  rewrite xfer_value_input by exact Hm. cbn [log n_levels].
  rewrite Hv. cbn [Z.eqb].
  match goal with
  | |- context [read_frame_raw dev ?w2] =>
    assert (Hm2 : mode (pin_xfer w2) = IN_PULL_UP) by exact Hm;
    assert (Hl2 : line_level dev w2 = 0)
      by (unfold line_level; rewrite Hm2; exact Hv2);
    pose proof (read_frame_raw_levels dev w2 Hm2) as HL;
    destruct (read_frame_raw_asserted dev w2 Hl2) as (w3 & E3 & T3 & P3 & R3 & _)
  end.
  rewrite E3 in HL |- *. cbn [fst] in HL.
  cbn [trace pin_xfer n_levels n_reads log] in T3, P3, R3, HL |- *.
  rewrite Hrx in T3 |- *.
  assert (T : trace w3 = trace w ++ poll_ops (Some data))
    by (rewrite T3, <- !app_assoc; reflexivity).
  destruct (status_check_spec cmd_id data w3) as [Es|(Es & _ & Hlen)];
    rewrite Es; eexists w3, _; (split; [reflexivity|]);
    repeat split; try assumption; auto.
Qed.

(** A wait on a device that acknowledges at the attempt [k] returns
    [True] at that attempt. *)
Lemma wait_acks_within (dev : Device) (cmd_id : Z) (nl nr tries k : nat) :
  acks_within dev cmd_id nl nr tries k →
  ∀ w, mode (pin_xfer w) = IN_PULL_UP → n_levels w = nl → n_reads w = nr →
  ∃ w' t,
    get_status_expect dev cmd_id tries w = (w', Ret true) ∧
    trace w' = trace w ++ t ∧
    polls t = k ∧ (1 ≤ k ≤ tries)%nat ∧
    pin_xfer w' = released.
Proof.
  induction 1 as [ nl nr n data Hv Hv2 Hrx Hack
                 | nl nr n k Hv _ IH
                 | nl nr n k Hv Hv2 _ IH
                 | nl nr n k data Hv Hv2 Hrx Hlen Hack _ IH ];
    intros w Hm Hnl Hnr; subst nl nr;
    cbn [get_status_expect]; unfold mbind, HW_bind.
  - destruct (poll_read dev cmd_id w data Hm Hv Hv2 Hrx)
      as (w1 & r & E & T & P & _ & _ & Hr).
    destruct Hr as [-> | [_ Hshort]];
      [|apply is_ack_length in Hack; lia].
    rewrite E, Hack. unfold mret, HW_ret.
    exists w1, (poll_ops (Some data)).
    split; [reflexivity|]. split; [exact T|].
    split; [reflexivity|]. split; [lia | exact P].
  - destruct (poll_high dev cmd_id w Hm Hv) as (w1 & t1 & E & T & P0 & P & L & R).
    rewrite E.
    destruct (IH w1 ltac:(rewrite P; exact Hm) L R) as (w2 & t2 & E2 & T2 & Hp & Hk & P2).
    exists w2, ((SleepMs 1 :: t1) ++ t2).
    split; [exact E2|]. split; [rewrite T2, T, <- app_assoc; reflexivity|].
    split; [|split; [lia | exact P2]].
    change (SleepMs 1 :: t1) with ([SleepMs 1] ++ t1).
    rewrite !polls_app, P0, Hp. reflexivity.
  - destruct (poll_gone dev cmd_id w Hm Hv Hv2)
      as (w1 & t1 & E & T & P0 & P & L & R).
    rewrite E.
    destruct (IH w1 ltac:(rewrite P; exact Hm) L R) as (w2 & t2 & E2 & T2 & Hp & Hk & P2).
    exists w2, ((SleepMs 1 :: t1) ++ t2).
    split; [exact E2|]. split; [rewrite T2, T, <- app_assoc; reflexivity|].
    split; [|split; [lia | exact P2]].
    change (SleepMs 1 :: t1) with ([SleepMs 1] ++ t1).
    rewrite !polls_app, P0, Hp. reflexivity.
  - destruct (poll_read dev cmd_id w data Hm Hv Hv2 Hrx)
      as (w1 & r & E & T & P & L & R & Hr).
    destruct Hr as [-> | [_ Hshort]]; [|lia].
    rewrite E, Hack.
    destruct (IH w1 ltac:(rewrite P; reflexivity) L R)
      as (w2 & t2 & E2 & T2 & Hp & Hk & P2).
    exists w2, (poll_ops (Some data) ++ t2).
    split; [exact E2|]. split; [rewrite T2, T, <- app_assoc; reflexivity|].
    split; [|split; [lia | exact P2]].
    rewrite polls_app, Hp. reflexivity.
Qed.

(** C5: the wait ends after at most [tries] polling attempts.  When the
    device never acknowledges the command, it returns [False] after exactly
    [tries] attempts.  When the device acknowledges at the attempt [k] of
    the [tries] (the first attempt whose frame is an acknowledgement, the
    earlier attempts finding the line high or reading something else), it
    returns [True] after exactly [k] attempts.  Whenever it returns [False]
    it has made exactly [tries] attempts and none of the frames read was an
    acknowledgement; whenever it returns [True] it does so right after
    reading the first acknowledging frame, within the first [tries]
    attempts, every frame read before having been something else. *)
Theorem get_status_expect_bounded (dev : Device) (cmd_id : Z) (tries : nat) (w : World) :
  ∃ w' r t,
    get_status_expect dev cmd_id tries w = (w', r) ∧
    trace w' = trace w ++ t ∧
    (never_acks dev cmd_id → r = Ret false ∧ polls t = tries) ∧
    (∀ k, mode (pin_xfer w) = IN_PULL_UP →
          acks_within dev cmd_id (n_levels w) (n_reads w) tries k →
          r = Ret true ∧ polls t = k) ∧
    (r = Ret false → polls t = tries ∧ no_ack cmd_id t) ∧
    (r = Ret true →
       (1 ≤ polls t ≤ tries)%nat ∧
       ∃ t0 data,
         t = t0 ++ [I2CRead SW_ADDR 0x00 32 (Some data); XferValue 1; XferInitIn] ∧
         is_ack cmd_id data = true ∧ no_ack cmd_id t0).
Proof.
  destruct (get_status_expect_spec dev cmd_id tries w)
    as (w' & r & t & E & T & _ & N & H).
  exists w', r, t. split; [exact E|]. split; [exact T|].
  split; [|split; [|split]].
  - intros Hnever. specialize (N Hnever). subst r.
    split; [reflexivity | apply H].
  - intros k Hm Hacks.
    destruct (wait_acks_within dev cmd_id _ _ tries k Hacks w Hm eq_refl eq_refl)
      as (w2 & t2 & E2 & T2 & Hp & _).
    rewrite E in E2. injection E2 as <- ->.
    rewrite T in T2. apply app_inv_head in T2. subst t2.
    split; [reflexivity | exact Hp].
  - intros ->. exact H.
  - intros ->. exact H.
Qed.

Lemma dev_mute_never_acks : never_acks dev_mute SW_SET_RUNTIME.
Proof. intros n. exists idle_frame. repeat split. Qed.

Lemma dev_slow_acks_third :
  acks_within dev_slow SW_SET_RUNTIME (n_levels boot) (n_reads boot) DEFAULT_TRIES 3.
Proof.
  apply aw_high; [discriminate|].
  apply aw_other with (data := idle_frame); try reflexivity; [cbn; lia|].
  apply aw_ack with (data := ack_frame); reflexivity.
Qed.

Lemma get_status_expect_bounded_witness :
  (never_acks dev_mute SW_SET_RUNTIME ∧
   ∃ w' t,
     get_status_expect dev_mute SW_SET_RUNTIME DEFAULT_TRIES boot = (w', Ret false) ∧
     trace w' = t ∧ polls t = 10%nat) ∧
  (mode (pin_xfer boot) = IN_PULL_UP ∧
   acks_within dev_slow SW_SET_RUNTIME (n_levels boot) (n_reads boot) DEFAULT_TRIES 3 ∧
   ∃ w' t,
     get_status_expect dev_slow SW_SET_RUNTIME DEFAULT_TRIES boot = (w', Ret true) ∧
     trace w' = t ∧ polls t = 3%nat).
Proof.
  split.
  - split; [exact dev_mute_never_acks|].
    destruct (get_status_expect_bounded dev_mute SW_SET_RUNTIME DEFAULT_TRIES boot)
      as (w' & r & t & E & T & H & _).
    destruct (H dev_mute_never_acks) as [-> Hp].
    exists w', t. split; [exact E|]. split; [exact T | exact Hp].
  - split; [reflexivity|]. split; [exact dev_slow_acks_third|].
    destruct (get_status_expect_bounded dev_slow SW_SET_RUNTIME DEFAULT_TRIES boot)
      as (w' & r & t & E & T & _ & H & _).
    destruct (H 3%nat eq_refl dev_slow_acks_third) as [-> Hp].
    exists w', t. split; [exact E|]. split; [exact T | exact Hp].
Defined.

(** The wait on a device that acknowledges at its third block read ends
    with [True] at the third attempt. *)
Example get_status_expect_third_poll :
  (get_status_expect dev_late SW_SET_RUNTIME DEFAULT_TRIES boot).2 = Ret true ∧
  polls (trace (get_status_expect dev_late SW_SET_RUNTIME DEFAULT_TRIES boot).1) = 3%nat.
Proof. split; vm_compute; reflexivity. Qed.

(** A bus error during the wait is not a timeout: it is passed on at the
    attempt where it happens. *)
Example get_status_expect_bus_error :
  (get_status_expect dev_broken SW_SET_RUNTIME DEFAULT_TRIES boot).2 = Raise OSError ∧
  polls (trace (get_status_expect dev_broken SW_SET_RUNTIME DEFAULT_TRIES boot).1) = 1%nat ∧
  pin_xfer (get_status_expect dev_broken SW_SET_RUNTIME DEFAULT_TRIES boot).1 = released.
Proof. repeat split; vm_compute; reflexivity. Qed.

(** ** Runtime configuration (C6) *)

(** [configure_runtime] is its four steps in order. *)
Lemma configure_runtime_unfold (dev : Device) (w : World) :
  configure_runtime dev w = run_steps dev RUNTIME_STEPS w.
Proof.
  unfold configure_runtime, RUNTIME_STEPS, run_steps, runtime_step.
  unfold mbind, HW_bind. cbn [fst snd].
  repeat match goal with
         | |- context [match ?x with (_, _) => _ end] => destruct x as [? [?|?]]
         end;
    repeat match goal with u : unit |- _ => destruct u end; reflexivity.
Qed.

Lemma writes_app (t1 t2 : list HwOp) : writes (t1 ++ t2) = writes t1 ++ writes t2.
Proof. unfold writes. apply omap_app. Qed.

Lemma writes_no_write (t : list HwOp) : no_write t → writes t = [].
Proof.
  induction 1 as [|op t Hop _ IH]; [reflexivity|].
  unfold writes in *. cbn [omap]. destruct op; try discriminate; exact IH.
Qed.

Lemma write_block_spec (dev : Device) (reg : Z) (data : list Z) (w : World) :
  ∃ w' r, write_block dev reg data w = (w', r) ∧
          trace w' = trace w ++ [I2CWrite SW_ADDR reg data] ∧
          (r = Ret tt ∨ r = Raise OSError).
Proof.
  unfold write_block, i2c_writeto_mem.
  destruct (i2c_write_ok dev (n_writes w)); eexists _, _;
    (split; [reflexivity|]); (split; [reflexivity|]); auto.
Qed.

(** A run over any list of steps leaves a trace of the shape
    [config_trace]. *)
Lemma run_steps_trace (dev : Device) (steps : list (string * list Z)) :
  ∀ w, ∃ w' r t,
    run_steps dev steps w = (w', r) ∧
    trace w' = trace w ++ t ∧
    config_trace steps t r.
Proof.
  induction steps as [|s rest IH]; intros w.
  - exists w, (Ret tt), []. split; [reflexivity|].
    split; [rewrite app_nil_r; reflexivity | constructor].
  - cbn [run_steps]. unfold runtime_step, mbind, HW_bind.
    destruct (write_block_spec dev 0x10 s.2 w) as (w1 & r1 & E1 & T1 & [-> | ->]);
      rewrite E1.
    2: { exists w1, (Raise OSError), [I2CWrite SW_ADDR 0x10 s.2].
         split; [reflexivity|]. split; [exact T1|].
         apply ct_error; [constructor | left; reflexivity]. }
    destruct (get_status_expect_spec dev SW_SET_RUNTIME DEFAULT_TRIES w1)
      as (w2 & r2 & t2 & E2 & T2 & W2 & _ & H2).
    rewrite E2. destruct r2 as [[|]|e]; cbn [negb].
    + destruct H2 as (Hb & t0 & data & -> & Hack & Hno).
      unfold mret, HW_ret.
      destruct (IH w2) as (w3 & r3 & t3 & E3 & T3 & C3).
      exists w3, r3,
        (I2CWrite SW_ADDR 0x10 s.2 :: (t0 ++ ack_tail data) ++ t3).
      split; [exact E3|]. split.
      * rewrite T3, T2, T1, <- !app_assoc. reflexivity.
      * apply Forall_app in W2 as [W0 _].
        apply ct_acked; try assumption.
        rewrite polls_app in Hb. cbn in Hb. lia.
    + destruct H2 as (Hp & Hno). unfold hw_raise.
      exists w2, (Raise (RuntimeError s.1)), (I2CWrite SW_ADDR 0x10 s.2 :: t2).
      split; [reflexivity|].
      split; [rewrite T2, T1, <- app_assoc; reflexivity|].
      apply ct_timeout; assumption.
    + destruct H2 as (_ & _ & He).
      exists w2, (Raise e), (I2CWrite SW_ADDR 0x10 s.2 :: t2).
      split; [reflexivity|].
      split; [rewrite T2, T1, <- app_assoc; reflexivity|].
      apply ct_error; assumption.
Qed.

(** The block writes of a run are the blocks of the first [k] steps, in
    order; all of them when the run succeeds, and up to the failing step
    when a wait gives up. *)
Lemma config_trace_writes (steps : list (string * list Z)) (t : list HwOp)
    (r : outcome unit) :
  config_trace steps t r →
  ∃ k, (k ≤ length steps)%nat ∧
       writes t = take k (map (λ s, (0x10, s.2)) steps) ∧
       (r = Ret tt → k = length steps) ∧
       (∀ e, r = Raise e → (1 ≤ k)%nat) ∧
       (∀ m, r = Raise (RuntimeError m) → steps.*1 !! (k - 1)%nat = Some m).
Proof.
  induction 1 as [ | s rest t data t' r Hw Hno Hp Hack _ (k & Hk & Hwr & Hok & Hpos & Herr)
                   | s rest t Hw Hno Hp | s rest t e Hw He ].
  - exists 0%nat. repeat split; try reflexivity; try discriminate; lia.
  - exists (S k). split; [cbn; lia|]. split; [|split; [|split]].
    + change (I2CWrite SW_ADDR 0x10 s.2 :: ?l) with ([I2CWrite SW_ADDR 0x10 s.2] ++ l).
      rewrite !writes_app, (writes_no_write t Hw), Hwr. reflexivity.
    + intros Hr. cbn. rewrite (Hok Hr). reflexivity.
    + intros. lia.
    + intros m Hr. specialize (Hpos _ Hr). specialize (Herr m Hr).
      destruct k as [|k]; [lia|]. cbn in *.
      rewrite Nat.sub_0_r in Herr. exact Herr.
  - exists 1%nat. split; [cbn; lia|]. split; [|split; [|split]].
    + change (I2CWrite SW_ADDR 0x10 s.2 :: t) with ([I2CWrite SW_ADDR 0x10 s.2] ++ t).
      rewrite writes_app, (writes_no_write t Hw). reflexivity.
    + discriminate.
    + intros. lia.
    + intros m [= <-]. reflexivity.
  - exists 1%nat. split; [cbn; lia|]. split; [|split; [|split]].
    + change (I2CWrite SW_ADDR 0x10 s.2 :: t) with ([I2CWrite SW_ADDR 0x10 s.2] ++ t).
      rewrite writes_app, (writes_no_write t Hw). reflexivity.
    + discriminate.
    + intros. lia.
    + intros m [= ->]. destruct He; discriminate.
Qed.

(** A device that acknowledges every step: the four blocks are written, in
    order, and the run succeeds. *)
Example configure_runtime_acknowledged :
  (configure_runtime dev_ack boot).2 = Ret tt ∧
  writes (trace (configure_runtime dev_ack boot).1) =
    map (λ s, (0x10, s.2)) RUNTIME_STEPS.
Proof. split; vm_compute; reflexivity. Qed.

(** A device that stops acknowledging after the second step: the third
    block is written, its wait makes ten attempts, the run fails with the
    error of the third step and the fourth block is never written. *)
Example configure_runtime_third_step_times_out :
  (configure_runtime dev_two_acks boot).2 =
    Raise (RuntimeError "SET_RUNTIME (data outputs) no status") ∧
  writes (trace (configure_runtime dev_two_acks boot).1) =
    take 3 (map (λ s, (0x10, s.2)) RUNTIME_STEPS) ∧
  polls (trace (configure_runtime dev_two_acks boot).1) = 12%nat.
Proof. repeat split; vm_compute; reflexivity. Qed.

(** * Further properties of the decoder *)

(** ** The 16-bit helper *)

Lemma byte_at_range (a : list byte) (i : nat) : 0 ≤ byte_at a i ≤ 255.
Proof.
  unfold byte_at. destruct (a !! i); [apply byte_to_Z_range | lia].
Qed.

Lemma small_testbit_false (a n : Z) : 0 ≤ a < 256 → 8 ≤ n → Z.testbit a n = false.
Proof.
  intros Ha Hn. destruct (Z.eq_dec a 0) as [->|Hne]; [apply Z.bits_0|].
  apply Z.bits_above_log2; [lia|].
  assert (Z.log2 a < 8) by (apply Z.log2_lt_pow2; lia). lia.
Qed.

Lemma u16_eq (lsb msb : Z) :
  0 ≤ lsb < 256 → 0 ≤ msb → u16 lsb msb = lsb + 256 * msb.
Proof.
  intros Hl Hm. unfold u16.
  assert (Hdis : Z.land (Z.shiftl msb 8) lsb = 0).
  { apply Z.bits_inj'. intros n Hn.
    rewrite Z.land_spec, Z.bits_0.
    destruct (Z_lt_le_dec n 8) as [Hlt|Hge].
    - rewrite Z.shiftl_spec_low by lia. reflexivity.
    - rewrite (small_testbit_false lsb n) by lia. apply andb_false_r. }
  rewrite <- Z.lxor_lor by exact Hdis.
  rewrite <- Z.add_nocarry_lxor by exact Hdis.
  rewrite Z.shiftl_mul_pow2 by lia. lia.
Qed.

(** X1: [u16] puts two bytes together, low byte first: the value is
    [lsb + 256 * msb], it fits 16 bits, and both bytes can be read back
    from it, so distinct byte pairs give distinct values. *)
Theorem u16_bytes (lo hi : byte) :
  let v := u16 (byte_to_Z lo) (byte_to_Z hi) in
  v = byte_to_Z lo + 256 * byte_to_Z hi ∧
  0 ≤ v ≤ 65535 ∧
  v mod 256 = byte_to_Z lo ∧
  v / 256 = byte_to_Z hi.
Proof.
  pose proof (byte_to_Z_range lo) as Hl. pose proof (byte_to_Z_range hi) as Hh.
  cbv zeta. rewrite u16_eq by lia.
  split; [reflexivity|]. split; [lia|]. split.
  - replace (byte_to_Z lo + 256 * byte_to_Z hi)
      with (byte_to_Z lo + byte_to_Z hi * 256) by lia.
    rewrite Z.mod_add by lia. apply Z.mod_small. lia.
  - replace (byte_to_Z lo + 256 * byte_to_Z hi)
      with (byte_to_Z lo + byte_to_Z hi * 256) by lia.
    rewrite Z.div_add by lia. rewrite Z.div_small by lia. lia.
Qed.

(** ** Normalisation keeps the order *)

Lemma round_half_even_monotone (n n' d : Z) :
  0 < d → n ≤ n' → round_half_even n d ≤ round_half_even n' d.
Proof.
  intros Hd Hn.
  pose proof (round_half_even_near n d Hd) as H1.
  pose proof (round_half_even_near n' d Hd) as H2.
  destruct (Z.eq_dec n n') as [->|Hne]; [lia|]. nia.
Qed.

(** X2: on the 16-bit raw values [normalize_0_1] is monotone: for
    [0 <= v <= v' <= 65535] the coordinate of [v'] is not smaller than
    the coordinate of [v]. *)
Theorem normalize_0_1_monotone (v v' : Z) :
  0 ≤ v → v ≤ v' → v' ≤ 65535 →
  (normalize_0_1 v <= normalize_0_1 v')%Q.
Proof.
  intros _ Hv _. rewrite !normalize_0_1_eq. unfold Qle. cbn [Qnum Qden].
  pose proof (round_half_even_monotone (v * 10000) (v' * 10000) 65536
                ltac:(lia) ltac:(lia)).
  lia.
Qed.

Lemma normalize_0_1_monotone_witness :
  0 ≤ 0x7FFF ∧ 0x7FFF ≤ 0x8080 ∧ 0x8080 ≤ 65535 ∧
  (normalize_0_1 0x7FFF <= normalize_0_1 0x8080)%Q.
Proof.
  split; [lia|]. split; [lia|]. split; [lia|].
  apply (normalize_0_1_monotone 0x7FFF 0x8080); lia.
Defined.

Lemma normalize_unit_decimal (v : Z) :
  0 ≤ v ≤ 65535 → unit_decimal (normalize_0_1 v).
Proof.
  intros Hv. rewrite normalize_0_1_eq. unfold unit_decimal. cbn [Qnum Qden].
  split; [reflexivity|].
  pose proof (round_half_even_near (v * 10000) 65536 ltac:(lia)). lia.
Qed.

Lemma u16_byte_at_range (p : list byte) (i j : nat) :
  0 ≤ u16 (byte_at p i) (byte_at p j) ≤ 65535.
Proof.
  pose proof (byte_at_range p i). pose proof (byte_at_range p j).
  rewrite u16_eq by lia. lia.
Qed.

(** ** What [process_frame] can do at all *)

Lemma byte_to_Z_neq (b c : byte) : b ≠ c → (byte_to_Z b =? byte_to_Z c) = false.
Proof.
  intros Hne. apply Z.eqb_neq. intros E. apply Hne.
  unfold byte_to_Z in E. apply N2Z.inj in E.
  apply (f_equal Byte.of_N) in E. rewrite !Byte.of_to_N in E.
  congruence.
Qed.

(** Every run of [process_frame] is one of three: nothing at all, the
    sensor-data handler on the payload, or one firmware line. *)
Lemma process_frame_cases (frame : option (list byte)) :
  process_frame frame = ([], Ret tt) ∨
  (∃ f, frame = Some f ∧ sensor_frame f ∧
        process_frame frame = handle_sensor_data (drop 4 f)) ∨
  (∃ f, frame = Some f ∧ fw_frame f ∧
        process_frame frame =
          ([FW (strip FW_STRIP (decode (drop 8 (drop 4 f))))], Ret tt)).
Proof.
  destruct frame as [f|]; [|left; reflexivity].
  destruct (le_lt_dec 4 (length f)) as [Hlen|Hlen];
    [|left; apply process_frame_short; exact Hlen].
  rewrite process_frame_ge4 by exact Hlen.
  destruct (lookup_lt_is_Some_2 f 3 ltac:(lia)) as [b Hb].
  unfold byte_at. rewrite Hb. cbv zeta.
  destruct (Byte.byte_eq_dec b x91) as [->|H91].
  { right; left. exists f. repeat split; assumption. }
  destruct (Byte.byte_eq_dec b x83) as [->|H83].
  { right; right. exists f. repeat split; assumption. }
  left.
  change SW_SENSOR_DATA with (byte_to_Z x91).
  change SW_FW_VERSION with (byte_to_Z x83).
  rewrite !byte_to_Z_neq by assumption.
  destruct (_ =? _); reflexivity.
Qed.

(** ** Position lines *)

(** X3: whatever the frame, every position line that is printed carries
    three coordinates that are decimals with four digits between 0.0000
    and 1.0000. *)
Theorem position_coordinates_in_range (frame : option (list byte)) (x y z : Q) :
  In (XYZ x y z) (process_frame frame).1 →
  unit_decimal x ∧ unit_decimal y ∧ unit_decimal z.
Proof.
  intros Hin.
  destruct (process_frame_cases frame)
    as [E|[(f & _ & _ & E)|(f & _ & _ & E)]]; rewrite E in Hin.
  - destruct Hin.
  - assert (In (XYZ x y z) (lines_of is_xyz (handle_sensor_data (drop 4 f)))) as Hf
      by (apply List.filter_In; split; [exact Hin | reflexivity]).
    destruct (handle_xyz_lines (drop 4 f)) as [E'|(_ & _ & _ & E')];
      rewrite E' in Hf.
    + destruct Hf.
    + destruct Hf as [[= <- <- <-]|[]].
      repeat split; apply normalize_unit_decimal, u16_byte_at_range.
  - destruct Hin as [[=]|[]].
Qed.

Lemma position_coordinates_in_range_witness :
  In (XYZ (5020 # 10000) (5020 # 10000) (5020 # 10000))
     (process_frame (Some example_frame)).1 ∧
  unit_decimal (5020 # 10000).
Proof.
  assert (H : In (XYZ (5020 # 10000) (5020 # 10000) (5020 # 10000))
                 (process_frame (Some example_frame)).1)
    by (left; reflexivity).
  split; [exact H|].
  apply (position_coordinates_in_range (Some example_frame) _ _ _ H).
Defined.

(** ** Gesture lines *)

Lemma gesture_print_table (b : byte) (cm : Z) (p : list byte) :
  p !! 6%nat = Some b →
  sensor_gesture cm p =
    if truthy (Z.land cm SW_DATA_GESTURE) && negb (byte_to_Z b =? 0)
    then ([gesture_line (byte_to_Z b)], Ret tt)
    else ([], Ret tt).
Proof.
  intros Hb. unfold sensor_gesture.
  destruct (truthy (Z.land cm SW_DATA_GESTURE)); [|reflexivity].
  rewrite !index_eq. unfold getitem. rewrite Hb. rewrite !out_bind_pure.
  cbn [andb]. destruct b; vm_compute; reflexivity.
Qed.

(** X4: on a sensor-data frame of 26 bytes or more, the gesture byte
    (payload offset 6) is decoded when ConfigMask.GESTURE is set and the
    byte is not zero, and then exactly one gesture line is printed: the
    table entry for the ids 1 to 7 (garbage, the four flicks with their
    directions, the two circles) and the bare id for any other value; with
    the flag clear or the byte zero no gesture line is printed. *)
Theorem gesture_lines_by_table (frame : list byte) :
  sensor_frame frame → (26 ≤ length frame)%nat →
  let p := drop 4 frame in
  lines_of is_gesture (process_frame (Some frame)) =
    if truthy (Z.land (configmask_of p) SW_DATA_GESTURE)
       && negb (byte_at p 6 =? 0)
    then [gesture_line (byte_at p 6)]
    else [].
Proof.
  intros Hs Hlen p. rewrite process_frame_sensor by exact Hs. fold p.
  assert (Hp : (22 ≤ length p)%nat) by (apply drop_4_length; lia).
  unfold lines_of. rewrite handle_sensor_data_full by exact Hp. cbn [fst].
  rewrite !List.filter_app.
  rewrite filter_xyz_block by other_kind.
  rewrite filter_touch_block by other_kind.
  rewrite filter_airwheel_block by other_kind.
  rewrite app_nil_r. cbn [app].
  destruct (lookup_lt_is_Some_2 p 6 ltac:(lia)) as [b Hb].
  rewrite (gesture_print_table b _ p Hb).
  unfold byte_at. rewrite Hb.
  destruct (_ && _); [|reflexivity].
  cbn [fst List.filter].
  assert (is_gesture (gesture_line (byte_to_Z b)) = true) as ->
    by (unfold gesture_line; repeat case_match; reflexivity).
  reflexivity.
Qed.

Lemma gesture_lines_by_table_witness :
  sensor_frame busy_frame ∧ (26 ≤ length busy_frame)%nat ∧
  lines_of is_gesture (process_frame (Some busy_frame)) =
    [GESTURE_flick "east" "west"].
Proof.
  split; [reflexivity|]. split; [cbn; lia|].
  apply (gesture_lines_by_table busy_frame); [reflexivity | cbn; lia].
Defined.

(** ** Air-wheel lines *)

(** X5: on a sensor-data frame of 26 bytes or more an air-wheel line is
    printed exactly when ConfigMask.AIRWHEEL and SystemInfo.AIRWHEEL_VALID
    are both set; it carries the byte at payload offset 14 unchanged, a
    value between 0 and 255. *)
Theorem airwheel_line_iff_both_flags (frame : list byte) :
  sensor_frame frame → (26 ≤ length frame)%nat →
  let p := drop 4 frame in
  lines_of is_airwheel (process_frame (Some frame)) =
    (if truthy (Z.land (configmask_of p) SW_DATA_AIRWHEEL)
        && truthy (Z.land (sysinfo_of p) SYS_AIRWHEEL_VALID)
     then [AIRWHEEL (byte_at p 14)]
     else []) ∧
  0 ≤ byte_at p 14 ≤ 255.
Proof.
  intros Hs Hlen p. split; [|apply byte_at_range].
  rewrite process_frame_sensor by exact Hs. fold p.
  assert (Hp : (22 ≤ length p)%nat) by (apply drop_4_length; lia).
  unfold lines_of. rewrite handle_sensor_data_full by exact Hp. cbn [fst].
  rewrite !List.filter_app.
  rewrite filter_xyz_block by other_kind.
  rewrite filter_gesture_block by other_kind.
  rewrite filter_touch_block by other_kind.
  cbn [app]. unfold sensor_airwheel.
  destruct (_ && _); [|reflexivity].
  rewrite index_eq, getitem_lt by lia. rewrite out_bind_pure. reflexivity.
Qed.

Lemma airwheel_line_iff_both_flags_witness :
  sensor_frame busy_frame ∧ (26 ≤ length busy_frame)%nat ∧
  lines_of is_airwheel (process_frame (Some busy_frame)) = [AIRWHEEL 7].
Proof.
  split; [reflexivity|]. split; [cbn; lia|].
  apply (airwheel_line_iff_both_flags busy_frame); [reflexivity | cbn; lia].
Defined.

(** ** Order and number of the lines *)

Lemma handle_sensor_data_blocks (p : list byte) :
  (4 ≤ length p)%nat →
  handle_sensor_data p =
    sensor_xyz (configmask_of p) (sysinfo_of p) p ≫= λ _,
    sensor_gesture (configmask_of p) p ≫= λ _,
    sensor_touch (configmask_of p) p ≫= λ _,
    sensor_airwheel (configmask_of p) (sysinfo_of p) p.
Proof.
  intros Hlen. unfold handle_sensor_data.
  rewrite !index_eq, !getitem_lt by lia. rewrite !out_bind_pure. reflexivity.
Qed.

(** X6: the lines of a sensor-data frame come in the fixed order position,
    gesture, touch, air-wheel, at most one of each, so a frame prints at
    most four lines; this holds for every frame, also one on which the
    decoder raises part of the way. *)
Theorem sensor_lines_in_order (frame : list byte) :
  sensor_frame frame →
  ∃ ox og ot oa,
    (process_frame (Some frame)).1 = ox ++ og ++ ot ++ oa ∧
    (length ox ≤ 1 ∧ length og ≤ 1 ∧ length ot ≤ 1 ∧ length oa ≤ 1)%nat ∧
    Forall (λ l, is_xyz l = true) ox ∧
    Forall (λ l, is_gesture l = true) og ∧
    Forall (λ l, is_touch l = true) ot ∧
    Forall (λ l, is_airwheel l = true) oa.
Proof.
  intros Hs. rewrite process_frame_sensor by exact Hs.
  set (p := drop 4 frame).
  destruct (handle_sensor_data_shape p)
    as (ox & og & ot & oa & E & Hx & Hg & Ht & Ha).
  exists ox, og, ot, oa. split; [exact E|].
  assert (Hox : (length ox ≤ 1)%nat ∧ Forall (λ l, is_xyz l = true) ox).
  { destruct Hx as [->| ->]; [split; [cbn; lia | constructor]|].
    destruct (sensor_xyz_cases (configmask_of p) (sysinfo_of p) p)
      as [->|(_ & _ & _ & ->)]; (split; [cbn; lia | repeat constructor]). }
  assert (Hog : (length og ≤ 1)%nat ∧ Forall (λ l, is_gesture l = true) og).
  { destruct Hg as [->| ->]; [split; [cbn; lia | constructor]|].
    destruct (sensor_gesture_cases (configmask_of p) p) as [->|(g & Hgk & ->)];
      (split; [cbn; lia | repeat constructor; try assumption]). }
  assert (Hot : (length ot ≤ 1)%nat ∧ Forall (λ l, is_touch l = true) ot).
  { destruct Ht as [->| ->]; [split; [cbn; lia | constructor]|].
    destruct (sensor_touch_cases (configmask_of p) p)
      as [->|(_ & _ & _ & l & Hl & ->)];
      (split; [cbn; lia | repeat constructor; try assumption]). }
  assert (Hoa : (length oa ≤ 1)%nat ∧ Forall (λ l, is_airwheel l = true) oa).
  { destruct Ha as [->| ->]; [split; [cbn; lia | constructor]|].
    destruct (sensor_airwheel_cases (configmask_of p) (sysinfo_of p) p)
      as [->|(_ & _ & ->)]; (split; [cbn; lia | repeat constructor]). }
  destruct Hox, Hog, Hot, Hoa. repeat split; assumption.
Qed.

Lemma sensor_lines_in_order_witness :
  sensor_frame busy_frame ∧
  (process_frame (Some busy_frame)).1 =
    [ XYZ (2500 # 10000) (5000 # 10000) (10000 # 10000);
      GESTURE_flick "east" "west"; TOUCH "touch" "south"; AIRWHEEL 7 ] ∧
  ∃ ox og ot oa,
    (process_frame (Some busy_frame)).1 = ox ++ og ++ ot ++ oa ∧
    (length ox ≤ 1 ∧ length og ≤ 1 ∧ length ot ≤ 1 ∧ length oa ≤ 1)%nat.
Proof.
  split; [reflexivity|]. split; [vm_compute; reflexivity|].
  destruct (sensor_lines_in_order busy_frame eq_refl)
    as (ox & og & ot & oa & E & H & _).
  exists ox, og, ot, oa. split; assumption.
Defined.

(** ** Frames the decoder leaves alone *)

(** X7: a frame whose identifier byte is neither SENSOR_DATA nor
    FW_VERSION prints nothing and raises nothing, whatever its other bytes
    and its length: a SYSTEM_STATUS frame, an unknown identifier, a frame
    too short to have an identifier; so does no frame at all ([None]). *)
Theorem other_frames_silent (frame : list byte) :
  frame !! 3%nat ≠ Some x91 → frame !! 3%nat ≠ Some x83 →
  process_frame (Some frame) = ([], Ret tt) ∧
  process_frame None = ([], Ret tt).
Proof.
  intros H91 H83. split; [|reflexivity].
  destruct (process_frame_cases (Some frame))
    as [E|[(f & [= <-] & Hs & _)|(f & [= <-] & Hf & _)]].
  - exact E.
  - contradiction.
  - contradiction.
Qed.

Lemma other_frames_silent_witness :
  unknown_frame !! 3%nat ≠ Some x91 ∧ unknown_frame !! 3%nat ≠ Some x83 ∧
  process_frame (Some unknown_frame) = ([], Ret tt).
Proof.
  assert (H1 : unknown_frame !! 3%nat ≠ Some x91) by discriminate.
  assert (H2 : unknown_frame !! 3%nat ≠ Some x83) by discriminate.
  split; [exact H1|]. split; [exact H2|].
  apply (other_frames_silent unknown_frame H1 H2).
Defined.

(** ** When the decoder raises *)

Lemma sensor_xyz_outcome (cm si : Z) (p : list byte) :
  (sensor_xyz cm si p).2 = Ret tt ∨ (sensor_xyz cm si p).2 = Raise IndexError.
Proof.
  destruct (le_lt_dec 22 (length p)) as [H|H].
  - left. rewrite sensor_xyz_full by exact H. reflexivity.
  - unfold sensor_xyz. destruct (_ && _); [|left; reflexivity].
    rewrite !index_eq.
    repeat (rewrite out_bind_pure;
            match goal with
            | |- context [getitem p ?i] =>
              destruct (getitem p i) as [?|?] eqn:?;
              [|right;
                match goal with
                | H : getitem _ _ = Raise _ |- _ =>
                  apply getitem_Raise in H as ->
                end; reflexivity]
            end).
    left. reflexivity.
Qed.

Lemma sensor_gesture_outcome (cm : Z) (p : list byte) :
  (sensor_gesture cm p).2 = Ret tt ∨ (sensor_gesture cm p).2 = Raise IndexError.
Proof.
  destruct (le_lt_dec 7 (length p)) as [H|H].
  - left. apply sensor_gesture_full. exact H.
  - unfold sensor_gesture. destruct (truthy _); [|left; reflexivity].
    rewrite !index_eq, getitem_ge by lia. right. reflexivity.
Qed.

Lemma sensor_touch_outcome_any (cm : Z) (p : list byte) :
  (sensor_touch cm p).2 = Ret tt ∨ (sensor_touch cm p).2 = Raise IndexError.
Proof.
  destruct (le_lt_dec 12 (length p)) as [H|H].
  - left. apply sensor_touch_outcome. exact H.
  - unfold sensor_touch. destruct (truthy _); [|left; reflexivity].
    rewrite !index_eq, (getitem_ge p 11) by lia. right. reflexivity.
Qed.

Lemma sensor_airwheel_outcome (cm si : Z) (p : list byte) :
  (sensor_airwheel cm si p).2 = Ret tt ∨
  ((sensor_airwheel cm si p).2 = Raise IndexError ∧
   (sensor_airwheel cm si p).1 = []).
Proof.
  destruct (le_lt_dec 15 (length p)) as [H|H].
  - left. apply sensor_airwheel_full. exact H.
  - unfold sensor_airwheel. destruct (_ && _); [|left; reflexivity].
    rewrite !index_eq, getitem_ge by lia. right. split; reflexivity.
Qed.

Lemma handle_sensor_data_raise (p : list byte) :
  (handle_sensor_data p).2 = Ret tt ∨
  ((handle_sensor_data p).2 = Raise IndexError ∧
   lines_of is_airwheel (handle_sensor_data p) = []).
Proof.
  destruct (le_lt_dec 4 (length p)) as [Hlen|Hlen].
  2: { right. rewrite handle_sensor_data_short by exact Hlen. split; reflexivity. }
  rewrite handle_sensor_data_blocks by exact Hlen. unfold lines_of.
  pose proof (sensor_xyz_outcome (configmask_of p) (sysinfo_of p) p) as Hx.
  pose proof (filter_xyz_block is_airwheel (configmask_of p) (sysinfo_of p) p
                ltac:(other_kind)) as Fx.
  pose proof (sensor_gesture_outcome (configmask_of p) p) as Hg.
  pose proof (filter_gesture_block is_airwheel (configmask_of p) p
                ltac:(other_kind)) as Fg.
  pose proof (sensor_touch_outcome_any (configmask_of p) p) as Ht.
  pose proof (filter_touch_block is_airwheel (configmask_of p) p
                ltac:(other_kind)) as Ft.
  pose proof (sensor_airwheel_outcome (configmask_of p) (sysinfo_of p) p) as Ha.
  destruct (sensor_xyz _ _ _) as [ox rx].
  destruct (sensor_gesture _ _) as [og rg].
  destruct (sensor_touch _ _) as [ot rt].
  destruct (sensor_airwheel _ _ _) as [oa ra].
  cbn [fst snd] in *. unfold mbind, Out_bind.
  destruct Hx as [-> | ->];
    [|right; split; [reflexivity | cbn [fst]; exact Fx]].
  destruct Hg as [-> | ->];
    [|right; split; [reflexivity|];
      cbn [fst]; rewrite List.filter_app, Fx, Fg; reflexivity].
  destruct Ht as [-> | ->];
    [|right; split; [reflexivity|];
      cbn [fst]; rewrite !List.filter_app, Fx, Fg, Ft; reflexivity].
  destruct Ha as [-> | [-> ->]]; [left; reflexivity|].
  right. split; [reflexivity|].
  cbn [fst]. rewrite !List.filter_app, Fx, Fg, Ft. reflexivity.
Qed.

(** X8: the only exception [process_frame] ever raises is [IndexError],
    and only on a sensor-data frame of 4 to 25 bytes; every other frame,
    and every frame of 26 bytes or more, is decoded to the end.  When it
    raises, no position line and no air-wheel line has been printed (a
    gesture or touch line printed by an earlier block stays printed). *)
Theorem process_frame_only_index_error (frame : option (list byte)) :
  (process_frame frame).2 = Ret tt ∨
  ((process_frame frame).2 = Raise IndexError ∧
   (∃ f, frame = Some f ∧ sensor_frame f ∧ (4 ≤ length f < 26)%nat) ∧
   lines_of is_xyz (process_frame frame) = [] ∧
   lines_of is_airwheel (process_frame frame) = []).
Proof.
  destruct (process_frame_cases frame)
    as [E|[(f & -> & Hs & E)|(f & _ & _ & E)]]; rewrite E;
    [left; reflexivity | | left; reflexivity].
  destruct (le_lt_dec 26 (length f)) as [Hlen|Hlen].
  { left. rewrite handle_sensor_data_full by (apply drop_4_length; lia).
    reflexivity. }
  destruct (handle_sensor_data_raise (drop 4 f)) as [Hr|[Hr Ha]];
    [left; exact Hr|].
  right. split; [exact Hr|]. split; [|split; [|exact Ha]].
  - exists f. split; [reflexivity|]. split; [exact Hs|].
    pose proof (lookup_lt_Some _ _ _ Hs). lia.
  - destruct (handle_xyz_lines (drop 4 f)) as [Ex|(_ & _ & H22 & _)];
      [exact Ex|].
    rewrite length_drop in H22. lia.
Qed.

(** A frame of 12 bytes that announces a gesture and a touch prints the
    gesture and then raises on the missing touch field. *)
Example gesture_printed_before_raise :
  process_frame (Some gesture_then_short_frame) =
    ([GESTURE_kind "garbage"], Raise IndexError).
Proof. vm_compute. reflexivity. Qed.

(** ** Touch lines come from the table *)

Lemma touch_loop_table (action : Z) :
  ∀ (n i : nat), (i + n = 16)%nat →
  touch_loop action (Z.shiftr (Z.shiftl 1 14) (Z.of_nat i)) (seq i n) =
    ([], Ret tt) ∨
  ∃ kind pos,
    In (kind, pos) TOUCH_ACTIONS ∧
    touch_loop action (Z.shiftr (Z.shiftl 1 14) (Z.of_nat i)) (seq i n) =
      ([TOUCH kind pos], Ret tt).
Proof.
  induction n as [|n IH]; intros i Hin; [left; reflexivity|].
  cbn [seq touch_loop]. rewrite touch_test.
  destruct (Nat.leb_spec i 14) as [Hle|Hgt].
  - destruct (Z.testbit action (14 - Z.of_nat i)).
    + right.
      assert (Hlt : (i < length TOUCH_ACTIONS)%nat) by (cbn; lia).
      destruct (Nat.ltb_spec i (length TOUCH_ACTIONS)) as [_|]; [|lia].
      destruct (lookup_lt_is_Some_2 _ _ Hlt) as [[kind pos] Hl].
      rewrite Hl. exists kind, pos. split; [|reflexivity].
      apply list_elem_of_In. eapply list_elem_of_lookup_2. exact Hl.
    + rewrite comp_next. apply IH. lia.
  - rewrite comp_next. apply IH. lia.
Qed.

(** X9: every touch line that is ever printed names one of the fifteen
    entries of [TOUCH_ACTIONS]; the fallback line ["TOUCH: bit=.."] of the
    loop is never printed, since the sixteenth turn compares with a mask
    that is zero. *)
Theorem touch_lines_from_table (frame : option (list byte)) (l : Line) :
  In l (process_frame frame).1 → is_touch l = true →
  ∃ kind pos, l = TOUCH kind pos ∧ In (kind, pos) TOUCH_ACTIONS.
Proof.
  intros Hin Hl.
  destruct (process_frame_cases frame)
    as [E|[(f & _ & _ & E)|(f & _ & _ & E)]]; rewrite E in Hin.
  - destruct Hin.
  - assert (In l (lines_of is_touch (handle_sensor_data (drop 4 f)))) as Hf
      by (apply List.filter_In; split; assumption).
    destruct (handle_touch_lines (drop 4 f)) as [E'|(_ & _ & E')];
      rewrite E' in Hf; [destruct Hf|].
    destruct (touch_loop_table (touch_action (drop 4 f)) 16 0 eq_refl)
      as [Et|(kind & pos & Htab & Et)];
      change (Z.shiftr (Z.shiftl 1 14) (Z.of_nat 0)) with (Z.shiftl 1 14) in Et;
      rewrite Et in Hf.
    + destruct Hf.
    + destruct Hf as [<-|[]]. exists kind, pos. split; [reflexivity | exact Htab].
  - destruct Hin as [<-|[]]. discriminate.
Qed.

Lemma touch_lines_from_table_witness :
  In (TOUCH "doubletap" "center") (process_frame (Some touch_frame)).1 ∧
  ∃ kind pos, TOUCH "doubletap" "center" = TOUCH kind pos ∧
              In (kind, pos) TOUCH_ACTIONS.
Proof.
  assert (H : In (TOUCH "doubletap" "center") (process_frame (Some touch_frame)).1)
    by (left; reflexivity).
  split; [exact H|].
  apply (touch_lines_from_table (Some touch_frame) _ H). reflexivity.
Defined.

(** ** Firmware text: plain ASCII and short frames *)

Lemma lstrip_clean (chars s : list Z) :
  match s with [] => True | c :: _ => in_chars chars c = false end →
  lstrip chars s = s.
Proof. destruct s as [|c t]; [reflexivity|]. cbn [lstrip]. intros ->. reflexivity. Qed.

Lemma strip_clean (chars s : list Z) : clean_ends chars s → strip chars s = s.
Proof.
  intros [Hh Hl]. unfold strip, rstrip.
  rewrite (lstrip_clean chars s Hh), (lstrip_clean chars (rev s) Hl).
  apply rev_involutive.
Qed.

Lemma decode_ascii (bs : list byte) :
  Forall (λ b, byte_to_Z b < 0x80) bs → decode bs = map byte_to_Z bs.
Proof.
  intros H. unfold decode.
  rewrite <- (app_nil_r (map byte_to_Z bs)) at 1.
  rewrite decode_ignore_ascii; [apply app_nil_r|].
  induction H as [|b bs Hb _ IH]; cbn [map]; constructor; [|exact IH].
  pose proof (byte_to_Z_range b). lia.
Qed.

(** X10: a firmware-version frame whose text bytes (from payload offset 8
    on) are all ASCII and neither start nor end with NUL, CR, LF or space
    prints exactly those bytes as its text: nothing is dropped, replaced
    or stripped. *)
Theorem firmware_ascii_text_kept (frame : list byte) :
  fw_frame frame →
  let text := drop 8 (drop 4 frame) in
  Forall (λ b, byte_to_Z b < 0x80) text →
  clean_ends FW_STRIP (map byte_to_Z text) →
  process_frame (Some frame) = ([FW (map byte_to_Z text)], Ret tt).
Proof.
  intros Hf text Hascii Hclean.
  destruct (process_frame_cases (Some frame))
    as [E|[(f & [= <-] & Hs & _)|(f & [= <-] & _ & E)]].
  - exfalso. unfold fw_frame in Hf.
    pose proof (lookup_lt_Some _ _ _ Hf) as Hlen.
    rewrite process_frame_ge4 in E by lia.
    unfold byte_at in E. rewrite Hf in E. discriminate E.
  - unfold sensor_frame, fw_frame in *. congruence.
  - rewrite E. fold text. rewrite (decode_ascii text Hascii).
    rewrite (strip_clean _ _ Hclean). reflexivity.
Qed.

Lemma firmware_ascii_text_kept_witness :
  fw_frame fw_plain_frame ∧
  process_frame (Some fw_plain_frame) =
    ([FW [0x31; 0x2E; 0x33; 0x2E; 0x31; 0x34]], Ret tt).
Proof.
  split; [reflexivity|].
  apply (firmware_ascii_text_kept fw_plain_frame).
  - reflexivity.
  - repeat constructor.
  - split; reflexivity.
Defined.

(** X11: a firmware-version frame that ends before payload offset 8 (12
    bytes or fewer in all) is not an error: the slice [payload[8:]] is
    empty and the line carries the empty text. *)
Theorem firmware_short_frame_empty_text (frame : list byte) :
  fw_frame frame → (length frame ≤ 12)%nat →
  process_frame (Some frame) = ([FW []], Ret tt).
Proof.
  intros Hf Hlen.
  destruct (process_frame_cases (Some frame))
    as [E|[(f & [= <-] & Hs & _)|(f & [= <-] & _ & E)]].
  - exfalso. unfold fw_frame in Hf.
    pose proof (lookup_lt_Some _ _ _ Hf) as Hlen4.
    rewrite process_frame_ge4 in E by lia.
    unfold byte_at in E. rewrite Hf in E. discriminate E.
  - unfold sensor_frame, fw_frame in *. congruence.
  - rewrite E. rewrite (drop_ge (drop 4 frame) 8) by (rewrite length_drop; lia).
    reflexivity.
Qed.

Lemma firmware_short_frame_empty_text_witness :
  fw_frame fw_short_frame ∧ (length fw_short_frame ≤ 12)%nat ∧
  process_frame (Some fw_short_frame) = ([FW []], Ret tt).
Proof.
  split; [reflexivity|]. split; [cbn; lia|].
  apply (firmware_short_frame_empty_text fw_short_frame); [reflexivity | cbn; lia].
Defined.

(** * Further properties of the driver *)

(** ** A read with nothing pending *)

(** X12: [read_frame_raw] is a no-op on the bus when the transfer line is
    not low: it returns [None] at once, having only sampled the line; it
    starts no block read or write and leaves the line as it was. *)
Theorem read_frame_raw_nothing_pending (dev : Device) (w : World) :
  line_level dev w ≠ 0 →
  ∃ w', read_frame_raw dev w = (w', Ret None) ∧
        trace w' = trace w ++ [XferRead (line_level dev w)] ∧
        pin_xfer w' = pin_xfer w ∧
        n_reads w' = n_reads w ∧ n_writes w' = n_writes w.
Proof.
  intros Hv. unfold read_frame_raw, mbind, HW_bind, xfer_value.
  unfold line_level in *.
  destruct (mode (pin_xfer w));
    match goal with
    | |- context [?v =? 0] => destruct (Z.eqb_spec v 0) as [E|_]; [contradiction|]
    end;
    cbn [negb]; unfold mret, HW_ret;
    eexists; (split; [reflexivity|]); repeat split.
Qed.

Lemma read_frame_raw_nothing_pending_witness :
  line_level dev_idle boot ≠ 0 ∧
  ∃ w', read_frame_raw dev_idle boot = (w', Ret None) ∧
        trace w' = [XferRead 1] ∧ n_reads w' = 0%nat.
Proof.
  assert (H : line_level dev_idle boot ≠ 0) by discriminate.
  split; [exact H|].
  destruct (read_frame_raw_nothing_pending dev_idle boot H)
    as (w' & E & T & _ & R & _).
  exists w'. split; [exact E|]. split; [exact T | exact R].
Defined.

(** ** What a wait costs and leaves behind *)

Lemma poll_resources (dev : Device) (cmd_id : Z) (w : World) :
  (mode (pin_xfer w) = IN_PULL_UP →
   mode (pin_xfer (poll dev cmd_id w).1) = IN_PULL_UP) ∧
  n_writes (poll dev cmd_id w).1 = n_writes w ∧
  (n_reads w ≤ n_reads (poll dev cmd_id w).1 ≤ S (n_reads w))%nat.
Proof.
  unfold poll, mbind, HW_bind, sleep_ms. cbn beta iota.
  destruct (xfer_value_spec dev (log (SleepMs 1) w))
    as (w2 & E2 & _ & P2 & R2 & W2).
  rewrite E2. cbn [log pin_xfer n_reads n_writes] in P2, R2, W2.
  destruct (Z.eqb_spec (line_level dev (log (SleepMs 1) w)) 0) as [Hv|Hv].
  2: { unfold mret, HW_ret. cbn [fst]. rewrite P2, R2, W2.
       repeat split; auto; lia. }
  destruct (Z.eq_dec (line_level dev w2) 0) as [Hv2|Hv2].
  2: { destruct (read_frame_raw_idle dev w2 Hv2) as (w3 & E3 & _ & P3 & R3 & W3).
       rewrite E3. cbn [status_check]. unfold mret, HW_ret. cbn [fst].
       rewrite P3, R3, W3, P2, R2, W2. repeat split; auto; lia. }
  destruct (read_frame_raw_asserted dev w2 Hv2) as (w3 & E3 & _ & P3 & R3 & W3).
  rewrite E3.
  assert (Hres : (mode (pin_xfer w) = IN_PULL_UP → mode (pin_xfer w3) = IN_PULL_UP) ∧
                 n_writes w3 = n_writes w ∧
                 (n_reads w ≤ n_reads w3 ≤ S (n_reads w))%nat).
  { rewrite P3, R3, W3, R2, W2. repeat split; auto; lia. }
  destruct (i2c_read dev (n_reads w2)) as [data|]; [|exact Hres].
  destruct (status_check_spec cmd_id data w3) as [Es|(Es & _)];
    rewrite Es; cbn [fst]; exact Hres.
Qed.

Lemma get_status_expect_resources (dev : Device) (cmd_id : Z) (tries : nat) :
  ∀ w,
    (mode (pin_xfer w) = IN_PULL_UP →
     mode (pin_xfer (get_status_expect dev cmd_id tries w).1) = IN_PULL_UP) ∧
    n_writes (get_status_expect dev cmd_id tries w).1 = n_writes w ∧
    (n_reads w ≤ n_reads (get_status_expect dev cmd_id tries w).1
              ≤ n_reads w + tries)%nat.
Proof.
  induction tries as [|n IH]; intros w.
  - cbn. repeat split; auto; lia.
  - cbn [get_status_expect]. unfold mbind, HW_bind.
    destruct (poll_resources dev cmd_id w) as (Hp & Hw & Hr).
    destruct (poll dev cmd_id w) as [w1 [[|]|e]];
      unfold mret, HW_ret; cbn [fst] in *.
    + repeat split; auto; lia.
    + destruct (IH w1) as (Hp' & Hw' & Hr').
      repeat split; [auto | congruence | lia | lia].
    + repeat split; auto; lia.
Qed.

Lemma write_block_resources (dev : Device) (reg : Z) (data : list Z) (w : World) :
  pin_xfer (write_block dev reg data w).1 = pin_xfer w ∧
  n_writes (write_block dev reg data w).1 = S (n_writes w) ∧
  n_reads (write_block dev reg data w).1 = n_reads w.
Proof.
  unfold write_block, i2c_writeto_mem.
  destruct (i2c_write_ok dev (n_writes w)); repeat split.
Qed.

Lemma run_steps_resources (dev : Device) (steps : list (string * list Z)) :
  ∀ w,
    (mode (pin_xfer w) = IN_PULL_UP →
     mode (pin_xfer (run_steps dev steps w).1) = IN_PULL_UP) ∧
    (n_writes (run_steps dev steps w).1 ≤ n_writes w + length steps)%nat ∧
    (n_reads (run_steps dev steps w).1
       ≤ n_reads w + DEFAULT_TRIES * length steps)%nat.
Proof.
  induction steps as [|s rest IH]; intros w.
  - cbn. repeat split; auto; lia.
  - cbn [run_steps length]. unfold runtime_step, mbind, HW_bind.
    destruct (write_block_resources dev 0x10 s.2 w) as (Pw & Ww & Rw).
    destruct (write_block dev 0x10 s.2 w) as [w1 [[]|e]]; cbn [fst] in *.
    2: { rewrite Pw, Ww, Rw. repeat split; auto; lia. }
    destruct (get_status_expect_resources dev SW_SET_RUNTIME DEFAULT_TRIES w1)
      as (Pg & Wg & Rg).
    destruct (get_status_expect dev SW_SET_RUNTIME DEFAULT_TRIES w1)
      as [w2 [[|]|e]]; cbn [fst negb] in *.
    + unfold mret, HW_ret. destruct (IH w2) as (Pr & Wr & Rr).
      rewrite Pw in Pg. repeat split; [auto | lia | lia].
    + unfold hw_raise. cbn [fst]. rewrite Pw in Pg. repeat split; [auto | lia | lia].
    + rewrite Pw in Pg. repeat split; [auto | lia | lia].
Qed.

(** X13: the transfer line is always handed back.  Started with the line
    an input with pull-up, both the acknowledgement wait and the whole
    configuration leave it an input with pull-up, however they end:
    acknowledged, timed out, or stopped by a bus error. *)
Theorem xfer_line_handed_back (dev : Device) (w : World) :
  mode (pin_xfer w) = IN_PULL_UP →
  (∀ cmd_id tries,
     mode (pin_xfer (get_status_expect dev cmd_id tries w).1) = IN_PULL_UP) ∧
  mode (pin_xfer (configure_runtime dev w).1) = IN_PULL_UP.
Proof.
  intros Hm. split.
  - intros cmd_id tries.
    apply (get_status_expect_resources dev cmd_id tries w). exact Hm.
  - rewrite configure_runtime_unfold.
    apply (run_steps_resources dev RUNTIME_STEPS w). exact Hm.
Qed.

Lemma xfer_line_handed_back_witness :
  mode (pin_xfer boot) = IN_PULL_UP ∧
  (configure_runtime dev_broken boot).2 = Raise OSError ∧
  mode (pin_xfer (configure_runtime dev_broken boot).1) = IN_PULL_UP.
Proof.
  split; [reflexivity|]. split; [vm_compute; reflexivity|].
  apply (xfer_line_handed_back dev_broken boot). reflexivity.
Defined.

(** X14: the bus traffic is bounded.  A wait with [tries] attempts writes
    nothing and reads at most [tries] frames; the whole configuration
    makes at most 4 block writes and at most 40 block reads, whatever the
    device does. *)
Theorem bus_traffic_bounded (dev : Device) (w : World) :
  (∀ cmd_id tries,
     n_writes (get_status_expect dev cmd_id tries w).1 = n_writes w ∧
     (n_reads (get_status_expect dev cmd_id tries w).1 ≤ n_reads w + tries)%nat) ∧
  (n_writes (configure_runtime dev w).1 ≤ n_writes w + 4)%nat ∧
  (n_reads (configure_runtime dev w).1 ≤ n_reads w + 40)%nat.
Proof.
  split.
  - intros cmd_id tries.
    destruct (get_status_expect_resources dev cmd_id tries w) as (_ & Hw & Hr).
    split; [exact Hw | lia].
  - rewrite configure_runtime_unfold.
    destruct (run_steps_resources dev RUNTIME_STEPS w) as (_ & Hw & Hr).
    cbn [length RUNTIME_STEPS] in *. unfold DEFAULT_TRIES in Hr. split; lia.
Qed.

(** ** A wait on a silent line *)

Lemma line_level_input (dev : Device) (w : World) :
  mode (pin_xfer w) = IN_PULL_UP → line_level dev w = xfer_level dev (n_levels w).
Proof. unfold line_level. intros ->. reflexivity. Qed.

Lemma poll_idle (dev : Device) (cmd_id : Z) (w : World) :
  never_asserted dev → mode (pin_xfer w) = IN_PULL_UP →
  ∃ w' v, poll dev cmd_id w = (w', Ret false) ∧
          trace w' = trace w ++ [SleepMs 1; XferRead v] ∧
          pin_xfer w' = pin_xfer w ∧
          n_reads w' = n_reads w ∧ n_writes w' = n_writes w.
Proof.
  intros Hnever Hm.
  unfold poll, mbind, HW_bind, sleep_ms. cbn beta iota.
  destruct (xfer_value_spec dev (log (SleepMs 1) w))
    as (w2 & E2 & T2 & P2 & R2 & W2).
  rewrite E2.
  rewrite (line_level_input dev (log (SleepMs 1) w) Hm) in *.
  destruct (Z.eqb_spec (xfer_level dev (n_levels (log (SleepMs 1) w))) 0)
    as [Hv|_]; [exfalso; exact (Hnever _ Hv)|].
  eexists w2, _. split; [reflexivity|].
  split; [rewrite T2; cbn [log trace]; rewrite <- app_assoc; reflexivity|].
  repeat split; assumption.
Qed.

(** X15: while the device never pulls the transfer line low, a wait makes
    its [tries] attempts and returns [False] without touching the bus: no
    block read, no block write, and the line is never taken over. *)
Theorem wait_on_silent_line (dev : Device) (cmd_id : Z) (tries : nat) (w : World) :
  never_asserted dev → mode (pin_xfer w) = IN_PULL_UP →
  ∃ w' t,
    get_status_expect dev cmd_id tries w = (w', Ret false) ∧
    trace w' = trace w ++ t ∧
    polls t = tries ∧
    Forall (λ op, match op with SleepMs _ | XferRead _ => True | _ => False end) t ∧
    pin_xfer w' = pin_xfer w ∧
    n_reads w' = n_reads w ∧ n_writes w' = n_writes w.
Proof.
  intros Hnever. revert w. induction tries as [|n IH]; intros w Hm.
  - exists w, []. cbn [get_status_expect].
    split; [reflexivity|]. split; [rewrite app_nil_r; reflexivity|].
    repeat split. constructor.
  - cbn [get_status_expect]. unfold mbind, HW_bind.
    destruct (poll_idle dev cmd_id w Hnever Hm)
      as (w1 & v & E1 & T1 & P1 & R1 & W1).
    rewrite E1.
    destruct (IH w1 ltac:(rewrite P1; exact Hm))
      as (w2 & t & E2 & T2 & Hp & Hops & P2 & R2 & W2).
    exists w2, ([SleepMs 1; XferRead v] ++ t).
    split; [exact E2|].
    split; [rewrite T2, T1, <- app_assoc; reflexivity|].
    split; [rewrite polls_app, Hp; reflexivity|].
    split; [repeat constructor; exact Hops|].
    repeat split; congruence.
Qed.

Lemma wait_on_silent_line_witness :
  never_asserted dev_idle ∧ mode (pin_xfer boot) = IN_PULL_UP ∧
  ∃ w' t,
    get_status_expect dev_idle SW_SET_RUNTIME DEFAULT_TRIES boot = (w', Ret false) ∧
    trace w' = t ∧ polls t = 10%nat ∧ n_reads w' = 0%nat.
Proof.
  assert (H : never_asserted dev_idle) by (intros n; discriminate).
  split; [exact H|]. split; [reflexivity|].
  destruct (wait_on_silent_line dev_idle SW_SET_RUNTIME DEFAULT_TRIES boot H eq_refl)
    as (w' & t & E & T & Hp & _ & _ & R & _).
  exists w', t. repeat split; assumption.
Defined.

(** ** A larger budget never hurts *)

(** X16: the result of a wait that ends with an acknowledgement does not
    depend on the tries that were left over: with any larger number of
    tries the wait ends in the same world with the same result. *)
Theorem more_tries_same_success (dev : Device) (cmd_id : Z) (n m : nat)
    (w w' : World) :
  get_status_expect dev cmd_id n w = (w', Ret true) → (n ≤ m)%nat →
  get_status_expect dev cmd_id m w = (w', Ret true).
Proof.
  revert m w. induction n as [|n IH]; intros m w E Hnm.
  - cbn in E. discriminate E.
  - destruct m as [|m]; [lia|].
    cbn [get_status_expect] in *. unfold mbind, HW_bind in *.
    destruct (poll dev cmd_id w) as [w1 [[|]|e]].
    + exact E.
    + apply IH; [exact E | lia].
    + discriminate E.
Qed.

Lemma more_tries_same_success_witness :
  (get_status_expect dev_late SW_SET_RUNTIME 3 boot).2 = Ret true ∧
  get_status_expect dev_late SW_SET_RUNTIME DEFAULT_TRIES boot =
    get_status_expect dev_late SW_SET_RUNTIME 3 boot.
Proof.
  split; [vm_compute; reflexivity|].
  destruct (get_status_expect dev_late SW_SET_RUNTIME 3 boot) as [w' r] eqn:E.
  assert (Hr : r = Ret true)
    by (apply (f_equal snd) in E; vm_compute in E; congruence).
  subst r.
  apply (more_tries_same_success dev_late SW_SET_RUNTIME 3 DEFAULT_TRIES boot w' E).
  unfold DEFAULT_TRIES. lia.
Defined.

(** ** A bus error during the wait *)

Lemma line_level_asserted (dev : Device) (w : World) :
  always_asserted dev → mode (pin_xfer w) = IN_PULL_UP → line_level dev w = 0.
Proof. intros Ha Hm. rewrite line_level_input by exact Hm. apply Ha. Qed.

(** One attempt on a device with data pending: the frame is read and the
    line released. *)
Lemma poll_asserted (dev : Device) (cmd_id : Z) (w : World) :
  always_asserted dev → mode (pin_xfer w) = IN_PULL_UP →
  ∃ w' r,
    poll dev cmd_id w = (w', r) ∧
    trace w' = trace w ++ poll_ops (i2c_read dev (n_reads w)) ∧
    pin_xfer w' = released ∧
    n_reads w' = S (n_reads w) ∧ n_writes w' = n_writes w ∧
    match i2c_read dev (n_reads w) with
    | None => r = Raise OSError
    | Some data =>
      r = Ret (is_ack cmd_id data) ∨
      (r = Raise IndexError ∧ (length data < 5)%nat)
    end.
Proof.
  intros Ha Hm.
  unfold poll, mbind, HW_bind, sleep_ms. cbn beta iota.
  destruct (xfer_value_spec dev (log (SleepMs 1) w))
    as (w2 & E2 & T2 & P2 & R2 & W2).
  rewrite E2. rewrite (line_level_asserted dev (log (SleepMs 1) w) Ha Hm) in *.
  cbn [Z.eqb]. cbn [log trace pin_xfer n_reads n_writes] in T2, P2, R2, W2.
  assert (Hv2 : line_level dev w2 = 0)
    by (apply line_level_asserted; [exact Ha | rewrite P2; exact Hm]).
  destruct (read_frame_raw_asserted dev w2 Hv2) as (w3 & E3 & T3 & P3 & R3 & W3).
  rewrite E3. rewrite R2 in *.
  assert (T : trace w3 = trace w ++ poll_ops (i2c_read dev (n_reads w))).
  { rewrite T3, T2, <- !app_assoc. reflexivity. }
  destruct (i2c_read dev (n_reads w)) as [data|].
  - destruct (status_check_spec cmd_id data w3) as [Es|(Es & _ & Hlen)];
      rewrite Es; eexists w3, _; (split; [reflexivity|]);
      repeat split; try assumption; try congruence; auto.
  - eexists w3, _. split; [reflexivity|].
    repeat split; try assumption; congruence.
Qed.

(** X17: a block read that fails during the wait ends the wait at that
    attempt: with data pending and the read failing, the wait raises
    [OSError] after one attempt, however many tries were left, and the
    line has been released before the error is passed on. *)
Theorem wait_stops_on_bus_error (dev : Device) (cmd_id : Z) (tries : nat) (w : World) :
  always_asserted dev → mode (pin_xfer w) = IN_PULL_UP →
  i2c_read dev (n_reads w) = None →
  ∃ w',
    get_status_expect dev cmd_id (S tries) w = (w', Raise OSError) ∧
    trace w' = trace w ++ poll_ops None ∧
    pin_xfer w' = released.
Proof.
  intros Ha Hm Hrx. cbn [get_status_expect]. unfold mbind, HW_bind.
  destruct (poll_asserted dev cmd_id w Ha Hm) as (w' & r & E & T & P & _ & _ & Hr).
  rewrite Hrx in *. subst r. rewrite E.
  exists w'. split; [reflexivity|]. split; assumption.
Qed.

Lemma wait_stops_on_bus_error_witness :
  always_asserted dev_broken ∧ mode (pin_xfer boot) = IN_PULL_UP ∧
  i2c_read dev_broken (n_reads boot) = None ∧
  ∃ w',
    get_status_expect dev_broken SW_SET_RUNTIME DEFAULT_TRIES boot =
      (w', Raise OSError) ∧
    trace w' = poll_ops None.
Proof.
  assert (H : always_asserted dev_broken) by (intros n; reflexivity).
  split; [exact H|]. split; [reflexivity|]. split; [reflexivity|].
  destruct (wait_stops_on_bus_error dev_broken SW_SET_RUNTIME 9 boot H eq_refl eq_refl)
    as (w' & E & T & _).
  exists w'. split; [exact E | exact T].
Defined.

(** ** Runs of the configuration on three kinds of device *)

Lemma write_block_ok (dev : Device) (reg : Z) (data : list Z) (w : World) :
  i2c_write_ok dev (n_writes w) = true →
  ∃ w', write_block dev reg data w = (w', Ret tt) ∧
        trace w' = trace w ++ [I2CWrite SW_ADDR reg data] ∧
        pin_xfer w' = pin_xfer w.
Proof.
  intros Hok. unfold write_block, i2c_writeto_mem. rewrite Hok.
  eexists. repeat split.
Qed.

Lemma write_block_fails (dev : Device) (reg : Z) (data : list Z) (w : World) :
  i2c_write_ok dev (n_writes w) = false →
  ∃ w', write_block dev reg data w = (w', Raise OSError) ∧
        trace w' = trace w ++ [I2CWrite SW_ADDR reg data].
Proof.
  intros Hok. unfold write_block, i2c_writeto_mem. rewrite Hok.
  eexists. repeat split.
Qed.

Lemma runtime_step_prompt (dev : Device) (s : string * list Z) (w : World) :
  prompt_acks dev SW_SET_RUNTIME → mode (pin_xfer w) = IN_PULL_UP →
  ∃ w' data,
    runtime_step dev s w = (w', Ret tt) ∧
    trace w' = trace w ++ I2CWrite SW_ADDR 0x10 s.2 :: poll_ops (Some data) ∧
    pin_xfer w' = released.
Proof.
  intros (Ha & Hack & Hok) Hm. unfold runtime_step, mbind, HW_bind.
  destruct (write_block_ok dev 0x10 s.2 w (Hok _)) as (w1 & E1 & T1 & P1).
  rewrite E1. unfold DEFAULT_TRIES. cbn [get_status_expect].
  unfold mbind, HW_bind.
  destruct (poll_asserted dev SW_SET_RUNTIME w1 Ha ltac:(rewrite P1; exact Hm))
    as (w2 & r & E2 & T2 & P2 & _ & _ & Hr).
  destruct (Hack (n_reads w1)) as (data & Hd & Hda). rewrite Hd in *.
  rewrite E2.
  destruct Hr as [-> | [_ Hlen]];
    [|apply is_ack_length in Hda; lia].
  rewrite Hda. cbn [negb]. unfold mret, HW_ret.
  exists w2, data. split; [reflexivity|]. split; [|exact P2].
  rewrite T2, T1, <- app_assoc. reflexivity.
Qed.

Lemma run_steps_prompt (dev : Device) (steps : list (string * list Z)) :
  prompt_acks dev SW_SET_RUNTIME →
  ∀ w, mode (pin_xfer w) = IN_PULL_UP →
  ∃ w' t,
    run_steps dev steps w = (w', Ret tt) ∧
    trace w' = trace w ++ t ∧
    writes t = map (λ s, (0x10, s.2)) steps ∧
    polls t = length steps ∧
    mode (pin_xfer w') = IN_PULL_UP.
Proof.
  intros Hp. induction steps as [|s rest IH]; intros w Hm.
  - exists w, []. split; [reflexivity|].
    split; [rewrite app_nil_r; reflexivity|]. repeat split. exact Hm.
  - cbn [run_steps]. unfold mbind, HW_bind.
    destruct (runtime_step_prompt dev s w Hp Hm) as (w1 & data & E1 & T1 & P1).
    rewrite E1.
    destruct (IH w1 ltac:(rewrite P1; reflexivity)) as (w2 & t & E2 & T2 & Hw & Hpl & Hm2).
    exists w2, ((I2CWrite SW_ADDR 0x10 s.2 :: poll_ops (Some data)) ++ t).
    split; [exact E2|].
    split; [rewrite T2, T1, <- app_assoc; reflexivity|].
    split; [rewrite writes_app, Hw; reflexivity|].
    split; [rewrite polls_app, Hpl; reflexivity | exact Hm2].
Qed.

(** X18: on a device that has data pending, acknowledges SET_RUNTIME in
    every frame and accepts every write, the configuration succeeds: it
    writes the four blocks in order, each acknowledged at the first
    polling attempt (four attempts in all), and hands the line back. *)
Theorem configure_runtime_succeeds (dev : Device) (w : World) :
  prompt_acks dev SW_SET_RUNTIME → mode (pin_xfer w) = IN_PULL_UP →
  ∃ w' t,
    configure_runtime dev w = (w', Ret tt) ∧
    trace w' = trace w ++ t ∧
    writes t = map (λ s, (0x10, s.2)) RUNTIME_STEPS ∧
    polls t = 4%nat ∧
    mode (pin_xfer w') = IN_PULL_UP.
Proof.
  intros Hp Hm. rewrite configure_runtime_unfold.
  apply (run_steps_prompt dev RUNTIME_STEPS Hp w Hm).
Qed.

Lemma dev_ack_prompt : prompt_acks dev_ack SW_SET_RUNTIME.
Proof.
  split; [intros n; reflexivity|]. split; [|intros n; reflexivity].
  intros n. exists ack_frame. split; reflexivity.
Qed.

Lemma configure_runtime_succeeds_witness :
  prompt_acks dev_ack SW_SET_RUNTIME ∧ mode (pin_xfer boot) = IN_PULL_UP ∧
  ∃ w' t, configure_runtime dev_ack boot = (w', Ret tt) ∧
          trace w' = t ∧ polls t = 4%nat.
Proof.
  split; [exact dev_ack_prompt|]. split; [reflexivity|].
  destruct (configure_runtime_succeeds dev_ack boot dev_ack_prompt eq_refl)
    as (w' & t & E & T & _ & Hp & _).
  exists w', t. repeat split; assumption.
Defined.

Lemma run_steps_cons (dev : Device) (s : string * list Z)
    (rest : list (string * list Z)) (w : World) :
  run_steps dev (s :: rest) w =
    match runtime_step dev s w with
    | (w1, Ret _) => run_steps dev rest w1
    | (w1, Raise e) => (w1, Raise e)
    end.
Proof. reflexivity. Qed.

Lemma runtime_step_mute (dev : Device) (s : string * list Z) (w : World) :
  never_acks dev SW_SET_RUNTIME → i2c_write_ok dev (n_writes w) = true →
  ∃ w' t,
    runtime_step dev s w = (w', Raise (RuntimeError s.1)) ∧
    trace w' = trace w ++ I2CWrite SW_ADDR 0x10 s.2 :: t ∧
    no_write t ∧ polls t = DEFAULT_TRIES.
Proof.
  intros Hnever Hok. unfold runtime_step, mbind, HW_bind.
  destruct (write_block_ok dev 0x10 s.2 w Hok) as (w1 & E1 & T1 & _).
  rewrite E1.
  destruct (get_status_expect_spec dev SW_SET_RUNTIME DEFAULT_TRIES w1)
    as (w2 & r & t & E2 & T2 & Hnw & Hr & H).
  rewrite E2. rewrite (Hr Hnever) in *. cbn [negb]. unfold hw_raise.
  destruct H as (Hp & _).
  exists w2, t. split; [reflexivity|].
  split; [rewrite T2, T1, <- app_assoc; reflexivity|].
  split; assumption.
Qed.

Lemma runtime_step_write_fails (dev : Device) (s : string * list Z) (w : World) :
  i2c_write_ok dev (n_writes w) = false →
  ∃ w', runtime_step dev s w = (w', Raise OSError) ∧
        trace w' = trace w ++ [I2CWrite SW_ADDR 0x10 s.2].
Proof.
  intros Hok. unfold runtime_step, mbind, HW_bind.
  destruct (write_block_fails dev 0x10 s.2 w Hok) as (w1 & E1 & T1).
  rewrite E1. exists w1. split; [reflexivity | exact T1].
Qed.

(** X19: on a device that accepts the first write and never acknowledges,
    the configuration stops at its first step: one block is written (the
    air-wheel block), the wait makes its ten attempts, and the error
    raised is the one of the air-wheel step; the other three blocks are
    never written. *)
Theorem configure_runtime_fails_at_first_step (dev : Device) (w : World) :
  never_acks dev SW_SET_RUNTIME → i2c_write_ok dev (n_writes w) = true →
  ∃ w' t,
    configure_runtime dev w =
      (w', Raise (RuntimeError "SET_RUNTIME (AirWheel) no status")) ∧
    trace w' = trace w ++ t ∧
    writes t = [(0x10, [ 0x00; 0x00; SW_SET_RUNTIME; 0x90; 0x00; 0x00; 0x00;
                         0x20; 0x00; 0x00; 0x00;  0x20; 0x00; 0x00; 0x00 ])] ∧
    polls t = 10%nat.
Proof.
  intros Hnever Hok. rewrite configure_runtime_unfold.
  unfold RUNTIME_STEPS. rewrite run_steps_cons.
  match goal with
  | |- context [runtime_step dev ?s w] =>
    destruct (runtime_step_mute dev s w Hnever Hok) as (w1 & t & E & T & Hnw & Hp)
  end.
  rewrite E. cbn [fst snd] in *.
  eexists w1, (_ :: t). split; [reflexivity|]. split; [exact T|]. split.
  - change (?op :: t) with ([op] ++ t).
    rewrite writes_app, (writes_no_write t Hnw). reflexivity.
  - change (?op :: t) with ([op] ++ t).
    rewrite polls_app, Hp. reflexivity.
Qed.

Lemma configure_runtime_fails_at_first_step_witness :
  never_acks dev_mute SW_SET_RUNTIME ∧ i2c_write_ok dev_mute (n_writes boot) = true ∧
  ∃ w' t,
    configure_runtime dev_mute boot =
      (w', Raise (RuntimeError "SET_RUNTIME (AirWheel) no status")) ∧
    trace w' = t ∧ polls t = 10%nat.
Proof.
  split; [exact dev_mute_never_acks|]. split; [reflexivity|].
  destruct (configure_runtime_fails_at_first_step dev_mute boot
              dev_mute_never_acks eq_refl) as (w' & t & E & T & _ & Hp).
  exists w', t. repeat split; assumption.
Defined.

(** X20: a block write that fails is not retried and not waited for: when
    the first write fails, the configuration raises [OSError] with that
    one write as its only operation; it polls nothing and writes nothing
    more. *)
Theorem configure_runtime_write_error (dev : Device) (w : World) :
  i2c_write_ok dev (n_writes w) = false →
  ∃ w' blk,
    configure_runtime dev w = (w', Raise OSError) ∧
    trace w' = trace w ++ [I2CWrite SW_ADDR 0x10 blk] ∧
    RUNTIME_STEPS.*2 !! 0%nat = Some blk.
Proof.
  intros Hok. rewrite configure_runtime_unfold.
  unfold RUNTIME_STEPS. rewrite run_steps_cons.
  match goal with
  | |- context [runtime_step dev ?s w] =>
    destruct (runtime_step_write_fails dev s w Hok) as (w1 & E & T);
    rewrite E; exists w1, s.2
  end.
  split; [reflexivity|]. split; [exact T | reflexivity].
Qed.

Lemma configure_runtime_write_error_witness :
  i2c_write_ok dev_no_write (n_writes boot) = false ∧
  ∃ w' blk, configure_runtime dev_no_write boot = (w', Raise OSError) ∧
            trace w' = [I2CWrite SW_ADDR 0x10 blk].
Proof.
  split; [reflexivity|].
  destruct (configure_runtime_write_error dev_no_write boot eq_refl)
    as (w' & blk & E & T & _).
  exists w', blk. split; [exact E | exact T].
Defined.

(** ** Reset, then configuration *)

Lemma config_trace_starts_with_write (s : string * list Z)
    (rest : list (string * list Z)) (t : list HwOp) (r : outcome unit) :
  config_trace (s :: rest) t r → ∃ t', t = I2CWrite SW_ADDR 0x10 s.2 :: t'.
Proof. intros H. inversion H; subst; eexists; reflexivity. Qed.

(** X21: [main] prints its two banner lines, holds the reset line low for
    100 ms, raises it and waits 500 ms, and only then touches the bus; its
    first bus operation is the write of the first configuration block.
    The line ["Configured. ..."] is printed exactly when
    [configure_runtime] returned normally; when the configuration fails,
    [main] raises the same error and does nothing more.  The reset line is
    left high. *)
Theorem main_resets_then_configures (dev : Device) (now : Z) (b : Board) :
  ∃ w' rc t t',
    configure_runtime dev (log (SleepMs 500) (log (SleepMs 100) (hw b))) = (w', rc) ∧
    trace w' = trace (hw b) ++ [SleepMs 100; SleepMs 500] ++ t ∧
    config_trace RUNTIME_STEPS t rc ∧
    t = I2CWrite SW_ADDR 0x10
          [ 0x00; 0x00; SW_SET_RUNTIME; 0x90; 0x00; 0x00; 0x00;
            0x20; 0x00; 0x00; 0x00;  0x20; 0x00; 0x00; 0x00 ] :: t' ∧
    main dev now b =
      (mkBoard 1 w' (events b ++ main_prelude ++ map Hw t ++ main_epilogue rc), rc).
Proof.
  set (w0 := log (SleepMs 500) (log (SleepMs 100) (hw b))).
  destruct (run_steps_trace dev RUNTIME_STEPS w0) as (w' & rc & t & E & T & C).
  rewrite <- configure_runtime_unfold in E.
  destruct (config_trace_starts_with_write _ _ _ _ C) as (t' & Ht).
  exists w', rc, t, t'. split; [exact E|]. split; [|split; [exact C|split; [exact Ht|]]].
  - rewrite T. subst w0. cbn [log trace]. rewrite <- !app_assoc. reflexivity.
  - unfold main, hw_reset, mbind, Main_bind, console, rst_value, lift_hw,
      sleep_ms, ticks_ms, mret, Main_ret.
    cbn [hw pin_rst events log trace pin_xfer n_levels n_reads n_writes].
    rewrite !drop_app_length. fold w0. rewrite E.
    assert (Hd : drop (length (trace (hw b) ++ [SleepMs 100]))
                      ((trace (hw b) ++ [SleepMs 100]) ++ [SleepMs 500]) =
                 [SleepMs 500]) by apply drop_app_length.
    assert (Ht0 : trace w0 = (trace (hw b) ++ [SleepMs 100]) ++ [SleepMs 500])
      by reflexivity.
    assert (Hd' : drop (length ((trace (hw b) ++ [SleepMs 100]) ++ [SleepMs 500]))
                       (trace w') = t)
      by (rewrite T, Ht0; apply drop_app_length).
    destruct rc as [[]|e]; cbn [main_epilogue];
      rewrite ?Hd, ?Hd'; cbn [hw pin_rst events map]; rewrite ?Hd, ?Hd';
      unfold main_prelude; cbn [map];
      repeat (rewrite <- app_assoc; cbn [app]); rewrite ?app_nil_r;
      reflexivity.
Qed.

(** On a device that never acknowledges, [main] stops with the error of
    the first step and never prints that it is configured. *)
Example main_on_mute_device :
  (main dev_mute 0 board0).2 =
    Raise (RuntimeError "SET_RUNTIME (AirWheel) no status") ∧
  List.filter (λ op, match op with Console _ => true | _ => false end)
              (events (main dev_mute 0 board0).1) =
    [ Console "Skywriter (MGC3130) – MicroPython minimal poller";
      Console "I2C0 on GP20/GP21, RST=GP17, TSXFR=GP27, addr=0x42" ].
Proof. split; vm_compute; reflexivity. Qed.

(** * Runtime configuration, from the side of the device (C6) *)

(** One attempt on a device whose next block read returns a frame that is
    not an acknowledgement: the attempt finds nothing. *)
Lemma poll_mute_local (dev : Device) (cmd_id : Z) (w : World) :
  (∃ d, i2c_read dev (n_reads w) = Some d ∧ (5 ≤ length d)%nat ∧
        is_ack cmd_id d = false) →
  (poll dev cmd_id w).2 = Ret false.
Proof.
  intros (d & Hd & Hlen & Hno).
  unfold poll, mbind, HW_bind, sleep_ms. cbn beta iota.
  destruct (xfer_value_spec dev (log (SleepMs 1) w))
    as (w2 & E2 & _ & _ & R2 & _).
  rewrite E2. cbn [log n_reads] in R2.
  destruct (Z.eqb_spec (line_level dev (log (SleepMs 1) w)) 0) as [Hv|Hv];
    [|reflexivity].
  destruct (Z.eq_dec (line_level dev w2) 0) as [Hv2|Hv2].
  2: { destruct (read_frame_raw_idle dev w2 Hv2) as (w3 & E3 & _).
       rewrite E3. reflexivity. }
  destruct (read_frame_raw_asserted dev w2 Hv2) as (w3 & E3 & _).
  rewrite E3, R2, Hd.
  destruct (status_check_spec cmd_id d w3) as [Es|(Es & _ & Hshort)];
    [|lia].
  rewrite Es, Hno. reflexivity.
Qed.

(** A wait on a device that, from the next block read on, never
    acknowledges: it gives up. *)
Lemma wait_mute_outcome (dev : Device) (cmd_id : Z) (tries : nat) :
  ∀ w,
    (∀ n, (n_reads w ≤ n)%nat →
       ∃ d, i2c_read dev n = Some d ∧ (5 ≤ length d)%nat ∧
            is_ack cmd_id d = false) →
    (get_status_expect dev cmd_id tries w).2 = Ret false.
Proof.
  induction tries as [|n IH]; intros w Hmute; [reflexivity|].
  cbn [get_status_expect]. unfold mbind, HW_bind.
  pose proof (poll_mute_local dev cmd_id w (Hmute _ (Nat.le_refl _))) as Hp.
  destruct (poll_resources dev cmd_id w) as (_ & _ & Hr).
  destruct (poll dev cmd_id w) as [w1 r]. cbn [fst snd] in *. subst r.
  apply IH. intros m Hm. apply Hmute. lia.
Qed.

Lemma runtime_step_mute_local (dev : Device) (s : string * list Z) (w : World) :
  i2c_write_ok dev (n_writes w) = true →
  (∀ n, (n_reads w ≤ n)%nat →
     ∃ d, i2c_read dev n = Some d ∧ (5 ≤ length d)%nat ∧
          is_ack SW_SET_RUNTIME d = false) →
  ∃ w' t,
    runtime_step dev s w = (w', Raise (RuntimeError s.1)) ∧
    trace w' = trace w ++ I2CWrite SW_ADDR 0x10 s.2 :: t ∧
    no_write t ∧ polls t = DEFAULT_TRIES.
Proof.
  intros Hok Hmute. unfold runtime_step, mbind, HW_bind.
  destruct (write_block_resources dev 0x10 s.2 w) as (_ & _ & Rw).
  destruct (write_block_ok dev 0x10 s.2 w Hok) as (w1 & E1 & T1 & _).
  rewrite E1 in *. cbn [fst] in Rw.
  destruct (get_status_expect_spec dev SW_SET_RUNTIME DEFAULT_TRIES w1)
    as (w2 & r & t & E2 & T2 & Hnw & _ & H).
  pose proof (wait_mute_outcome dev SW_SET_RUNTIME DEFAULT_TRIES w1
                ltac:(rewrite Rw; exact Hmute)) as Hr.
  rewrite E2 in *. cbn [snd] in Hr. subst r. cbn [negb]. unfold hw_raise.
  destruct H as (Hp & _).
  exists w2, t. split; [reflexivity|].
  split; [rewrite T2, T1, <- app_assoc; reflexivity|].
  split; assumption.
Qed.

Lemma runtime_step_ack_local (dev : Device) (s : string * list Z) (w : World)
    (data : list byte) :
  always_asserted dev → mode (pin_xfer w) = IN_PULL_UP →
  i2c_write_ok dev (n_writes w) = true →
  i2c_read dev (n_reads w) = Some data → is_ack SW_SET_RUNTIME data = true →
  ∃ w',
    runtime_step dev s w = (w', Ret tt) ∧
    trace w' = trace w ++ I2CWrite SW_ADDR 0x10 s.2 :: poll_ops (Some data) ∧
    pin_xfer w' = released ∧
    n_reads w' = S (n_reads w) ∧ n_writes w' = S (n_writes w).
Proof.
  intros Ha Hm Hok Hrx Hack. unfold runtime_step, mbind, HW_bind.
  destruct (write_block_resources dev 0x10 s.2 w) as (_ & Ww & Rw).
  destruct (write_block_ok dev 0x10 s.2 w Hok) as (w1 & E1 & T1 & P1).
  rewrite E1 in *. cbn [fst] in Ww, Rw.
  unfold DEFAULT_TRIES. cbn [get_status_expect]. unfold mbind, HW_bind.
  destruct (poll_asserted dev SW_SET_RUNTIME w1 Ha ltac:(rewrite P1; exact Hm))
    as (w2 & r & E2 & T2 & P2 & R2 & W2 & Hr).
  rewrite Rw, Hrx in *. rewrite E2.
  destruct Hr as [-> | [_ Hlen]]; [|apply is_ack_length in Hack; lia].
  rewrite Hack. cbn [negb]. unfold mret, HW_ret.
  exists w2. split; [reflexivity|].
  split; [rewrite T2, T1, <- app_assoc; reflexivity|].
  repeat split; [exact P2 | lia | lia].
Qed.

(** A device that acknowledges its next [j] block reads at once and
    nothing after makes the run fail at the step [j + 1]: the blocks of
    the steps up to that one are written, its wait gives up, and the error
    is the one of that step. *)
Lemma run_steps_fail_at (dev : Device) (steps : list (string * list Z)) :
  always_asserted dev → (∀ n, i2c_write_ok dev n = true) →
  ∀ (j : nat) (w : World),
    (j < length steps)%nat →
    mode (pin_xfer w) = IN_PULL_UP →
    (∀ i, (i < j)%nat →
       ∃ d, i2c_read dev (n_reads w + i) = Some d ∧
            is_ack SW_SET_RUNTIME d = true) →
    (∀ n, (n_reads w + j ≤ n)%nat →
       ∃ d, i2c_read dev n = Some d ∧ (5 ≤ length d)%nat ∧
            is_ack SW_SET_RUNTIME d = false) →
    ∃ w' t s,
      steps !! j = Some s ∧
      run_steps dev steps w = (w', Raise (RuntimeError s.1)) ∧
      trace w' = trace w ++ t ∧
      writes t = take (S j) (map (λ s, (0x10, s.2)) steps) ∧
      polls t = (j + DEFAULT_TRIES)%nat.
Proof.
  intros Ha Hok. induction steps as [|s rest IH]; intros j w Hj Hm Hacks Hmute;
    [cbn in Hj; lia|].
  rewrite run_steps_cons. destruct j as [|j].
  - destruct (runtime_step_mute_local dev s w (Hok _)
                ltac:(intros n Hn; apply Hmute; lia))
      as (w1 & t & E & T & Hnw & Hp).
    rewrite E. exists w1, (I2CWrite SW_ADDR 0x10 s.2 :: t), s.
    split; [reflexivity|]. split; [reflexivity|]. split; [exact T|]. split.
    + change (?op :: t) with ([op] ++ t).
      rewrite writes_app, (writes_no_write t Hnw). reflexivity.
    + change (?op :: t) with ([op] ++ t). rewrite polls_app, Hp. reflexivity.
  - destruct (Hacks 0%nat ltac:(lia)) as (d & Hd & Hda).
    rewrite Nat.add_0_r in Hd.
    destruct (runtime_step_ack_local dev s w d Ha Hm (Hok _) Hd Hda)
      as (w1 & E & T & P & R & _).
    rewrite E.
    destruct (IH j w1) as (w2 & t & s' & Hs' & E2 & T2 & Hw & Hp).
    + cbn in Hj. lia.
    + rewrite P. reflexivity.
    + intros i Hi. rewrite R.
      replace (S (n_reads w) + i)%nat with (n_reads w + S i)%nat by lia.
      apply Hacks. lia.
    + intros n Hn. apply Hmute. lia.
    + exists w2, ((I2CWrite SW_ADDR 0x10 s.2 :: poll_ops (Some d)) ++ t), s'.
      split; [exact Hs'|]. split; [exact E2|].
      split; [rewrite T2, T, <- app_assoc; reflexivity|]. split.
      * rewrite writes_app, Hw. reflexivity.
      * rewrite polls_app, Hp. reflexivity.
Qed.

(** C6: [configure_runtime] writes the blocks of its four steps to the
    control register [0x10], in the fixed order (air-wheel, gestures, data
    outputs with mask [0x1F], auto-calibration off), each block of 15
    bytes, and after every write waits for a SYSTEM_STATUS frame that
    echoes SET_RUNTIME: it is the run of the four steps one after the
    other.  On a device that acknowledges at once it writes all four
    blocks and returns normally.  When the wait of a step gives up after
    its [DEFAULT_TRIES] attempts the run ends with the error that names
    that step and no block of a later step is written: a device that
    acknowledges the first [j] steps and nothing after makes the run fail
    with the error of the step [j + 1], having written the blocks of the
    steps 1 to [j + 1] only.  So the writes of any run are the blocks of
    the first [k] steps, with [k = 4] for a run that succeeds and [k] the
    failing step for a run that times out. *)
Theorem configure_runtime_in_order (dev : Device) (w : World) :
  length RUNTIME_STEPS = 4%nat ∧
  Forall (λ s, length s.2 = 15%nat) RUNTIME_STEPS ∧
  enable_mask = 0x1F ∧
  configure_runtime dev w = run_steps dev RUNTIME_STEPS w ∧
  (∃ w' r t,
    configure_runtime dev w = (w', r) ∧
    trace w' = trace w ++ t ∧
    config_trace RUNTIME_STEPS t r ∧
    ∃ k, (1 ≤ k ≤ 4)%nat ∧
         writes t = take k (map (λ s, (0x10, s.2)) RUNTIME_STEPS) ∧
         (r = Ret tt → k = 4%nat) ∧
         (∀ m, r = Raise (RuntimeError m) →
               RUNTIME_STEPS.*1 !! (k - 1)%nat = Some m)) ∧
  (prompt_acks dev SW_SET_RUNTIME → mode (pin_xfer w) = IN_PULL_UP →
   ∃ w' t,
     configure_runtime dev w = (w', Ret tt) ∧
     trace w' = trace w ++ t ∧
     writes t = map (λ s, (0x10, s.2)) RUNTIME_STEPS ∧
     polls t = 4%nat) ∧
  (∀ j,
     (j < 4)%nat →
     always_asserted dev → (∀ n, i2c_write_ok dev n = true) →
     mode (pin_xfer w) = IN_PULL_UP →
     (∀ i, (i < j)%nat →
        ∃ d, i2c_read dev (n_reads w + i) = Some d ∧
             is_ack SW_SET_RUNTIME d = true) →
     (∀ n, (n_reads w + j ≤ n)%nat →
        ∃ d, i2c_read dev n = Some d ∧ (5 ≤ length d)%nat ∧
             is_ack SW_SET_RUNTIME d = false) →
     ∃ w' t s,
       RUNTIME_STEPS !! j = Some s ∧
       configure_runtime dev w = (w', Raise (RuntimeError s.1)) ∧
       trace w' = trace w ++ t ∧
       writes t = take (S j) (map (λ s, (0x10, s.2)) RUNTIME_STEPS) ∧
       polls t = (j + DEFAULT_TRIES)%nat).
Proof.
  split; [reflexivity|]. split; [repeat constructor|]. split; [reflexivity|].
  split; [apply configure_runtime_unfold|].
  rewrite configure_runtime_unfold. split; [|split].
  - destruct (run_steps_trace dev RUNTIME_STEPS w) as (w' & r & t & E & T & C).
    exists w', r, t. split; [exact E|]. split; [exact T|]. split; [exact C|].
    destruct (config_trace_writes _ _ _ C) as (k & Hk & Hw & Hok & Hpos & Herr).
    exists k. split; [|split; [exact Hw|split; [exact Hok | exact Herr]]].
    cbn [length RUNTIME_STEPS] in Hk. split; [|exact Hk].
    destruct r as [[]|e]; [rewrite (Hok eq_refl); cbn; lia | exact (Hpos e eq_refl)].
  - intros Hp Hm.
    destruct (run_steps_prompt dev RUNTIME_STEPS Hp w Hm)
      as (w' & t & E & T & Hw & Hpl & _).
    exists w', t. repeat split; assumption.
  - intros j Hj Ha Hok Hm Hacks Hmute.
    apply (run_steps_fail_at dev RUNTIME_STEPS Ha Hok j w); assumption.
Qed.

Lemma dev_two_acks_first_two (i : nat) :
  (i < 2)%nat →
  ∃ d, i2c_read dev_two_acks (n_reads boot + i) = Some d ∧
       is_ack SW_SET_RUNTIME d = true.
Proof.
  intros Hi. exists ack_frame.
  destruct i as [|[|i]]; [split; reflexivity | split; reflexivity | lia].
Qed.

Lemma dev_two_acks_then_mute (n : nat) :
  (n_reads boot + 2 ≤ n)%nat →
  ∃ d, i2c_read dev_two_acks n = Some d ∧ (5 ≤ length d)%nat ∧
       is_ack SW_SET_RUNTIME d = false.
Proof.
  intros Hn. exists idle_frame. cbn in Hn. cbn [dev_two_acks i2c_read].
  destruct (Nat.ltb_spec n 2) as [|_]; [lia|].
  split; [reflexivity|]. split; [cbn; lia | reflexivity].
Qed.

Lemma configure_runtime_in_order_witness :
  ((configure_runtime dev_mute boot).2 =
     Raise (RuntimeError "SET_RUNTIME (AirWheel) no status") ∧
   ∃ k, (1 ≤ k ≤ 4)%nat ∧
        RUNTIME_STEPS.*1 !! (k - 1)%nat = Some "SET_RUNTIME (AirWheel) no status"%string) ∧
  (prompt_acks dev_ack SW_SET_RUNTIME ∧ mode (pin_xfer boot) = IN_PULL_UP ∧
   ∃ w' t, configure_runtime dev_ack boot = (w', Ret tt) ∧
           trace w' = t ∧
           writes t = map (λ s, (0x10, s.2)) RUNTIME_STEPS ∧ polls t = 4%nat) ∧
  (∃ w' t,
     configure_runtime dev_two_acks boot =
       (w', Raise (RuntimeError "SET_RUNTIME (data outputs) no status")) ∧
     trace w' = t ∧
     writes t = take 3 (map (λ s, (0x10, s.2)) RUNTIME_STEPS) ∧
     polls t = 12%nat).
Proof.
  split; [|split].
  - assert (Hr : (configure_runtime dev_mute boot).2 =
                 Raise (RuntimeError "SET_RUNTIME (AirWheel) no status"))
      by (vm_compute; reflexivity).
    split; [exact Hr|].
    destruct (configure_runtime_in_order dev_mute boot)
      as (_ & _ & _ & _ & (w' & r & t & E & _ & _ & k & Hk & _ & _ & Herr) & _).
    rewrite E in Hr. cbn [snd] in Hr.
    exists k. split; [exact Hk | exact (Herr _ Hr)].
  - split; [exact dev_ack_prompt|]. split; [reflexivity|].
    destruct (configure_runtime_in_order dev_ack boot)
      as (_ & _ & _ & _ & _ & H & _).
    destruct (H dev_ack_prompt eq_refl) as (w' & t & E & T & Hw & Hp).
    exists w', t. repeat split; assumption.
  - destruct (configure_runtime_in_order dev_two_acks boot)
      as (_ & _ & _ & _ & _ & _ & H).
    destruct (H 2%nat ltac:(lia) ltac:(intros n; reflexivity)
                ltac:(intros n; reflexivity) eq_refl
                dev_two_acks_first_two dev_two_acks_then_mute)
      as (w' & t & s & Hs & E & T & Hw & Hp).
    cbn in Hs. injection Hs as <-.
    exists w', t. repeat split; assumption.
Defined.
